(** * Agentic batch processing: a shallow embedding of the job-execution core

    The development follows the Python sources of the repository:
    - [core/models.py]: the enums and the dataclasses [WorkUnit], [Job],
      [WorkerProcess];
    - [persistence/repository.py]: the SQLite repository, its connection
      context manager and its row conversions;
    - [workers/base.py], [workers/claude_cli_worker.py]: the worker result and
      the agent driver (prompt rendering, command line, event stream);
    - [core/worker_pool.py]: the body run for one submitted unit;
    - [core/job_executor.py]: the executor callbacks, the final-status rule
      and the process controls;
    - [core/orchestrator.py]: the test phase.

    Python integers are [Z], floats are the kernel's binary64 [float],
    strings are [string], dicts are association lists in insertion order,
    [None]-able values are [option]s.  Code that mutates objects and the
    database is written in a state monad over a [world]. *)

From Stdlib Require Import ZArith PrimFloat SpecFloat FloatOps Ascii Sorted.
From stdpp Require Import base option list strings pretty.

Set Warnings "-register-all".
Local Open Scope Z_scope.
Local Open Scope string_scope.

(** ** Python values *)

(** JSON-representable Python values: what [json.dumps] accepts and
    [json.loads] returns. *)
Inductive json :=
| JNull
| JBool (b : bool)
| JInt (z : Z)
| JFloat (f : float)
| JStr (s : string)
| JList (l : list json)
| JDict (d : list (string * json)).

(** [Dict[str, Any]]: keys are unique and kept in insertion order. *)
Definition pydict := list (string * json).

(** [d.get(k)] *)
Fixpoint dict_get {V : Type} (k : string) (d : list (string * V)) : option V :=
  match d with
  | [] => None
  | (k', v) :: d' => if String.eqb k k' then Some v else dict_get k d'
  end.

(** [d[k] = v]: overwrite in place, or append a new key. *)
Fixpoint dict_set {V : Type} (k : string) (v : V) (d : list (string * V)) : list (string * V) :=
  match d with
  | [] => [(k, v)]
  | (k', v') :: d' => if String.eqb k k' then (k, v) :: d' else (k', v') :: dict_set k v d'
  end.

(** [k in d] *)
Definition dict_mem {V : Type} (k : string) (d : list (string * V)) : bool :=
  match dict_get k d with Some _ => true | None => false end.

(** Truth value of a string: [bool(s)]. *)
Definition str_truthy (s : string) : bool := negb (String.eqb s "").

(** Truth value of a float: [bool(x)], false exactly on [0.0] and [-0.0]. *)
Definition float_truthy (x : float) : bool := negb (PrimFloat.eqb x 0%float).

(** Truth value of a Python value. *)
Definition truthy (v : json) : bool :=
  match v with
  | JNull => false
  | JBool b => b
  | JInt z => negb (Z.eqb z 0)
  | JFloat f => float_truthy f
  | JStr s => str_truthy s
  | JList l => match l with [] => false | _ => true end
  | JDict d => match d with [] => false | _ => true end
  end.

(** Truth value of an optional value, [bool(x)] for [x : Optional[T]]. *)
Definition opt_truthy {A : Type} (t : A -> bool) (x : option A) : bool :=
  match x with Some a => t a | None => false end.

Definition list_truthy {A : Type} (l : list A) : bool :=
  match l with [] => false | _ => true end.

(** [x if x else None] on an optional container. *)
Definition keep_if {A : Type} (t : A -> bool) (x : option A) : option A :=
  match x with Some a => if t a then Some a else None | None => None end.

Definition opt_json {A : Type} (f : A -> json) (x : option A) : json :=
  match x with Some a => f a | None => JNull end.

(** [s[:n]] *)
Definition str_prefix (n : nat) (s : string) : string := String.substring 0 n s.

(** A naive [datetime]: it is identified with the ISO-8601 text that
    [isoformat()] prints, which is how the repository stores it and how
    [datetime.fromisoformat] rebuilds it. *)
Record datetime := mk_datetime { isoformat : string }.

Definition fromisoformat (s : string) : datetime := mk_datetime s.

(** ** core/models.py *)

Inductive WorkUnitStatus := PENDING | ASSIGNED | PROCESSING | COMPLETED | FAILED.

Inductive JobStatus :=
| JOB_CREATED | JOB_TESTING | JOB_READY | JOB_RUNNING | JOB_PAUSED
| JOB_POST_PROCESSING | JOB_COMPLETED | JOB_FAILED.

Inductive WorkerStatus := IDLE | BUSY | WORKER_FAILED | TERMINATED.

#[global] Instance WorkUnitStatus_eq_dec : EqDecision WorkUnitStatus.
Proof. solve_decision. Defined.
#[global] Instance JobStatus_eq_dec : EqDecision JobStatus.
Proof. solve_decision. Defined.
#[global] Instance WorkerStatus_eq_dec : EqDecision WorkerStatus.
Proof. solve_decision. Defined.

(** [WorkUnitStatus.X.value] *)
Definition WorkUnitStatus_value (s : WorkUnitStatus) : string :=
  match s with
  | PENDING => "pending" | ASSIGNED => "assigned" | PROCESSING => "processing"
  | COMPLETED => "completed" | FAILED => "failed"
  end.

(** [WorkUnitStatus(text)]; [None] stands for the [ValueError]. *)
Definition WorkUnitStatus_of_value (s : string) : option WorkUnitStatus :=
  if String.eqb s "pending" then Some PENDING
  else if String.eqb s "assigned" then Some ASSIGNED
  else if String.eqb s "processing" then Some PROCESSING
  else if String.eqb s "completed" then Some COMPLETED
  else if String.eqb s "failed" then Some FAILED
  else None.

Definition JobStatus_value (s : JobStatus) : string :=
  match s with
  | JOB_CREATED => "created" | JOB_TESTING => "testing" | JOB_READY => "ready"
  | JOB_RUNNING => "running" | JOB_PAUSED => "paused"
  | JOB_POST_PROCESSING => "post_processing" | JOB_COMPLETED => "completed"
  | JOB_FAILED => "failed"
  end.

Definition JobStatus_of_value (s : string) : option JobStatus :=
  if String.eqb s "created" then Some JOB_CREATED
  else if String.eqb s "testing" then Some JOB_TESTING
  else if String.eqb s "ready" then Some JOB_READY
  else if String.eqb s "running" then Some JOB_RUNNING
  else if String.eqb s "paused" then Some JOB_PAUSED
  else if String.eqb s "post_processing" then Some JOB_POST_PROCESSING
  else if String.eqb s "completed" then Some JOB_COMPLETED
  else if String.eqb s "failed" then Some JOB_FAILED
  else None.

Definition WorkerStatus_value (s : WorkerStatus) : string :=
  match s with
  | IDLE => "idle" | BUSY => "busy" | WORKER_FAILED => "failed" | TERMINATED => "terminated"
  end.

Definition WorkerStatus_of_value (s : string) : option WorkerStatus :=
  if String.eqb s "idle" then Some IDLE
  else if String.eqb s "busy" then Some BUSY
  else if String.eqb s "failed" then Some WORKER_FAILED
  else if String.eqb s "terminated" then Some TERMINATED
  else None.

Module WorkUnit.
(** models.py, dataclass WorkUnit: a single unit of work. *)
Record t := mk {
  unit_id : string;
  job_id : string;
  unit_type : string;
  status : WorkUnitStatus;
  payload : pydict;
  created_at : datetime;
  assigned_at : option datetime;
  started_at : option datetime;
  completed_at : option datetime;
  worker_id : option string;
  result : option pydict;
  error : option string;
  retry_count : Z;
  max_retries : Z;
  execution_time_seconds : option float;
  output_files : list string;
  rendered_prompt : option string;
  conversation : option (list json);
  session_id : option string;
  cost_usd : option float;
  process_id : option Z
}.
Definition set_status (v : WorkUnitStatus) (x : t) : t :=
  {| unit_id := unit_id x; job_id := job_id x; unit_type := unit_type x; status := v;
     payload := payload x; created_at := created_at x; assigned_at := assigned_at x;
     started_at := started_at x; completed_at := completed_at x; worker_id := worker_id x;
     result := result x; error := error x; retry_count := retry_count x;
     max_retries := max_retries x; execution_time_seconds := execution_time_seconds x;
     output_files := output_files x; rendered_prompt := rendered_prompt x;
     conversation := conversation x; session_id := session_id x; cost_usd := cost_usd x;
     process_id := process_id x |}.
Definition set_assigned_at (v : option datetime) (x : t) : t :=
  {| unit_id := unit_id x; job_id := job_id x; unit_type := unit_type x; status := status x;
     payload := payload x; created_at := created_at x; assigned_at := v;
     started_at := started_at x; completed_at := completed_at x; worker_id := worker_id x;
     result := result x; error := error x; retry_count := retry_count x;
     max_retries := max_retries x; execution_time_seconds := execution_time_seconds x;
     output_files := output_files x; rendered_prompt := rendered_prompt x;
     conversation := conversation x; session_id := session_id x; cost_usd := cost_usd x;
     process_id := process_id x |}.
Definition set_started_at (v : option datetime) (x : t) : t :=
  {| unit_id := unit_id x; job_id := job_id x; unit_type := unit_type x; status := status x;
     payload := payload x; created_at := created_at x; assigned_at := assigned_at x;
     started_at := v; completed_at := completed_at x; worker_id := worker_id x;
     result := result x; error := error x; retry_count := retry_count x;
     max_retries := max_retries x; execution_time_seconds := execution_time_seconds x;
     output_files := output_files x; rendered_prompt := rendered_prompt x;
     conversation := conversation x; session_id := session_id x; cost_usd := cost_usd x;
     process_id := process_id x |}.
Definition set_completed_at (v : option datetime) (x : t) : t :=
  {| unit_id := unit_id x; job_id := job_id x; unit_type := unit_type x; status := status x;
     payload := payload x; created_at := created_at x; assigned_at := assigned_at x;
     started_at := started_at x; completed_at := v; worker_id := worker_id x;
     result := result x; error := error x; retry_count := retry_count x;
     max_retries := max_retries x; execution_time_seconds := execution_time_seconds x;
     output_files := output_files x; rendered_prompt := rendered_prompt x;
     conversation := conversation x; session_id := session_id x; cost_usd := cost_usd x;
     process_id := process_id x |}.
Definition set_worker_id (v : option string) (x : t) : t :=
  {| unit_id := unit_id x; job_id := job_id x; unit_type := unit_type x; status := status x;
     payload := payload x; created_at := created_at x; assigned_at := assigned_at x;
     started_at := started_at x; completed_at := completed_at x; worker_id := v;
     result := result x; error := error x; retry_count := retry_count x;
     max_retries := max_retries x; execution_time_seconds := execution_time_seconds x;
     output_files := output_files x; rendered_prompt := rendered_prompt x;
     conversation := conversation x; session_id := session_id x; cost_usd := cost_usd x;
     process_id := process_id x |}.
Definition set_result (v : option pydict) (x : t) : t :=
  {| unit_id := unit_id x; job_id := job_id x; unit_type := unit_type x; status := status x;
     payload := payload x; created_at := created_at x; assigned_at := assigned_at x;
     started_at := started_at x; completed_at := completed_at x; worker_id := worker_id x;
     result := v; error := error x; retry_count := retry_count x;
     max_retries := max_retries x; execution_time_seconds := execution_time_seconds x;
     output_files := output_files x; rendered_prompt := rendered_prompt x;
     conversation := conversation x; session_id := session_id x; cost_usd := cost_usd x;
     process_id := process_id x |}.
Definition set_error (v : option string) (x : t) : t :=
  {| unit_id := unit_id x; job_id := job_id x; unit_type := unit_type x; status := status x;
     payload := payload x; created_at := created_at x; assigned_at := assigned_at x;
     started_at := started_at x; completed_at := completed_at x; worker_id := worker_id x;
     result := result x; error := v; retry_count := retry_count x;
     max_retries := max_retries x; execution_time_seconds := execution_time_seconds x;
     output_files := output_files x; rendered_prompt := rendered_prompt x;
     conversation := conversation x; session_id := session_id x; cost_usd := cost_usd x;
     process_id := process_id x |}.
Definition set_retry_count (v : Z) (x : t) : t :=
  {| unit_id := unit_id x; job_id := job_id x; unit_type := unit_type x; status := status x;
     payload := payload x; created_at := created_at x; assigned_at := assigned_at x;
     started_at := started_at x; completed_at := completed_at x; worker_id := worker_id x;
     result := result x; error := error x; retry_count := v; max_retries := max_retries x;
     execution_time_seconds := execution_time_seconds x; output_files := output_files x;
     rendered_prompt := rendered_prompt x; conversation := conversation x;
     session_id := session_id x; cost_usd := cost_usd x; process_id := process_id x |}.
Definition set_execution_time_seconds (v : option float) (x : t) : t :=
  {| unit_id := unit_id x; job_id := job_id x; unit_type := unit_type x; status := status x;
     payload := payload x; created_at := created_at x; assigned_at := assigned_at x;
     started_at := started_at x; completed_at := completed_at x; worker_id := worker_id x;
     result := result x; error := error x; retry_count := retry_count x;
     max_retries := max_retries x; execution_time_seconds := v;
     output_files := output_files x; rendered_prompt := rendered_prompt x;
     conversation := conversation x; session_id := session_id x; cost_usd := cost_usd x;
     process_id := process_id x |}.
Definition set_output_files (v : list string) (x : t) : t :=
  {| unit_id := unit_id x; job_id := job_id x; unit_type := unit_type x; status := status x;
     payload := payload x; created_at := created_at x; assigned_at := assigned_at x;
     started_at := started_at x; completed_at := completed_at x; worker_id := worker_id x;
     result := result x; error := error x; retry_count := retry_count x;
     max_retries := max_retries x; execution_time_seconds := execution_time_seconds x;
     output_files := v; rendered_prompt := rendered_prompt x; conversation := conversation x;
     session_id := session_id x; cost_usd := cost_usd x; process_id := process_id x |}.
Definition set_rendered_prompt (v : option string) (x : t) : t :=
  {| unit_id := unit_id x; job_id := job_id x; unit_type := unit_type x; status := status x;
     payload := payload x; created_at := created_at x; assigned_at := assigned_at x;
     started_at := started_at x; completed_at := completed_at x; worker_id := worker_id x;
     result := result x; error := error x; retry_count := retry_count x;
     max_retries := max_retries x; execution_time_seconds := execution_time_seconds x;
     output_files := output_files x; rendered_prompt := v; conversation := conversation x;
     session_id := session_id x; cost_usd := cost_usd x; process_id := process_id x |}.
Definition set_conversation (v : option (list json)) (x : t) : t :=
  {| unit_id := unit_id x; job_id := job_id x; unit_type := unit_type x; status := status x;
     payload := payload x; created_at := created_at x; assigned_at := assigned_at x;
     started_at := started_at x; completed_at := completed_at x; worker_id := worker_id x;
     result := result x; error := error x; retry_count := retry_count x;
     max_retries := max_retries x; execution_time_seconds := execution_time_seconds x;
     output_files := output_files x; rendered_prompt := rendered_prompt x; conversation := v;
     session_id := session_id x; cost_usd := cost_usd x; process_id := process_id x |}.
Definition set_session_id (v : option string) (x : t) : t :=
  {| unit_id := unit_id x; job_id := job_id x; unit_type := unit_type x; status := status x;
     payload := payload x; created_at := created_at x; assigned_at := assigned_at x;
     started_at := started_at x; completed_at := completed_at x; worker_id := worker_id x;
     result := result x; error := error x; retry_count := retry_count x;
     max_retries := max_retries x; execution_time_seconds := execution_time_seconds x;
     output_files := output_files x; rendered_prompt := rendered_prompt x;
     conversation := conversation x; session_id := v; cost_usd := cost_usd x;
     process_id := process_id x |}.
Definition set_cost_usd (v : option float) (x : t) : t :=
  {| unit_id := unit_id x; job_id := job_id x; unit_type := unit_type x; status := status x;
     payload := payload x; created_at := created_at x; assigned_at := assigned_at x;
     started_at := started_at x; completed_at := completed_at x; worker_id := worker_id x;
     result := result x; error := error x; retry_count := retry_count x;
     max_retries := max_retries x; execution_time_seconds := execution_time_seconds x;
     output_files := output_files x; rendered_prompt := rendered_prompt x;
     conversation := conversation x; session_id := session_id x; cost_usd := v;
     process_id := process_id x |}.
Definition set_process_id (v : option Z) (x : t) : t :=
  {| unit_id := unit_id x; job_id := job_id x; unit_type := unit_type x; status := status x;
     payload := payload x; created_at := created_at x; assigned_at := assigned_at x;
     started_at := started_at x; completed_at := completed_at x; worker_id := worker_id x;
     result := result x; error := error x; retry_count := retry_count x;
     max_retries := max_retries x; execution_time_seconds := execution_time_seconds x;
     output_files := output_files x; rendered_prompt := rendered_prompt x;
     conversation := conversation x; session_id := session_id x; cost_usd := cost_usd x;
     process_id := v |}.
End WorkUnit.

Module Job.
(** models.py, dataclass Job: a collection of work units. *)
Record t := mk {
  job_id : string;
  name : string;
  description : string;
  status : JobStatus;
  worker_prompt_template : string;
  unit_type : string;
  total_units : Z;
  created_at : datetime;
  completed_units : Z;
  failed_units : Z;
  max_workers : Z;
  started_at : option datetime;
  completed_at : option datetime;
  test_unit_id : option string;
  test_passed : bool;
  output_strategy : string;
  metadata : pydict;
  post_processing_prompt : option string;
  post_processing_unit_id : option string;
  bypass_failures : bool
}.
Definition set_status (v : JobStatus) (x : t) : t :=
  {| job_id := job_id x; name := name x; description := description x; status := v;
     worker_prompt_template := worker_prompt_template x; unit_type := unit_type x;
     total_units := total_units x; created_at := created_at x;
     completed_units := completed_units x; failed_units := failed_units x;
     max_workers := max_workers x; started_at := started_at x;
     completed_at := completed_at x; test_unit_id := test_unit_id x;
     test_passed := test_passed x; output_strategy := output_strategy x;
     metadata := metadata x; post_processing_prompt := post_processing_prompt x;
     post_processing_unit_id := post_processing_unit_id x;
     bypass_failures := bypass_failures x |}.
Definition set_completed_units (v : Z) (x : t) : t :=
  {| job_id := job_id x; name := name x; description := description x; status := status x;
     worker_prompt_template := worker_prompt_template x; unit_type := unit_type x;
     total_units := total_units x; created_at := created_at x; completed_units := v;
     failed_units := failed_units x; max_workers := max_workers x;
     started_at := started_at x; completed_at := completed_at x;
     test_unit_id := test_unit_id x; test_passed := test_passed x;
     output_strategy := output_strategy x; metadata := metadata x;
     post_processing_prompt := post_processing_prompt x;
     post_processing_unit_id := post_processing_unit_id x;
     bypass_failures := bypass_failures x |}.
Definition set_failed_units (v : Z) (x : t) : t :=
  {| job_id := job_id x; name := name x; description := description x; status := status x;
     worker_prompt_template := worker_prompt_template x; unit_type := unit_type x;
     total_units := total_units x; created_at := created_at x;
     completed_units := completed_units x; failed_units := v; max_workers := max_workers x;
     started_at := started_at x; completed_at := completed_at x;
     test_unit_id := test_unit_id x; test_passed := test_passed x;
     output_strategy := output_strategy x; metadata := metadata x;
     post_processing_prompt := post_processing_prompt x;
     post_processing_unit_id := post_processing_unit_id x;
     bypass_failures := bypass_failures x |}.
Definition set_started_at (v : option datetime) (x : t) : t :=
  {| job_id := job_id x; name := name x; description := description x; status := status x;
     worker_prompt_template := worker_prompt_template x; unit_type := unit_type x;
     total_units := total_units x; created_at := created_at x;
     completed_units := completed_units x; failed_units := failed_units x;
     max_workers := max_workers x; started_at := v; completed_at := completed_at x;
     test_unit_id := test_unit_id x; test_passed := test_passed x;
     output_strategy := output_strategy x; metadata := metadata x;
     post_processing_prompt := post_processing_prompt x;
     post_processing_unit_id := post_processing_unit_id x;
     bypass_failures := bypass_failures x |}.
Definition set_completed_at (v : option datetime) (x : t) : t :=
  {| job_id := job_id x; name := name x; description := description x; status := status x;
     worker_prompt_template := worker_prompt_template x; unit_type := unit_type x;
     total_units := total_units x; created_at := created_at x;
     completed_units := completed_units x; failed_units := failed_units x;
     max_workers := max_workers x; started_at := started_at x; completed_at := v;
     test_unit_id := test_unit_id x; test_passed := test_passed x;
     output_strategy := output_strategy x; metadata := metadata x;
     post_processing_prompt := post_processing_prompt x;
     post_processing_unit_id := post_processing_unit_id x;
     bypass_failures := bypass_failures x |}.
Definition set_test_unit_id (v : option string) (x : t) : t :=
  {| job_id := job_id x; name := name x; description := description x; status := status x;
     worker_prompt_template := worker_prompt_template x; unit_type := unit_type x;
     total_units := total_units x; created_at := created_at x;
     completed_units := completed_units x; failed_units := failed_units x;
     max_workers := max_workers x; started_at := started_at x;
     completed_at := completed_at x; test_unit_id := v; test_passed := test_passed x;
     output_strategy := output_strategy x; metadata := metadata x;
     post_processing_prompt := post_processing_prompt x;
     post_processing_unit_id := post_processing_unit_id x;
     bypass_failures := bypass_failures x |}.
Definition set_test_passed (v : bool) (x : t) : t :=
  {| job_id := job_id x; name := name x; description := description x; status := status x;
     worker_prompt_template := worker_prompt_template x; unit_type := unit_type x;
     total_units := total_units x; created_at := created_at x;
     completed_units := completed_units x; failed_units := failed_units x;
     max_workers := max_workers x; started_at := started_at x;
     completed_at := completed_at x; test_unit_id := test_unit_id x; test_passed := v;
     output_strategy := output_strategy x; metadata := metadata x;
     post_processing_prompt := post_processing_prompt x;
     post_processing_unit_id := post_processing_unit_id x;
     bypass_failures := bypass_failures x |}.
Definition set_metadata (v : pydict) (x : t) : t :=
  {| job_id := job_id x; name := name x; description := description x; status := status x;
     worker_prompt_template := worker_prompt_template x; unit_type := unit_type x;
     total_units := total_units x; created_at := created_at x;
     completed_units := completed_units x; failed_units := failed_units x;
     max_workers := max_workers x; started_at := started_at x;
     completed_at := completed_at x; test_unit_id := test_unit_id x;
     test_passed := test_passed x; output_strategy := output_strategy x; metadata := v;
     post_processing_prompt := post_processing_prompt x;
     post_processing_unit_id := post_processing_unit_id x;
     bypass_failures := bypass_failures x |}.
Definition set_post_processing_unit_id (v : option string) (x : t) : t :=
  {| job_id := job_id x; name := name x; description := description x; status := status x;
     worker_prompt_template := worker_prompt_template x; unit_type := unit_type x;
     total_units := total_units x; created_at := created_at x;
     completed_units := completed_units x; failed_units := failed_units x;
     max_workers := max_workers x; started_at := started_at x;
     completed_at := completed_at x; test_unit_id := test_unit_id x;
     test_passed := test_passed x; output_strategy := output_strategy x;
     metadata := metadata x; post_processing_prompt := post_processing_prompt x;
     post_processing_unit_id := v; bypass_failures := bypass_failures x |}.
End Job.

Module WorkerProcess.
(** models.py, dataclass WorkerProcess: the state of a logical worker.
    [F] is what [total_execution_time] holds: a float in the workers that
    the program makes, and a float or [None] in those that
    [_row_to_worker] builds, which takes what the cell holds. *)
Record record (F : Type) := mk {
  worker_id : string;
  status : WorkerStatus;
  job_id : option string;
  current_unit_id : option string;
  process_id : option Z;
  started_at : datetime;
  last_heartbeat : option datetime;
  units_completed : Z;
  units_failed : Z;
  total_execution_time : F
}.
Arguments mk {F}.
Arguments worker_id {F}.
Arguments status {F}.
Arguments job_id {F}.
Arguments current_unit_id {F}.
Arguments process_id {F}.
Arguments started_at {F}.
Arguments last_heartbeat {F}.
Arguments units_completed {F}.
Arguments units_failed {F}.
Arguments total_execution_time {F}.
Definition t := record float.
Definition loaded := record (option float).
Definition set_status (v : WorkerStatus) (x : t) : t :=
  {| worker_id := worker_id x; status := v; job_id := job_id x;
     current_unit_id := current_unit_id x; process_id := process_id x;
     started_at := started_at x; last_heartbeat := last_heartbeat x;
     units_completed := units_completed x; units_failed := units_failed x;
     total_execution_time := total_execution_time x |}.
Definition set_current_unit_id (v : option string) (x : t) : t :=
  {| worker_id := worker_id x; status := status x; job_id := job_id x; current_unit_id := v;
     process_id := process_id x; started_at := started_at x;
     last_heartbeat := last_heartbeat x; units_completed := units_completed x;
     units_failed := units_failed x; total_execution_time := total_execution_time x |}.
Definition set_last_heartbeat (v : option datetime) (x : t) : t :=
  {| worker_id := worker_id x; status := status x; job_id := job_id x;
     current_unit_id := current_unit_id x; process_id := process_id x;
     started_at := started_at x; last_heartbeat := v; units_completed := units_completed x;
     units_failed := units_failed x; total_execution_time := total_execution_time x |}.
Definition set_units_completed (v : Z) (x : t) : t :=
  {| worker_id := worker_id x; status := status x; job_id := job_id x;
     current_unit_id := current_unit_id x; process_id := process_id x;
     started_at := started_at x; last_heartbeat := last_heartbeat x; units_completed := v;
     units_failed := units_failed x; total_execution_time := total_execution_time x |}.
Definition set_units_failed (v : Z) (x : t) : t :=
  {| worker_id := worker_id x; status := status x; job_id := job_id x;
     current_unit_id := current_unit_id x; process_id := process_id x;
     started_at := started_at x; last_heartbeat := last_heartbeat x;
     units_completed := units_completed x; units_failed := v;
     total_execution_time := total_execution_time x |}.
Definition set_total_execution_time {F G : Type} (v : G) (x : record F) : record G :=
  {| worker_id := worker_id x; status := status x; job_id := job_id x;
     current_unit_id := current_unit_id x; process_id := process_id x;
     started_at := started_at x; last_heartbeat := last_heartbeat x;
     units_completed := units_completed x; units_failed := units_failed x;
     total_execution_time := v |}.
End WorkerProcess.

(** [WorkUnit.can_retry] *)
Definition can_retry (u : WorkUnit.t) : bool :=
  Z.ltb (WorkUnit.retry_count u) (WorkUnit.max_retries u).

(** ** persistence/repository.py *)

(** *** Tables

    A text cell that holds an enum's [value] or a JSON document is kept as
    the value it decodes to: the repository is the only writer of the file,
    and [json.loads (json.dumps v)] is [v] on [json].  A JSON document is
    never the empty text, so such a cell is truthy exactly when it is not
    NULL.  Datetime cells hold the ISO text itself. *)

Module JobRow.
(** A row of table [jobs]. *)
Record t := mk {
  job_id : string;
  name : string;
  description : string;
  status : JobStatus;
  worker_prompt_template : string;
  unit_type : string;
  total_units : Z;
  completed_units : Z;
  failed_units : Z;
  max_workers : Z;
  created_at : string;
  started_at : option string;
  completed_at : option string;
  test_unit_id : option string;
  test_passed : Z;
  output_strategy : string;
  metadata : option pydict;
  post_processing_prompt : option string;
  post_processing_unit_id : option string;
  bypass_failures : Z
}.
End JobRow.

Module UnitRow.
(** A row of table [work_units]. *)
Record t := mk {
  unit_id : string;
  job_id : string;
  unit_type : string;
  status : WorkUnitStatus;
  payload : pydict;
  created_at : string;
  assigned_at : option string;
  started_at : option string;
  completed_at : option string;
  worker_id : option string;
  result : option pydict;
  error : option string;
  retry_count : Z;
  max_retries : Z;
  execution_time_seconds : option float;
  output_files : option (list string);
  rendered_prompt : option string;
  conversation : option (list json);
  session_id : option string;
  cost_usd : option float;
  process_id : option Z
}.
End UnitRow.

Module WorkerRow.
(** A row of table [workers]. *)
Record t := mk {
  worker_id : string;
  status : WorkerStatus;
  job_id : option string;
  current_unit_id : option string;
  process_id : option Z;
  started_at : string;
  last_heartbeat : option string;
  units_completed : Z;
  units_failed : Z;
  total_execution_time : option float
}.
End WorkerRow.

Module LogRow.
(** A row of table [logs]. *)
Record t := mk {
  id : Z;
  job_id : string;
  source : string;
  level : string;
  message : string;
  timestamp : string;
  worker_id : option string;
  unit_id : option string;
  extra : option pydict
}.
End LogRow.

(** The four tables, and the entry of [sqlite_sequence] for [logs]:
    the largest id that AUTOINCREMENT has given out. *)
Record database := mk_database {
  jobs : list JobRow.t;
  work_units : list UnitRow.t;
  workers : list WorkerRow.t;
  logs : list LogRow.t;
  logs_sequence : Z
}.

Definition empty_database : database := mk_database [] [] [] [] 0.

Definition with_jobs (t : list JobRow.t) (d : database) : database :=
  mk_database t (work_units d) (workers d) (logs d) (logs_sequence d).
Definition with_work_units (t : list UnitRow.t) (d : database) : database :=
  mk_database (jobs d) t (workers d) (logs d) (logs_sequence d).
Definition with_workers (t : list WorkerRow.t) (d : database) : database :=
  mk_database (jobs d) (work_units d) t (logs d) (logs_sequence d).
Definition with_logs (t : list LogRow.t) (d : database) : database :=
  mk_database (jobs d) (work_units d) (workers d) t (logs_sequence d).
Definition with_logs_sequence (n : Z) (d : database) : database :=
  mk_database (jobs d) (work_units d) (workers d) (logs d) n.

(** *** Exceptions *)

Inductive exn :=
| sqlite3_Error (msg : string)
| KeyError (key : string)
| ValueError (msg : string)
| IndexError (msg : string)
| AttributeError (msg : string)
| TypeError (msg : string)
| OverflowError (msg : string)
| OSError (msg : string)
| TimeoutExpired.

Definition is_sqlite3_Error (e : exn) : bool :=
  match e with sqlite3_Error _ => true | _ => false end.

(** What a call does: it returns a value or raises. *)
Inductive outcome (A : Type) :=
| Returned (a : A)
| Raised (e : exn).
Arguments Returned {A} a.
Arguments Raised {A} e.

#[global] Instance outcome_ret : MRet outcome := fun A a => Returned a.
#[global] Instance outcome_bind : MBind outcome := fun A B f m =>
  match m with Returned a => f a | Raised e => Raised e end.

(** *** The database layer and its errors

    Where the SQLite layer reports an error is not decided by the
    repository; a [faults] value says which calls on a connection fail.
    The [sqlite3] module binds a Python integer as a signed 64-bit
    integer and raises [OverflowError], which is no [sqlite3.Error], for
    one outside that range.  The module does so for every statement:
    that is [bind_overflows] true everywhere.  A layer where it is false
    stands for the runs in which every integer written fits. *)
Record faults := mk_faults {
  connect_fails : bool;          (* sqlite3.connect *)
  pragma_fails : bool;           (* the two PRAGMA statements *)
  execute_fails : nat -> bool;   (* the n-th conn.execute of the body *)
  bind_overflows : nat -> bool;  (* the n-th conn.execute refuses an integer
                                    outside signed 64 bits *)
  commit_fails : bool            (* conn.commit *)
}.

(** A database layer that reports no error and is given integers that
    fit. *)
Definition no_faults : faults :=
  mk_faults false false (fun _ => false) (fun _ => false) false.

(** The integers that SQLite stores. *)
Definition fits_int64 (n : Z) : bool := ((- 2 ^ 63 <=? n) && (n <? 2 ^ 63))%Z.

Definition any_fault (f : faults) (n_statements : nat) : bool :=
  connect_fails f || pragma_fails f
  || existsb (execute_fails f) (seq 0 n_statements) || commit_fails f.

(** What was done to the connection once the body was left. *)
Inductive conn_event := Commit | Rollback | Close.

(** One SQL statement: its result and the tables after it; [None] is a
    violated constraint (an [IntegrityError]). *)
Definition statement (R : Type) := database -> option (R * database).

(** [conn.execute(...)], the [n]-th of the body; [ints] are the integers
    among its parameters.  An error of the statement itself comes first,
    then the binding of the parameters, then the constraints of the
    table. *)
Definition conn_execute {R : Type} (f : faults) (n : nat) (ints : list Z)
    (stmt : statement R) (d : database) : outcome (R * database) :=
  if execute_fails f n then Raised (sqlite3_Error "database is locked")
  else if bind_overflows f n && negb (forallb fits_int64 ints)
  then Raised (OverflowError "Python int too large to convert to SQLite INTEGER")
  else match stmt d with
       | Some x => Returned x
       | None => Raised (sqlite3_Error "constraint failed")
       end.

(** [Repository._get_connection], run around a body: connect and set the
    pragmas; then run the body, commit, and on any exception roll back and
    re-raise; close in every case.  The result is what the [with] block
    gives, the tables on disk afterwards, and the connection events. *)
Definition _get_connection {A : Type} (f : faults)
    (body : database -> outcome (A * database)) (d : database)
    : outcome A * database * list conn_event :=
  if connect_fails f then (Raised (sqlite3_Error "unable to open database file"), d, [])
  else if pragma_fails f then (Raised (sqlite3_Error "database is locked"), d, [])
  else match body d with
       | Returned (a, d') =>
           if commit_fails f
           then (Raised (sqlite3_Error "database is locked"), d, [Rollback; Close])
           else (Returned a, d', [Commit; Close])
       | Raised e => (Raised e, d, [Rollback; Close])
       end.

(** The shape shared by the mutation operations:
    [try: with self._get_connection() as conn: ...; return True
     except sqlite3.Error: return False]. *)
Definition mutation (f : faults) (body : database -> outcome (bool * database))
    (d : database) : outcome bool * database * list conn_event :=
  let '(r, d', ev) := _get_connection f body d in
  (match r with
   | Returned b => Returned b
   | Raised e => if is_sqlite3_Error e then Returned false else Raised e
   end, d', ev).

(** *** SQL helpers *)

Definition update_where {R : Type} (p : R -> bool) (f : R -> R) (t : list R) : list R :=
  map (fun r => if p r then f r else r) t.

Definition fetchone {R : Type} (p : R -> bool) (t : list R) : option R := List.find p t.

(** INSERT under a primary key. *)
Definition insert_unique {R : Type} (key : R -> string) (r : R) (t : list R)
    : option (list R) :=
  if existsb (fun r' => String.eqb (key r') (key r)) t then None else Some (t ++ [r])%list.

(** [int(b)] and [bool(n)] *)
Definition int_of_bool (b : bool) : Z := if b then 1 else 0.
Definition bool_of_int (n : Z) : bool := negb (Z.eqb n 0).

(** [datetime.fromisoformat(cell) if cell else None] *)
Definition datetime_of_cell (c : option string) : option datetime :=
  match c with
  | Some s => if str_truthy s then Some (fromisoformat s) else None
  | None => None
  end.

(** [x.isoformat() if x else None]; a datetime object is always truthy. *)
Definition cell_of_datetime (x : option datetime) : option string := isoformat <$> x.

(** What a REAL cell holds after a float was bound to it: SQLite stores a
    NaN as NULL, and a float without fractional part as an integer, so
    that a negative zero becomes [0.0]. *)
Definition real_cell (x : option float) : option float :=
  match x with
  | Some v =>
      match PrimFloat.classify v with
      | FloatClass.NaN => None
      | FloatClass.NZero => Some 0%float
      | _ => Some v
      end
  | None => None
  end.

(** *** Jobs *)

Definition job_insert_row (job : Job.t) : JobRow.t :=
  {| JobRow.job_id := Job.job_id job;
     JobRow.name := Job.name job;
     JobRow.description := Job.description job;
     JobRow.status := Job.status job;
     JobRow.worker_prompt_template := Job.worker_prompt_template job;
     JobRow.unit_type := Job.unit_type job;
     JobRow.total_units := Job.total_units job;
     JobRow.completed_units := Job.completed_units job;
     JobRow.failed_units := Job.failed_units job;
     JobRow.max_workers := Job.max_workers job;
     JobRow.created_at := isoformat (Job.created_at job);
     JobRow.started_at := cell_of_datetime (Job.started_at job);
     JobRow.completed_at := cell_of_datetime (Job.completed_at job);
     JobRow.test_unit_id := Job.test_unit_id job;
     JobRow.test_passed := int_of_bool (Job.test_passed job);
     JobRow.output_strategy := Job.output_strategy job;
     JobRow.metadata := Some (Job.metadata job);
     JobRow.post_processing_prompt := Job.post_processing_prompt job;
     JobRow.post_processing_unit_id := Job.post_processing_unit_id job;
     JobRow.bypass_failures := int_of_bool (Job.bypass_failures job) |}.

Definition sql_insert_job (r : JobRow.t) : statement Datatypes.unit := fun d =>
  t ← insert_unique JobRow.job_id r (jobs d); Some (tt, with_jobs t d).

(** [Repository.create_job] *)
Definition create_job (f : faults) (job : Job.t) (d : database)
    : outcome bool * database * list conn_event :=
  mutation f (fun d =>
    '(_, d) ← conn_execute f 0
                [ Job.total_units job; Job.completed_units job; Job.failed_units job;
                  Job.max_workers job ]
                (sql_insert_job (job_insert_row job)) d;
    Returned (true, d)) d.

(** The UPDATE of [update_job]: eleven columns of the row with this id. *)
Definition job_update_row (job : Job.t) (r : JobRow.t) : JobRow.t :=
  {| JobRow.job_id := JobRow.job_id r;
     JobRow.name := JobRow.name r;
     JobRow.description := JobRow.description r;
     JobRow.status := Job.status job;
     JobRow.worker_prompt_template := JobRow.worker_prompt_template r;
     JobRow.unit_type := JobRow.unit_type r;
     JobRow.total_units := JobRow.total_units r;
     JobRow.completed_units := Job.completed_units job;
     JobRow.failed_units := Job.failed_units job;
     JobRow.max_workers := JobRow.max_workers r;
     JobRow.created_at := JobRow.created_at r;
     JobRow.started_at := cell_of_datetime (Job.started_at job);
     JobRow.completed_at := cell_of_datetime (Job.completed_at job);
     JobRow.test_unit_id := Job.test_unit_id job;
     JobRow.test_passed := int_of_bool (Job.test_passed job);
     JobRow.output_strategy := JobRow.output_strategy r;
     JobRow.metadata := Some (Job.metadata job);
     JobRow.post_processing_prompt := Job.post_processing_prompt job;
     JobRow.post_processing_unit_id := Job.post_processing_unit_id job;
     JobRow.bypass_failures := int_of_bool (Job.bypass_failures job) |}.

Definition sql_update_job (job : Job.t) : statement Datatypes.unit := fun d =>
  Some (tt, with_jobs
              (update_where (fun r => String.eqb (JobRow.job_id r) (Job.job_id job))
                            (job_update_row job) (jobs d)) d).

(** [Repository.update_job] *)
Definition update_job (f : faults) (job : Job.t) (d : database)
    : outcome bool * database * list conn_event :=
  mutation f (fun d =>
    '(_, d) ← conn_execute f 0 [Job.completed_units job; Job.failed_units job]
                (sql_update_job job) d;
    Returned (true, d)) d.

(** [Repository._row_to_job] *)
Definition _row_to_job (row : JobRow.t) : Job.t :=
  {| Job.job_id := JobRow.job_id row;
     Job.name := JobRow.name row;
     Job.description := JobRow.description row;
     Job.status := JobRow.status row;
     Job.worker_prompt_template := JobRow.worker_prompt_template row;
     Job.unit_type := JobRow.unit_type row;
     Job.total_units := JobRow.total_units row;
     Job.created_at := fromisoformat (JobRow.created_at row);
     Job.completed_units := JobRow.completed_units row;
     Job.failed_units := JobRow.failed_units row;
     Job.max_workers := JobRow.max_workers row;
     Job.started_at := datetime_of_cell (JobRow.started_at row);
     Job.completed_at := datetime_of_cell (JobRow.completed_at row);
     Job.test_unit_id := JobRow.test_unit_id row;
     Job.test_passed := bool_of_int (JobRow.test_passed row);
     Job.output_strategy := JobRow.output_strategy row;
     Job.metadata := match JobRow.metadata row with Some m => m | None => [] end;
     Job.post_processing_prompt := JobRow.post_processing_prompt row;
     Job.post_processing_unit_id := JobRow.post_processing_unit_id row;
     Job.bypass_failures := bool_of_int (JobRow.bypass_failures row) |}.

(** [Repository.get_job] *)
Definition get_job (d : database) (job_id : string) : option Job.t :=
  _row_to_job <$> fetchone (fun r => String.eqb (JobRow.job_id r) job_id) (jobs d).

(** *** Work units *)

(** The INSERT of [create_work_unit]: twenty columns; [process_id] is not
    among them, so the new row has it NULL. *)
Definition unit_insert_row (unit : WorkUnit.t) : UnitRow.t :=
  {| UnitRow.unit_id := WorkUnit.unit_id unit;
     UnitRow.job_id := WorkUnit.job_id unit;
     UnitRow.unit_type := WorkUnit.unit_type unit;
     UnitRow.status := WorkUnit.status unit;
     UnitRow.payload := WorkUnit.payload unit;
     UnitRow.created_at := isoformat (WorkUnit.created_at unit);
     UnitRow.assigned_at := cell_of_datetime (WorkUnit.assigned_at unit);
     UnitRow.started_at := cell_of_datetime (WorkUnit.started_at unit);
     UnitRow.completed_at := cell_of_datetime (WorkUnit.completed_at unit);
     UnitRow.worker_id := WorkUnit.worker_id unit;
     UnitRow.result := keep_if list_truthy (WorkUnit.result unit);
     UnitRow.error := WorkUnit.error unit;
     UnitRow.retry_count := WorkUnit.retry_count unit;
     UnitRow.max_retries := WorkUnit.max_retries unit;
     UnitRow.execution_time_seconds := real_cell (WorkUnit.execution_time_seconds unit);
     UnitRow.output_files := Some (WorkUnit.output_files unit);
     UnitRow.rendered_prompt := WorkUnit.rendered_prompt unit;
     UnitRow.conversation := keep_if list_truthy (WorkUnit.conversation unit);
     UnitRow.session_id := WorkUnit.session_id unit;
     UnitRow.cost_usd := real_cell (WorkUnit.cost_usd unit);
     UnitRow.process_id := None |}.

Definition sql_insert_work_unit (r : UnitRow.t) : statement Datatypes.unit := fun d =>
  t ← insert_unique UnitRow.unit_id r (work_units d); Some (tt, with_work_units t d).

(** [Repository.create_work_unit] *)
Definition create_work_unit (f : faults) (unit : WorkUnit.t) (d : database)
    : outcome bool * database * list conn_event :=
  mutation f (fun d =>
    '(_, d) ← conn_execute f 0 [WorkUnit.retry_count unit; WorkUnit.max_retries unit]
                (sql_insert_work_unit (unit_insert_row unit)) d;
    Returned (true, d)) d.

(** The UPDATE of [update_work_unit]: fifteen columns of the row with this
    id; [job_id], [unit_type], [payload], [created_at] and [max_retries]
    stay as stored. *)
Definition unit_update_row (unit : WorkUnit.t) (r : UnitRow.t) : UnitRow.t :=
  {| UnitRow.unit_id := UnitRow.unit_id r;
     UnitRow.job_id := UnitRow.job_id r;
     UnitRow.unit_type := UnitRow.unit_type r;
     UnitRow.status := WorkUnit.status unit;
     UnitRow.payload := UnitRow.payload r;
     UnitRow.created_at := UnitRow.created_at r;
     UnitRow.assigned_at := cell_of_datetime (WorkUnit.assigned_at unit);
     UnitRow.started_at := cell_of_datetime (WorkUnit.started_at unit);
     UnitRow.completed_at := cell_of_datetime (WorkUnit.completed_at unit);
     UnitRow.worker_id := WorkUnit.worker_id unit;
     UnitRow.result := keep_if list_truthy (WorkUnit.result unit);
     UnitRow.error := WorkUnit.error unit;
     UnitRow.retry_count := WorkUnit.retry_count unit;
     UnitRow.max_retries := UnitRow.max_retries r;
     UnitRow.execution_time_seconds := real_cell (WorkUnit.execution_time_seconds unit);
     UnitRow.output_files := Some (WorkUnit.output_files unit);
     UnitRow.rendered_prompt := WorkUnit.rendered_prompt unit;
     UnitRow.conversation := keep_if list_truthy (WorkUnit.conversation unit);
     UnitRow.session_id := WorkUnit.session_id unit;
     UnitRow.cost_usd := real_cell (WorkUnit.cost_usd unit);
     UnitRow.process_id := WorkUnit.process_id unit |}.

Definition has_unit_id (unit_id : string) (r : UnitRow.t) : bool :=
  String.eqb (UnitRow.unit_id r) unit_id.

Definition sql_update_work_unit (unit : WorkUnit.t) : statement Datatypes.unit := fun d =>
  Some (tt, with_work_units
              (update_where (has_unit_id (WorkUnit.unit_id unit))
                            (unit_update_row unit) (work_units d)) d).

(** [Repository.update_work_unit] *)
Definition update_work_unit (f : faults) (unit : WorkUnit.t) (d : database)
    : outcome bool * database * list conn_event :=
  mutation f (fun d =>
    '(_, d) ← conn_execute f 0
                (WorkUnit.retry_count unit :: option_list (WorkUnit.process_id unit))
                (sql_update_work_unit unit) d;
    Returned (true, d)) d.

(** [Repository._row_to_work_unit] *)
Definition _row_to_work_unit (row : UnitRow.t) : WorkUnit.t :=
  {| WorkUnit.unit_id := UnitRow.unit_id row;
     WorkUnit.job_id := UnitRow.job_id row;
     WorkUnit.unit_type := UnitRow.unit_type row;
     WorkUnit.status := UnitRow.status row;
     WorkUnit.payload := UnitRow.payload row;
     WorkUnit.created_at := fromisoformat (UnitRow.created_at row);
     WorkUnit.assigned_at := datetime_of_cell (UnitRow.assigned_at row);
     WorkUnit.started_at := datetime_of_cell (UnitRow.started_at row);
     WorkUnit.completed_at := datetime_of_cell (UnitRow.completed_at row);
     WorkUnit.worker_id := UnitRow.worker_id row;
     WorkUnit.result := UnitRow.result row;
     WorkUnit.error := UnitRow.error row;
     WorkUnit.retry_count := UnitRow.retry_count row;
     WorkUnit.max_retries := UnitRow.max_retries row;
     WorkUnit.execution_time_seconds := UnitRow.execution_time_seconds row;
     WorkUnit.output_files :=
       match UnitRow.output_files row with Some l => l | None => [] end;
     WorkUnit.rendered_prompt := UnitRow.rendered_prompt row;
     WorkUnit.conversation := UnitRow.conversation row;
     WorkUnit.session_id := UnitRow.session_id row;
     WorkUnit.cost_usd := UnitRow.cost_usd row;
     WorkUnit.process_id := UnitRow.process_id row |}.

(** [Repository.get_work_unit] *)
Definition get_work_unit (d : database) (unit_id : string) : option WorkUnit.t :=
  _row_to_work_unit <$> fetchone (has_unit_id unit_id) (work_units d).

(** Stable insertion by the [created_at] text: [ORDER BY created_at]. *)
Fixpoint insert_by_created_at (r : UnitRow.t) (l : list UnitRow.t) : list UnitRow.t :=
  match l with
  | [] => [r]
  | r' :: l' =>
      if String.ltb (UnitRow.created_at r) (UnitRow.created_at r')
      then r :: l
      else r' :: insert_by_created_at r l'
  end.

Definition order_by_created_at (l : list UnitRow.t) : list UnitRow.t :=
  foldr insert_by_created_at [] (reverse l).

(** [LIMIT n]; a negative limit is no limit. *)
Definition sql_limit {R : Type} (n : Z) (l : list R) : list R :=
  if Z.ltb n 0 then l else take (Z.to_nat n) l.

(** [Repository.get_pending_units] *)
Definition get_pending_units (d : database) (job_id : string) (limit : Z)
    : list WorkUnit.t :=
  _row_to_work_unit <$>
    sql_limit limit
      (order_by_created_at
         (List.filter (fun r => String.eqb (UnitRow.job_id r) job_id
                             && bool_decide (UnitRow.status r = PENDING))
                      (work_units d))).

(** The rows [reset_stuck_units] rewrites, and how. *)
Definition is_stuck (job_id : string) (r : UnitRow.t) : bool :=
  String.eqb (UnitRow.job_id r) job_id
  && (bool_decide (UnitRow.status r = ASSIGNED)
      || bool_decide (UnitRow.status r = PROCESSING)).

Definition unstick_row (r : UnitRow.t) : UnitRow.t :=
  {| UnitRow.unit_id := UnitRow.unit_id r;
     UnitRow.job_id := UnitRow.job_id r;
     UnitRow.unit_type := UnitRow.unit_type r;
     UnitRow.status := PENDING;
     UnitRow.payload := UnitRow.payload r;
     UnitRow.created_at := UnitRow.created_at r;
     UnitRow.assigned_at := None;
     UnitRow.started_at := None;
     UnitRow.completed_at := UnitRow.completed_at r;
     UnitRow.worker_id := None;
     UnitRow.result := UnitRow.result r;
     UnitRow.error := UnitRow.error r;
     UnitRow.retry_count := UnitRow.retry_count r;
     UnitRow.max_retries := UnitRow.max_retries r;
     UnitRow.execution_time_seconds := UnitRow.execution_time_seconds r;
     UnitRow.output_files := UnitRow.output_files r;
     UnitRow.rendered_prompt := UnitRow.rendered_prompt r;
     UnitRow.conversation := UnitRow.conversation r;
     UnitRow.session_id := UnitRow.session_id r;
     UnitRow.cost_usd := UnitRow.cost_usd r;
     UnitRow.process_id := UnitRow.process_id r |}.

(** [Repository.reset_stuck_units]: the number of rows changed and the
    tables afterwards. *)
Definition reset_stuck_units (d : database) (job_id : string) : Z * database :=
  (Z.of_nat (length (List.filter (is_stuck job_id) (work_units d))),
   with_work_units (update_where (is_stuck job_id) unstick_row (work_units d)) d).

(** Single-column updates of a unit row. *)
Definition row_set_conversation (v : option (list json)) (r : UnitRow.t) : UnitRow.t :=
  UnitRow.mk (UnitRow.unit_id r) (UnitRow.job_id r) (UnitRow.unit_type r)
    (UnitRow.status r) (UnitRow.payload r) (UnitRow.created_at r)
    (UnitRow.assigned_at r) (UnitRow.started_at r) (UnitRow.completed_at r)
    (UnitRow.worker_id r) (UnitRow.result r) (UnitRow.error r)
    (UnitRow.retry_count r) (UnitRow.max_retries r)
    (UnitRow.execution_time_seconds r) (UnitRow.output_files r)
    (UnitRow.rendered_prompt r) v (UnitRow.session_id r) (UnitRow.cost_usd r)
    (UnitRow.process_id r).

Definition row_set_session_id (v : option string) (r : UnitRow.t) : UnitRow.t :=
  UnitRow.mk (UnitRow.unit_id r) (UnitRow.job_id r) (UnitRow.unit_type r)
    (UnitRow.status r) (UnitRow.payload r) (UnitRow.created_at r)
    (UnitRow.assigned_at r) (UnitRow.started_at r) (UnitRow.completed_at r)
    (UnitRow.worker_id r) (UnitRow.result r) (UnitRow.error r)
    (UnitRow.retry_count r) (UnitRow.max_retries r)
    (UnitRow.execution_time_seconds r) (UnitRow.output_files r)
    (UnitRow.rendered_prompt r) (UnitRow.conversation r) v (UnitRow.cost_usd r)
    (UnitRow.process_id r).

Definition row_set_process_id (v : option Z) (r : UnitRow.t) : UnitRow.t :=
  UnitRow.mk (UnitRow.unit_id r) (UnitRow.job_id r) (UnitRow.unit_type r)
    (UnitRow.status r) (UnitRow.payload r) (UnitRow.created_at r)
    (UnitRow.assigned_at r) (UnitRow.started_at r) (UnitRow.completed_at r)
    (UnitRow.worker_id r) (UnitRow.result r) (UnitRow.error r)
    (UnitRow.retry_count r) (UnitRow.max_retries r)
    (UnitRow.execution_time_seconds r) (UnitRow.output_files r)
    (UnitRow.rendered_prompt r) (UnitRow.conversation r) (UnitRow.session_id r)
    (UnitRow.cost_usd r) v.

(** [SELECT conversation FROM work_units WHERE unit_id = ?], [fetchone()] *)
Definition sql_select_conversation (unit_id : string)
    : statement (option (option (list json))) := fun d =>
  Some (UnitRow.conversation <$> fetchone (has_unit_id unit_id) (work_units d), d).

Definition sql_update_column (unit_id : string) (set : UnitRow.t -> UnitRow.t)
    : statement Datatypes.unit := fun d =>
  Some (tt, with_work_units (update_where (has_unit_id unit_id) set (work_units d)) d).

(** [Repository.append_conversation_event] *)
Definition append_conversation_event (f : faults) (unit_id : string) (event : json)
    (d : database) : outcome bool * database * list conn_event :=
  mutation f (fun d =>
    '(row, d) ← conn_execute f 0 [] (sql_select_conversation unit_id) d;
    match row with
    | None => Returned (false, d)
    | Some cell =>
        let current := match cell with Some l => l | None => [] end in
        let current := (current ++ [event])%list in
        '(_, d) ← conn_execute f 1 []
                    (sql_update_column unit_id (row_set_conversation (Some current))) d;
        Returned (true, d)
    end) d.

(** [Repository.set_work_unit_session_id] *)
Definition set_work_unit_session_id (f : faults) (unit_id session_id : string)
    (d : database) : outcome bool * database * list conn_event :=
  mutation f (fun d =>
    '(_, d) ← conn_execute f 0 []
                (sql_update_column unit_id (row_set_session_id (Some session_id))) d;
    Returned (true, d)) d.

(** [Repository.set_work_unit_process_id] *)
Definition set_work_unit_process_id (f : faults) (unit_id : string)
    (process_id : option Z) (d : database)
    : outcome bool * database * list conn_event :=
  mutation f (fun d =>
    '(_, d) ← conn_execute f 0 (option_list process_id)
                (sql_update_column unit_id (row_set_process_id process_id)) d;
    Returned (true, d)) d.

(** [SUM(x)] over the selected non-NULL values, in row order: NULL when
    there is none. *)
Definition sql_sum (l : list float) : option float :=
  match l with
  | [] => None
  | _ => Some (fold_left PrimFloat.add l 0%float)
  end.

(** The [cost_usd] cells that the query of [get_job_total_cost] sums. *)
Definition recorded_costs (d : database) (job_id : string) : list float :=
  omap (fun r => if String.eqb (UnitRow.job_id r) job_id then UnitRow.cost_usd r else None)
       (work_units d).

(** [Repository.get_job_total_cost] *)
Definition get_job_total_cost (d : database) (job_id : string) : option float :=
  let total := sql_sum (recorded_costs d job_id) in
  if opt_truthy float_truthy total then total else None.

(** *** Workers *)

Definition worker_insert_row (worker : WorkerProcess.t) : WorkerRow.t :=
  {| WorkerRow.worker_id := WorkerProcess.worker_id worker;
     WorkerRow.status := WorkerProcess.status worker;
     WorkerRow.job_id := WorkerProcess.job_id worker;
     WorkerRow.current_unit_id := WorkerProcess.current_unit_id worker;
     WorkerRow.process_id := WorkerProcess.process_id worker;
     WorkerRow.started_at := isoformat (WorkerProcess.started_at worker);
     WorkerRow.last_heartbeat := cell_of_datetime (WorkerProcess.last_heartbeat worker);
     WorkerRow.units_completed := WorkerProcess.units_completed worker;
     WorkerRow.units_failed := WorkerProcess.units_failed worker;
     WorkerRow.total_execution_time :=
       real_cell (Some (WorkerProcess.total_execution_time worker)) |}.

Definition sql_insert_worker (r : WorkerRow.t) : statement Datatypes.unit := fun d =>
  t ← insert_unique WorkerRow.worker_id r (workers d); Some (tt, with_workers t d).

(** [Repository.create_worker] *)
Definition create_worker (f : faults) (worker : WorkerProcess.t) (d : database)
    : outcome bool * database * list conn_event :=
  mutation f (fun d =>
    '(_, d) ← conn_execute f 0
                (option_list (WorkerProcess.process_id worker)
                 ++ [WorkerProcess.units_completed worker;
                     WorkerProcess.units_failed worker])%list
                (sql_insert_worker (worker_insert_row worker)) d;
    Returned (true, d)) d.

Definition worker_update_row (worker : WorkerProcess.t) (r : WorkerRow.t) : WorkerRow.t :=
  {| WorkerRow.worker_id := WorkerRow.worker_id r;
     WorkerRow.status := WorkerProcess.status worker;
     WorkerRow.job_id := WorkerProcess.job_id worker;
     WorkerRow.current_unit_id := WorkerProcess.current_unit_id worker;
     WorkerRow.process_id := WorkerRow.process_id r;
     WorkerRow.started_at := WorkerRow.started_at r;
     WorkerRow.last_heartbeat := cell_of_datetime (WorkerProcess.last_heartbeat worker);
     WorkerRow.units_completed := WorkerProcess.units_completed worker;
     WorkerRow.units_failed := WorkerProcess.units_failed worker;
     WorkerRow.total_execution_time :=
       real_cell (Some (WorkerProcess.total_execution_time worker)) |}.

Definition sql_update_worker (worker : WorkerProcess.t) : statement Datatypes.unit := fun d =>
  Some (tt, with_workers
              (update_where
                 (fun r => String.eqb (WorkerRow.worker_id r) (WorkerProcess.worker_id worker))
                 (worker_update_row worker) (workers d)) d).

(** [Repository.update_worker] *)
Definition update_worker (f : faults) (worker : WorkerProcess.t) (d : database)
    : outcome bool * database * list conn_event :=
  mutation f (fun d =>
    '(_, d) ← conn_execute f 0
                [WorkerProcess.units_completed worker; WorkerProcess.units_failed worker]
                (sql_update_worker worker) d;
    Returned (true, d)) d.

(** [Repository._row_to_worker] *)
Definition _row_to_worker (row : WorkerRow.t) : WorkerProcess.loaded :=
  {| WorkerProcess.worker_id := WorkerRow.worker_id row;
     WorkerProcess.status := WorkerRow.status row;
     WorkerProcess.job_id := WorkerRow.job_id row;
     WorkerProcess.current_unit_id := WorkerRow.current_unit_id row;
     WorkerProcess.process_id := WorkerRow.process_id row;
     WorkerProcess.started_at := fromisoformat (WorkerRow.started_at row);
     WorkerProcess.last_heartbeat := datetime_of_cell (WorkerRow.last_heartbeat row);
     WorkerProcess.units_completed := WorkerRow.units_completed row;
     WorkerProcess.units_failed := WorkerRow.units_failed row;
     WorkerProcess.total_execution_time := WorkerRow.total_execution_time row |}.

(** *** Logs *)

(** The arguments of [Repository.add_log]; [timestamp] is the
    [datetime.now()] it reads. *)
Record log_entry := mk_log_entry {
  log_job_id : string;
  log_source : string;
  log_level : string;
  log_message : string;
  log_worker_id : option string;
  log_unit_id : option string;
  log_extra : option pydict
}.

(** The id that [INTEGER PRIMARY KEY AUTOINCREMENT] gives the next row:
    one more than the largest id that is or ever was in the table. *)
Definition next_log_id (d : database) : Z :=
  Z.max (logs_sequence d) (foldr Z.max 0 (LogRow.id <$> logs d)) + 1.

(** The row that [add_log] inserts. *)
Definition log_row (id : Z) (timestamp : datetime) (e : log_entry) : LogRow.t :=
  {| LogRow.id := id;
     LogRow.job_id := log_job_id e;
     LogRow.source := log_source e;
     LogRow.level := log_level e;
     LogRow.message := log_message e;
     LogRow.timestamp := isoformat timestamp;
     LogRow.worker_id := log_worker_id e;
     LogRow.unit_id := log_unit_id e;
     LogRow.extra := keep_if list_truthy (log_extra e) |}.

Definition sql_insert_log (timestamp : datetime) (e : log_entry)
    : statement Datatypes.unit := fun d =>
  let id := next_log_id d in
  Some (tt, with_logs_sequence id
              (with_logs (logs d ++ [log_row id timestamp e])%list d)).

(** [Repository.add_log] *)
Definition add_log (f : faults) (timestamp : datetime) (e : log_entry) (d : database)
    : outcome bool * database * list conn_event :=
  mutation f (fun d =>
    '(_, d) ← conn_execute f 0 [] (sql_insert_log timestamp e) d;
    Returned (true, d)) d.

(** *** The mutation operations, as one family *)

Inductive mutation_call :=
| CreateJob (job : Job.t)
| UpdateJob (job : Job.t)
| CreateWorkUnit (unit : WorkUnit.t)
| UpdateWorkUnit (unit : WorkUnit.t)
| CreateWorker (worker : WorkerProcess.t)
| UpdateWorker (worker : WorkerProcess.t)
| AddLog (timestamp : datetime) (entry : log_entry)
| AppendConversationEvent (unit_id : string) (event : json)
| SetWorkUnitSessionId (unit_id session_id : string)
| SetWorkUnitProcessId (unit_id : string) (process_id : option Z).

Definition run_mutation (f : faults) (c : mutation_call) (d : database)
    : outcome bool * database * list conn_event :=
  match c with
  | CreateJob job => create_job f job d
  | UpdateJob job => update_job f job d
  | CreateWorkUnit unit => create_work_unit f unit d
  | UpdateWorkUnit unit => update_work_unit f unit d
  | CreateWorker worker => create_worker f worker d
  | UpdateWorker worker => update_worker f worker d
  | AddLog timestamp entry => add_log f timestamp entry d
  | AppendConversationEvent unit_id event => append_conversation_event f unit_id event d
  | SetWorkUnitSessionId unit_id session_id => set_work_unit_session_id f unit_id session_id d
  | SetWorkUnitProcessId unit_id process_id => set_work_unit_process_id f unit_id process_id d
  end.

(** The unit [append_conversation_event] is aimed at has no row. *)
Definition targets_missing_unit (c : mutation_call) (d : database) : bool :=
  match c with
  | AppendConversationEvent unit_id _ =>
      negb (existsb (has_unit_id unit_id) (work_units d))
  | _ => false
  end.

(** How many statements the body of the call executes on these tables. *)
Definition statements_of (c : mutation_call) (d : database) : nat :=
  match c with
  | AppendConversationEvent _ _ => if targets_missing_unit c d then 1 else 2
  | _ => 1
  end.

(** The call's INSERT meets a row with the same primary key. *)
Definition violates_constraint (c : mutation_call) (d : database) : bool :=
  match c with
  | CreateJob job =>
      existsb (fun r => String.eqb (JobRow.job_id r) (Job.job_id job)) (jobs d)
  | CreateWorkUnit unit =>
      existsb (fun r => String.eqb (UnitRow.unit_id r) (WorkUnit.unit_id unit)) (work_units d)
  | CreateWorker worker =>
      existsb (fun r => String.eqb (WorkerRow.worker_id r) (WorkerProcess.worker_id worker))
              (workers d)
  | _ => false
  end.

(** The integers the call binds; all of them go to its first statement. *)
Definition bound_integers (c : mutation_call) : list Z :=
  match c with
  | CreateJob job =>
      [ Job.total_units job; Job.completed_units job; Job.failed_units job;
        Job.max_workers job ]
  | UpdateJob job => [Job.completed_units job; Job.failed_units job]
  | CreateWorkUnit unit => [WorkUnit.retry_count unit; WorkUnit.max_retries unit]
  | UpdateWorkUnit unit =>
      WorkUnit.retry_count unit :: option_list (WorkUnit.process_id unit)
  | CreateWorker worker =>
      (option_list (WorkerProcess.process_id worker)
       ++ [WorkerProcess.units_completed worker; WorkerProcess.units_failed worker])%list
  | UpdateWorker worker =>
      [WorkerProcess.units_completed worker; WorkerProcess.units_failed worker]
  | SetWorkUnitProcessId _ process_id => option_list process_id
  | AddLog _ _ | AppendConversationEvent _ _ | SetWorkUnitSessionId _ _ => []
  end.

(** The call gets to bind its integers, and one of them is refused. *)
Definition raises_overflow (f : faults) (c : mutation_call) : bool :=
  negb (connect_fails f || pragma_fails f || execute_fails f 0)
  && bind_overflows f 0 && negb (forallb fits_int64 (bound_integers c)).


(** The database layer takes the call: it reports no error and binds
    every integer. *)
Definition accepts (f : faults) (c : mutation_call) (d : database) : bool :=
  negb (any_fault f (statements_of c d) || violates_constraint c d)
  && negb (raises_overflow f c).

(** ** The world around the Python code *)

Inductive signal := SIG0 | SIGTERM | SIGKILL.

(** What [os.kill] and [os.killpg] do: deliver, or raise one of the two
    errors the process controls handle. *)
Inductive sigres := Delivered | ProcessLookupError | PermissionError.

(** A spawned agent process, as its reader sees it: the non-blank lines of
    its standard output, each as [json.loads] reads it ([None] when it
    raises [JSONDecodeError]); whether [process.wait(timeout)] times out;
    its exit code and its captured standard error. *)
Record process := mk_process {
  proc_pid : Z;
  proc_stdout : list (option json);
  proc_timed_out : bool;
  proc_returncode : Z;
  proc_stderr : string
}.

(** What the code reads from its environment and does not decide. *)
Record env := mk_env {
  now_at : nat -> datetime;             (* datetime.now(), by number of reads *)
  time_at : nat -> float;               (* time.time(), likewise *)
  uuid_at : nat -> string;              (* str(uuid.uuid4()), by number of draws *)
  os_kill : Z -> signal -> sigres;
  os_killpg : Z -> signal -> sigres;
  popen : list string -> json -> outcome process;   (* subprocess.Popen(cmd, cwd=..) *)
  py_str : json -> string;              (* str(v) *)
  format_spec : json -> string -> string -> outcome string;
                                        (* attribute or index lookups, conversion
                                           and format specification on a value *)
  float_1f : float -> string;           (* format(x, ".1f") *)
  format_exc : exn -> string;           (* traceback.format_exc() *)
  DEFAULT_WORKER_TIMEOUT : Z            (* config.py *)
}.

(** The state the code changes: the database file, the work-unit objects
    shared between the pool, its closures and the executor callbacks, the
    reads of the clocks and of the uuid source so far, the signals sent and
    the commands spawned. *)
Record world := mk_world {
  w_db : database;
  w_heap : list WorkUnit.t;
  w_clock : nat;
  w_timer : nat;
  w_uuids : nat;
  w_signals : list (bool * Z * signal);
  w_spawned : list (list string * json)
}.

Definition with_db (d : database) (w : world) : world :=
  mk_world d (w_heap w) (w_clock w) (w_timer w) (w_uuids w) (w_signals w) (w_spawned w).
Definition with_heap (h : list WorkUnit.t) (w : world) : world :=
  mk_world (w_db w) h (w_clock w) (w_timer w) (w_uuids w) (w_signals w) (w_spawned w).
Definition with_clock (n : nat) (w : world) : world :=
  mk_world (w_db w) (w_heap w) n (w_timer w) (w_uuids w) (w_signals w) (w_spawned w).
Definition with_timer (n : nat) (w : world) : world :=
  mk_world (w_db w) (w_heap w) (w_clock w) n (w_uuids w) (w_signals w) (w_spawned w).
Definition with_uuids (n : nat) (w : world) : world :=
  mk_world (w_db w) (w_heap w) (w_clock w) (w_timer w) n (w_signals w) (w_spawned w).
Definition with_signals (s : list (bool * Z * signal)) (w : world) : world :=
  mk_world (w_db w) (w_heap w) (w_clock w) (w_timer w) (w_uuids w) s (w_spawned w).
Definition with_spawned (s : list (list string * json)) (w : world) : world :=
  mk_world (w_db w) (w_heap w) (w_clock w) (w_timer w) (w_uuids w) (w_signals w) s.

Definition initial_world (d : database) : world := mk_world d [] 0 0 0 [] [].

(** Code with effects on the world. *)
Definition M (A : Type) : Type := world -> A * world.

#[global] Instance M_ret : MRet M := fun A a w => (a, w).
#[global] Instance M_bind : MBind M := fun A B k m w => let '(a, w') := m w in k a w'.

Definition get_db : M database := fun w => (w_db w, w).

(** [datetime.now()] *)
Definition now (E : env) : M datetime := fun w =>
  (now_at E (w_clock w), with_clock (S (w_clock w)) w).

(** [time.time()] *)
Definition time_time (E : env) : M float := fun w =>
  (time_at E (w_timer w), with_timer (S (w_timer w)) w).

(** [str(uuid.uuid4())] *)
Definition uuid4 (E : env) : M string := fun w =>
  (uuid_at E (w_uuids w), with_uuids (S (w_uuids w)) w).

(** [os.kill(pid, sig)] and [os.killpg(pid, sig)] *)
Definition kill (E : env) (pid : Z) (sig : signal) : M sigres := fun w =>
  (os_kill E pid sig, with_signals (w_signals w ++ [(false, pid, sig)])%list w).
Definition killpg (E : env) (pid : Z) (sig : signal) : M sigres := fun w =>
  (os_killpg E pid sig, with_signals (w_signals w ++ [(true, pid, sig)])%list w).

(** A repository mutation called from the code above the repository,
    with the database layer behaving as [f] during the call. *)
Definition repo_on (f : faults)
    (op : faults -> database -> outcome bool * database * list conn_event)
    : M (outcome bool) := fun w =>
  let '(r, d, _) := op f (w_db w) in (r, with_db d w).

(** The same with a database layer that takes the write: it reports no
    error, and the counters and process ids written fit in 64 bits, so
    that nothing is raised.  The callers drop the boolean.  The code
    above the repository is read under this assumption, except where the
    layer is a parameter. *)
Definition repo (op : faults -> database -> outcome bool * database * list conn_event)
    : M bool := fun w =>
  let '(r, d, _) := op no_faults (w_db w) in
  (match r with Returned b => b | Raised _ => false end, with_db d w).

(** *** Work-unit objects

    A [WorkUnit] handed to the pool is one Python object: the worker body,
    the [on_process_start] closure and the executor callbacks all mutate
    it.  Such objects live in [w_heap] and are passed by reference. *)
Definition ref := nat.

Definition blank_unit : WorkUnit.t :=
  WorkUnit.mk EmptyString EmptyString EmptyString PENDING [] (mk_datetime EmptyString)
    None None None None None None 0 0 None [] None None None None None.

Definition new_object (u : WorkUnit.t) : M ref := fun w =>
  (length (w_heap w), with_heap (w_heap w ++ [u])%list w).

Definition deref (r : ref) : M WorkUnit.t := fun w =>
  (default blank_unit (w_heap w !! r), w).

(** [obj.field = v] *)
Definition setattr (r : ref) (set : WorkUnit.t -> WorkUnit.t) : M Datatypes.unit := fun w =>
  (tt, with_heap (alter set r (w_heap w)) w).

(** *** core/job_executor.py: JobLogger *)

Record JobLogger := mk_JobLogger {
  logger_job_id : string;
  logger_source : string
}.

Definition JobLogger_log (E : env) (logger : JobLogger) (level message : string)
    (worker_id unit_id : option string) (extra : option pydict) : M Datatypes.unit :=
  t ← now E;
  repo (fun f => add_log f t
          (mk_log_entry (logger_job_id logger) (logger_source logger) level message
                        worker_id unit_id extra));;
  mret tt.

Definition str_of_int (n : Z) : string := pretty n.

(** ** workers/base.py *)

Module WorkerResult.
(** The dataclass after [__post_init__]: the three containers are never
    [None]. *)
Record t := mk {
  success : bool;
  output : option string;
  error : option string;
  execution_time : option float;
  output_files : list string;
  metadata : pydict;
  conversation : list json;
  rendered_prompt : option string
}.
End WorkerResult.

(** [WorkerResult.to_dict] *)
Definition WorkerResult_to_dict (r : WorkerResult.t) : pydict :=
  [ ("success", JBool (WorkerResult.success r));
    ("output", opt_json JStr (WorkerResult.output r));
    ("error", opt_json JStr (WorkerResult.error r));
    ("execution_time", opt_json JFloat (WorkerResult.execution_time r));
    ("output_files", JList (JStr <$> WorkerResult.output_files r));
    ("metadata", JDict (WorkerResult.metadata r));
    ("conversation", JList (WorkerResult.conversation r));
    ("rendered_prompt", opt_json JStr (WorkerResult.rendered_prompt r)) ].

(** The two closures a caller hands to a driver. *)
Definition StreamCallback := json -> pydict -> M Datatypes.unit.
Definition ProcessCallback := Z -> M Datatypes.unit.

(** [BaseWorker.execute], as the pool and the orchestrator call it. *)
Definition driver :=
  string -> pydict -> Z -> option StreamCallback -> option ProcessCallback
  -> M (outcome WorkerResult.t).

(** ** workers/claude_cli_worker.py *)

(** *** [str.format]

    Python's reading of a format string, as CPython's [str.format] does
    it.  The template is read left to right: [{{] and [}}] are literal
    braces, a lone [}] is a [ValueError], and [{] opens a replacement
    field, which is a field name, an optional conversion [!c] and an
    optional format spec [:spec].  Inside the field name a [[] skips to
    the next []], and a [{] is a [ValueError]; braces may nest in the
    format spec only.  Reading is lazy: a field is looked up as soon as it
    has been read, so that an error further on in the template is raised
    only when the fields before it were formatted.

    Strings are byte strings here.  A character outside ASCII is taken
    for a letter; Python knows decimal digits outside ASCII as well. *)
Inductive piece :=
| Char (c : ascii)
| Replacement (field_name : string) (conversion : option ascii) (spec : string)
| Malformed (msg : string).

Definition snoc (s : string) (c : ascii) : string := s ++ String c EmptyString.

(** Where the reader is. *)
Inductive reader :=
| Literal
| FieldName (name : string)
| Index (name : string)                  (* in the field name, after a [[] *)
| Conversion (name : string)             (* after the [!] *)
| AfterConversion (name : string) (c : ascii)
| Spec (name : string) (conversion : option ascii) (depth : nat) (spec : string).

Fixpoint scan (st : reader) (s : string) : list piece :=
  match s with
  | EmptyString =>
      match st with
      | Literal => []
      | FieldName _ | Index _ => [Malformed "expected '}' before end of string"]
      | Conversion _ =>
          [Malformed "end of string while looking for conversion specifier"]
      | AfterConversion _ _ | Spec _ _ _ _ => [Malformed "unmatched '{' in format spec"]
      end
  | String c r =>
      match st with
      | Literal =>
          if Ascii.eqb c "{"%char then
            match r with
            | String c' r' =>
                if Ascii.eqb c' "{"%char then Char "{"%char :: scan Literal r'
                else scan (FieldName EmptyString) r
            | EmptyString => [Malformed "Single '{' encountered in format string"]
            end
          else if Ascii.eqb c "}"%char then
            match r with
            | String c' r' =>
                if Ascii.eqb c' "}"%char then Char "}"%char :: scan Literal r'
                else [Malformed "Single '}' encountered in format string"]
            | EmptyString => [Malformed "Single '}' encountered in format string"]
            end
          else Char c :: scan Literal r
      | FieldName name =>
          if Ascii.eqb c "{"%char then [Malformed "unexpected '{' in field name"]
          else if Ascii.eqb c "["%char then scan (Index (snoc name c)) r
          else if Ascii.eqb c "}"%char then
            Replacement name None EmptyString :: scan Literal r
          else if Ascii.eqb c ":"%char then scan (Spec name None O EmptyString) r
          else if Ascii.eqb c "!"%char then scan (Conversion name) r
          else scan (FieldName (snoc name c)) r
      | Index name =>
          if Ascii.eqb c "]"%char then scan (FieldName (snoc name c)) r
          else scan (Index (snoc name c)) r
      | Conversion name => scan (AfterConversion name c) r
      | AfterConversion name conversion =>
          if Ascii.eqb c "}"%char then
            Replacement name (Some conversion) EmptyString :: scan Literal r
          else if Ascii.eqb c ":"%char then
            scan (Spec name (Some conversion) O EmptyString) r
          else [Malformed "expected ':' after conversion specifier"]
      | Spec name conversion depth spec =>
          if Ascii.eqb c "{"%char then
            scan (Spec name conversion (S depth) (snoc spec c)) r
          else if Ascii.eqb c "}"%char then
            match depth with
            | O => Replacement name conversion spec :: scan Literal r
            | S depth' => scan (Spec name conversion depth' (snoc spec c)) r
            end
          else scan (Spec name conversion depth (snoc spec c)) r
      end
  end.

(** The text before the first character that satisfies [stop], and the
    rest from that character on. *)
Fixpoint split_at (stop : ascii -> bool) (s : string) : string * string :=
  match s with
  | EmptyString => (EmptyString, EmptyString)
  | String c r =>
      if stop c then (EmptyString, s)
      else let '(a, b) := split_at stop r in (String c a, b)
  end.

Definition is_digit (c : ascii) : bool :=
  (48 <=? nat_of_ascii c)%nat && (nat_of_ascii c <=? 57)%nat.

Fixpoint all_chars (p : ascii -> bool) (s : string) : bool :=
  match s with
  | EmptyString => true
  | String c r => p c && all_chars p r
  end.

(** The number that a text of digits writes. *)
Fixpoint digits_value (acc : Z) (s : string) : Z :=
  match s with
  | EmptyString => acc
  | String c r => digits_value (10 * acc + (Z.of_nat (nat_of_ascii c) - 48)) r
  end.

(** The conversion and the format spec of a field, as one text. *)
Definition conversion_and_spec (conversion : option ascii) (spec : string) : string :=
  match conversion with
  | Some c => String "!"%char (String c EmptyString)
  | None => EmptyString
  end
  ++ (if String.eqb spec EmptyString then EmptyString else String ":"%char spec).

(** One replacement field against the keyword arguments [kwargs] (there
    are no positional ones).  The argument name is the text before the
    first [.] or [[] of the field name.  An empty name or a numeric one
    asks for a positional argument; any other name is a key of [kwargs].
    What is done with the argument once it was found (attribute and index
    lookups, conversion, format spec) is the environment's. *)
Definition format_field (E : env) (kwargs : pydict) (field_name : string)
    (conversion : option ascii) (spec : string) : outcome string :=
  let '(arg_name, lookups) :=
    split_at (fun c => Ascii.eqb c "."%char || Ascii.eqb c "["%char) field_name in
  if all_chars is_digit arg_name
  then if (2 ^ 63 <=? digits_value 0 arg_name)%Z
       then Raised (ValueError "Too many decimal digits in format string")
       else Raised (IndexError ("Replacement index " ++ pretty (digits_value 0 arg_name)
                                ++ " out of range for positional args tuple"))
  else match dict_get arg_name kwargs with
       | None => Raised (KeyError arg_name)
       | Some v =>
           if String.eqb lookups EmptyString
              && String.eqb (conversion_and_spec conversion spec) EmptyString
           then Returned (py_str E v)
           else format_spec E v lookups (conversion_and_spec conversion spec)
       end.

Fixpoint format_pieces (E : env) (kwargs : pydict) (ps : list piece) (acc : string)
    : outcome string :=
  match ps with
  | [] => Returned acc
  | Char c :: ps' => format_pieces E kwargs ps' (snoc acc c)
  | Replacement field_name conversion spec :: ps' =>
      match format_field E kwargs field_name conversion spec with
      | Returned s => format_pieces E kwargs ps' (acc ++ s)
      | Raised e => Raised e
      end
  | Malformed msg :: _ => Raised (ValueError msg)
  end.

(** [template.format] on the keyword arguments [kwargs] *)
Definition str_format (E : env) (template : string) (kwargs : pydict) : outcome string :=
  format_pieces E kwargs (scan Literal template) EmptyString.

(** [repr(s)] of a string, for strings of printable characters: single
    quotes, unless the text has a single quote and no double quote;
    backslashes and the delimiting quote are escaped. *)
Definition double_quote : ascii := "034"%char.
Definition single_quote : ascii := "039"%char.
Definition backslash : ascii := "092"%char.

Fixpoint contains_char (c : ascii) (s : string) : bool :=
  match s with
  | EmptyString => false
  | String c' r => Ascii.eqb c c' || contains_char c r
  end.

Fixpoint escape (quote : ascii) (s : string) : string :=
  match s with
  | EmptyString => EmptyString
  | String c r =>
      if Ascii.eqb c backslash || Ascii.eqb c quote
      then String backslash (String c (escape quote r))
      else String c (escape quote r)
  end.

Definition py_repr (s : string) : string :=
  let quote :=
    if contains_char single_quote s && negb (contains_char double_quote s)
    then double_quote else single_quote in
  String quote (snoc (escape quote s) quote).

(** [str(e)] of an exception. *)
Definition exn_str (e : exn) : string :=
  match e with
  | KeyError key => py_repr key
  | sqlite3_Error msg | ValueError msg | IndexError msg | AttributeError msg
  | TypeError msg | OverflowError msg | OSError msg => msg
  | TimeoutExpired => "Command timed out"
  end.

Definition newline : string := String "010"%char EmptyString.

(** [{"payload": payload, **payload}] *)
Definition render_context (payload : pydict) : pydict :=
  foldl (fun ctx kv => dict_set (fst kv) (snd kv) ctx) [("payload", JDict payload)] payload.

(** The line appended for a missing variable. *)
Definition missing_variable_line (key : string) : string :=
  newline ++ newline ++ "[ERROR: Missing template variable: " ++ py_repr key ++ "]".

(** [ClaudeCliWorker._render_prompt] *)
Definition _render_prompt (E : env) (template : string) (payload : pydict)
    : outcome string :=
  let context := render_context payload in
  match str_format E template context with
  | Raised (KeyError key) => Returned (template ++ missing_variable_line key)
  | r => r
  end.

(** A [ClaudeCliWorker] instance. *)
Record ClaudeCliWorker := mk_ClaudeCliWorker {
  cli_path : string;
  max_turns : option Z;
  model : option string
}.

(** [ClaudeCliWorker._build_command] *)
Definition _build_command (self : ClaudeCliWorker) (rendered_prompt : string)
    (work_unit_payload : pydict) : list string :=
  let cmd := [cli_path self; "--print"; rendered_prompt;
              "--output-format"; "stream-json"; "--verbose"] in
  let cmd :=
    match model self with
    | Some m => if str_truthy m then (cmd ++ ["--model"; m])%list else cmd
    | None => cmd
    end in
  let cmd :=
    match max_turns self with
    | Some n => if negb (Z.eqb n 0) then (cmd ++ ["--max-turns"; str_of_int n])%list else cmd
    | None => cmd
    end in
  cmd.

(** [event.get(key)] *)
Definition event_get (key : string) (event : pydict) : json :=
  default JNull (dict_get key event).

(** [v == "text"] *)
Definition is_str (text : string) (v : json) : bool :=
  match v with JStr s => String.eqb s text | _ => false end.

Definition json_as_str (v : json) : option string :=
  match v with JStr s => Some s | _ => None end.

(** A Python integer as the float nearest to it, which is what a REAL
    column makes of it. *)
Definition float_of_int (n : Z) : float :=
  SF2Prim (binary_normalize prec emax n 0 false).

(** The tool's result record gives the cost as a JSON number or null. *)
Definition json_as_float (v : json) : option float :=
  match v with
  | JFloat x => Some x
  | JInt n => Some (float_of_int n)
  | _ => None
  end.

Definition is_conversation_event (event_type : json) : bool :=
  is_str "user" event_type || is_str "assistant" event_type
  || is_str "tool_use" event_type || is_str "tool_result" event_type.

(** The locals of the reading loop of [_execute_with_streaming]. *)
Record stream_state := mk_stream_state {
  ss_conversation : list json;
  ss_final_result : option pydict;
  ss_session_id : json
}.

Definition call_stream (cb : option StreamCallback) (event_type : json) (event : pydict)
    : M Datatypes.unit :=
  match cb with Some f => f event_type event | None => mret tt end.

(** One line of the event stream.  A line that parses to something other
    than an object has no [get]. *)
Definition read_event (on_stream_event : option StreamCallback) (line : option json)
    (st : stream_state) : M (outcome stream_state) :=
  match line with
  | None => mret (Returned st)
  | Some (JDict event) =>
      let event_type := event_get "type" event in
      if is_str "system" event_type && is_str "init" (event_get "subtype" event) then
        call_stream on_stream_event event_type event;;
        mret (Returned (mk_stream_state (ss_conversation st) (ss_final_result st)
                                         (event_get "session_id" event)))
      else if is_conversation_event event_type then
        call_stream on_stream_event event_type event;;
        mret (Returned (mk_stream_state (ss_conversation st ++ [JDict event])%list
                                         (ss_final_result st) (ss_session_id st)))
      else if is_str "result" event_type then
        call_stream on_stream_event event_type event;;
        mret (Returned (mk_stream_state (ss_conversation st) (Some event)
                                         (ss_session_id st)))
      else mret (Returned st)
  | Some _ => mret (Raised (AttributeError "object has no attribute 'get'"))
  end.

Fixpoint read_events (on_stream_event : option StreamCallback) (lines : list (option json))
    (st : stream_state) : M (outcome stream_state) :=
  match lines with
  | [] => mret (Returned st)
  | line :: lines' =>
      r ← read_event on_stream_event line st;
      match r with
      | Returned st' => read_events on_stream_event lines' st'
      | Raised e => mret (Raised e)
      end
  end.

(** [subprocess.Popen(cmd, ..., cwd=...)] *)
Definition Popen (E : env) (cmd : list string) (cwd : json) : M (outcome process) := fun w =>
  (popen E cmd cwd, with_spawned (w_spawned w ++ [(cmd, cwd)])%list w).

(** [ClaudeCliWorker._execute_with_streaming] *)
Definition _execute_with_streaming (E : env) (cmd : list string) (rendered_prompt : string)
    (work_unit_payload : pydict) (timeout : Z) (start_time : float)
    (on_stream_event : option StreamCallback) (on_process_start : option ProcessCallback)
    : M (outcome WorkerResult.t) :=
  spawned ← Popen E cmd (event_get "working_directory" work_unit_payload);
  match spawned with
  | Raised e => mret (Raised e)
  | Returned process =>
      match on_process_start with
      | Some f => f (proc_pid process)
      | None => mret tt
      end;;
      r ← read_events on_stream_event (proc_stdout process)
            (mk_stream_state [] None JNull);
      match r with
      | Raised e => mret (Raised e)
      | Returned st =>
          if proc_timed_out process then
            s ← killpg E (proc_pid process) SIGKILL;
            match s with
            | Delivered => mret tt
            | _ => kill E (proc_pid process) SIGKILL;; mret tt
            end;;
            mret (Raised TimeoutExpired)
          else
            now_time ← time_time E;
            let execution_time := PrimFloat.sub now_time start_time in
            match keep_if list_truthy (ss_final_result st) with
            | Some final_result =>
                let is_error :=
                  truthy (default (JBool false) (dict_get "is_error" final_result)) in
                let result_text :=
                  default (JStr EmptyString) (dict_get "result" final_result) in
                mret (Returned
                  {| WorkerResult.success := negb is_error;
                     WorkerResult.output :=
                       if is_error then None else json_as_str result_text;
                     WorkerResult.error :=
                       if is_error then json_as_str result_text else None;
                     WorkerResult.execution_time := Some execution_time;
                     WorkerResult.output_files := [];
                     WorkerResult.metadata :=
                       [ ("session_id", ss_session_id st);
                         ("num_turns", event_get "num_turns" final_result);
                         ("total_cost_usd", event_get "total_cost_usd" final_result);
                         ("duration_ms", event_get "duration_ms" final_result);
                         ("duration_api_ms", event_get "duration_api_ms" final_result);
                         ("return_code", JInt (proc_returncode process)) ];
                     WorkerResult.conversation := ss_conversation st;
                     WorkerResult.rendered_prompt := Some rendered_prompt |})
            | None =>
                mret (Returned
                  {| WorkerResult.success := false;
                     WorkerResult.output := None;
                     WorkerResult.error :=
                       Some ("No result received. Return code: "
                             ++ str_of_int (proc_returncode process)
                             ++ ". stderr: " ++ proc_stderr process);
                     WorkerResult.execution_time := Some execution_time;
                     WorkerResult.output_files := [];
                     WorkerResult.metadata :=
                       [ ("session_id", ss_session_id st);
                         ("return_code", JInt (proc_returncode process)) ];
                     WorkerResult.conversation := ss_conversation st;
                     WorkerResult.rendered_prompt := Some rendered_prompt |})
            end
      end
  end.

(** The result [execute] builds in its two [except] clauses. *)
Definition failed_result (error : string) (execution_time : float)
    (rendered_prompt : option string) : WorkerResult.t :=
  {| WorkerResult.success := false;
     WorkerResult.output := None;
     WorkerResult.error := Some error;
     WorkerResult.execution_time := Some execution_time;
     WorkerResult.output_files := [];
     WorkerResult.metadata := [];
     WorkerResult.conversation := [];
     WorkerResult.rendered_prompt := rendered_prompt |}.

Definition execute_except (E : env) (e : exn) (timeout : Z) (start_time : float)
    (rendered_prompt : option string) : M (outcome WorkerResult.t) :=
  now_time ← time_time E;
  let execution_time := PrimFloat.sub now_time start_time in
  mret (Returned
    (match e with
     | TimeoutExpired =>
         failed_result ("Execution timed out after " ++ str_of_int timeout ++ " seconds")
                       execution_time rendered_prompt
     | _ =>
         failed_result ("Execution failed: " ++ exn_str e) execution_time rendered_prompt
     end)).

(** [ClaudeCliWorker.execute] *)
Definition execute (E : env) (self : ClaudeCliWorker) : driver :=
  fun prompt work_unit_payload timeout on_stream_event on_process_start =>
  start_time ← time_time E;
  match _render_prompt E prompt work_unit_payload with
  | Raised e => execute_except E e timeout start_time None
  | Returned rendered_prompt =>
      let cmd := _build_command self rendered_prompt work_unit_payload in
      r ← _execute_with_streaming E cmd rendered_prompt work_unit_payload timeout
            start_time on_stream_event on_process_start;
      match r with
      | Returned result => mret (Returned result)
      | Raised e => execute_except E e timeout start_time (Some rendered_prompt)
      end
  end.

(** ** core/worker_pool.py *)

(** The fields of a [WorkerPool] that the body of one submission reads. *)
Record WorkerPool := mk_WorkerPool {
  pool_job_id : string;
  worker_implementation : driver;
  on_unit_complete : option (ref -> WorkerResult.t -> M Datatypes.unit);
  on_unit_failed : option (ref -> WorkerResult.t -> M Datatypes.unit)
}.

(** [WorkerPool._log] *)
Definition WorkerPool_log (E : env) (self : WorkerPool) (level message : string)
    (worker_id unit_id : option string) (extra : option pydict) : M Datatypes.unit :=
  t ← now E;
  repo (fun f => add_log f t
          (mk_log_entry (pool_job_id self) "worker" level message worker_id unit_id extra));;
  mret tt.

(** [self.repository.update_work_unit(work_unit)] on a shared object. *)
Definition persist_unit (work_unit : ref) : M Datatypes.unit :=
  u ← deref work_unit;
  repo (fun f => update_work_unit f u);;
  mret tt.

(** The closure [on_stream_event] of [_execute_work_unit]. *)
Definition pool_on_stream_event (unit_id : string) : StreamCallback :=
  fun event_type event =>
  if is_str "system" event_type && is_str "init" (event_get "subtype" event) then
    match event_get "session_id" event with
    | JStr session_id =>
        if str_truthy session_id
        then repo (fun f => set_work_unit_session_id f unit_id session_id);; mret tt
        else mret tt
    | _ => mret tt
    end
  else if is_conversation_event event_type then
    repo (fun f => append_conversation_event f unit_id (JDict event));; mret tt
  else mret tt.

(** The closure [on_process_start] of [_execute_work_unit]. *)
Definition pool_on_process_start (unit_id : string) (work_unit : ref) : ProcessCallback :=
  fun pid =>
  repo (fun f => set_work_unit_process_id f unit_id (Some pid));;
  setattr work_unit (WorkUnit.set_process_id (Some pid)).

Definition call_callback (cb : option (ref -> WorkerResult.t -> M Datatypes.unit))
    (work_unit : ref) (result : WorkerResult.t) : M Datatypes.unit :=
  match cb with Some f => f work_unit result | None => mret tt end.

Definition short_id (id : string) : string := str_prefix 8 id ++ "...".

(** The [except Exception as e] clause of [_execute_work_unit]. *)
Definition _execute_work_unit_except (E : env) (self : WorkerPool)
    (worker : WorkerProcess.t) (work_unit : ref) (e : exn) : M WorkerProcess.t :=
  setattr work_unit (WorkUnit.set_status FAILED);;
  setattr work_unit (WorkUnit.set_error (Some ("Unexpected error: " ++ exn_str e)));;
  t ← now E;
  setattr work_unit (WorkUnit.set_completed_at (Some t));;
  persist_unit work_unit;;
  let worker :=
    WorkerProcess.set_units_failed (WorkerProcess.units_failed worker + 1) worker in
  u ← deref work_unit;
  WorkerPool_log E self "error"
    ("Worker " ++ short_id (WorkerProcess.worker_id worker) ++ " crashed on unit "
     ++ short_id (WorkUnit.unit_id u) ++ ": " ++ exn_str e)
    (Some (WorkerProcess.worker_id worker)) (Some (WorkUnit.unit_id u))
    (Some [("error", JStr (exn_str e)); ("traceback", JStr (format_exc E e))]);;
  call_callback (on_unit_failed self) work_unit
    {| WorkerResult.success := false; WorkerResult.output := None;
       WorkerResult.error := Some (exn_str e); WorkerResult.execution_time := None;
       WorkerResult.output_files := []; WorkerResult.metadata := [];
       WorkerResult.conversation := []; WorkerResult.rendered_prompt := None |};;
  mret worker.

(** The [finally] clause of [_execute_work_unit]. *)
Definition _execute_work_unit_finally (E : env) (worker : WorkerProcess.t)
    : M WorkerProcess.t :=
  let worker := WorkerProcess.set_status IDLE worker in
  let worker := WorkerProcess.set_current_unit_id None worker in
  t ← now E;
  let worker := WorkerProcess.set_last_heartbeat (Some t) worker in
  repo (fun f => update_worker f worker);;
  mret worker.

(** What [_execute_work_unit] does once the driver has returned [result]:
    from the assignment of [completed_at] to the last
    [update_work_unit]. *)
Definition record_result (E : env) (self : WorkerPool) (worker : WorkerProcess.t)
    (work_unit : ref) (result : WorkerResult.t) : M WorkerProcess.t :=
  t ← now E;
  setattr work_unit (WorkUnit.set_completed_at (Some t));;
  setattr work_unit
    (WorkUnit.set_execution_time_seconds (WorkerResult.execution_time result));;
  setattr work_unit (WorkUnit.set_output_files (WorkerResult.output_files result));;
  setattr work_unit (WorkUnit.set_process_id None);;
  setattr work_unit (WorkUnit.set_rendered_prompt (WorkerResult.rendered_prompt result));;
  setattr work_unit (WorkUnit.set_conversation (Some (WorkerResult.conversation result)));;
  (if list_truthy (WorkerResult.metadata result) then
     setattr work_unit
       (WorkUnit.set_session_id
          (json_as_str (event_get "session_id" (WorkerResult.metadata result))));;
     setattr work_unit
       (WorkUnit.set_cost_usd
          (json_as_float (event_get "total_cost_usd" (WorkerResult.metadata result))))
   else mret tt);;
  u ← deref work_unit;
  if WorkerResult.success result then
    setattr work_unit (WorkUnit.set_status COMPLETED);;
    setattr work_unit (WorkUnit.set_result (Some (WorkerResult_to_dict result)));;
    let worker :=
      WorkerProcess.set_units_completed (WorkerProcess.units_completed worker + 1) worker in
    let worker :=
      WorkerProcess.set_total_execution_time
        (PrimFloat.add (WorkerProcess.total_execution_time worker)
           (match WorkerResult.execution_time result with
            | Some x => if float_truthy x then x else 0%float
            | None => 0%float
            end)) worker in
    match WorkerResult.execution_time result with
    | None =>
        _execute_work_unit_except E self worker work_unit
          (TypeError "unsupported format string passed to NoneType.__format__")
    | Some x =>
        WorkerPool_log E self "info"
          ("Worker " ++ short_id (WorkerProcess.worker_id worker) ++ " completed unit "
           ++ short_id (WorkUnit.unit_id u) ++ " in " ++ float_1f E x ++ "s")
          (Some (WorkerProcess.worker_id worker)) (Some (WorkUnit.unit_id u))
          (Some [ ("execution_time", JFloat x);
                  ("cost_usd",
                   if list_truthy (WorkerResult.metadata result)
                   then event_get "total_cost_usd" (WorkerResult.metadata result)
                   else JNull);
                  ("num_turns",
                   if list_truthy (WorkerResult.metadata result)
                   then event_get "num_turns" (WorkerResult.metadata result)
                   else JNull) ]);;
        call_callback (on_unit_complete self) work_unit result;;
        persist_unit work_unit;;
        mret worker
    end
  else
    setattr work_unit (WorkUnit.set_status FAILED);;
    setattr work_unit (WorkUnit.set_error (WorkerResult.error result));;
    setattr work_unit (WorkUnit.set_result (Some (WorkerResult_to_dict result)));;
    let worker :=
      WorkerProcess.set_units_failed (WorkerProcess.units_failed worker + 1) worker in
    WorkerPool_log E self "error"
      ("Worker " ++ short_id (WorkerProcess.worker_id worker) ++ " failed on unit "
       ++ short_id (WorkUnit.unit_id u) ++ ": "
       ++ default "None" (WorkerResult.error result))
      (Some (WorkerProcess.worker_id worker)) (Some (WorkUnit.unit_id u))
      (Some [("error", opt_json JStr (WorkerResult.error result))]);;
    call_callback (on_unit_failed self) work_unit result;;
    persist_unit work_unit;;
    mret worker.

(** [WorkerPool._execute_work_unit] *)
Definition _execute_work_unit (E : env) (self : WorkerPool) (worker : WorkerProcess.t)
    (work_unit : ref) (prompt_template : string) : M WorkerProcess.t :=
  u ← deref work_unit;
  WorkerPool_log E self "info"
    ("Worker " ++ short_id (WorkerProcess.worker_id worker)
     ++ " starting execution of unit " ++ short_id (WorkUnit.unit_id u))
    (Some (WorkerProcess.worker_id worker)) (Some (WorkUnit.unit_id u))
    (Some [("payload_keys", JList ((fun kv => JStr (fst kv)) <$> WorkUnit.payload u))]);;
  setattr work_unit (WorkUnit.set_status PROCESSING);;
  t ← now E;
  setattr work_unit (WorkUnit.set_started_at (Some t));;
  persist_unit work_unit;;
  WorkerPool_log E self "debug" "Spawning claude CLI process..."
    (Some (WorkerProcess.worker_id worker)) (Some (WorkUnit.unit_id u)) None;;
  r ← worker_implementation self prompt_template (WorkUnit.payload u)
        (DEFAULT_WORKER_TIMEOUT E)
        (Some (pool_on_stream_event (WorkUnit.unit_id u)))
        (Some (pool_on_process_start (WorkUnit.unit_id u) work_unit));
  worker ← match r with
           | Returned result => record_result E self worker work_unit result
           | Raised e => _execute_work_unit_except E self worker work_unit e
           end;
  _execute_work_unit_finally E worker.

(** ** core/job_executor.py *)

(** [JobExecutor._determine_final_status] *)
Definition _determine_final_status (E : env) (job : Job.t) (post_unit : option WorkUnit.t)
    (logger : JobLogger) : M JobStatus :=
  let all_units_done :=
    Z.eqb (Job.completed_units job + Job.failed_units job) (Job.total_units job) in
  let all_succeeded := Z.eqb (Job.completed_units job) (Job.total_units job) in
  let post_processing_failed :=
    match post_unit with
    | Some u => bool_decide (WorkUnit.status u = FAILED)
    | None => false
    end in
  let post_processing_succeeded :=
    match post_unit with
    | Some u => bool_decide (WorkUnit.status u = COMPLETED)
    | None => false
    end in
  if post_processing_failed then
    JobLogger_log E logger "warning" "Job failed: post-processing step failed"
      None None None;;
    mret JOB_FAILED
  else if all_succeeded
          && (negb (opt_truthy str_truthy (Job.post_processing_prompt job))
              || post_processing_succeeded) then
    JobLogger_log E logger "info"
      ("Job completed successfully: " ++ str_of_int (Job.completed_units job) ++ "/"
       ++ str_of_int (Job.total_units job) ++ " units") None None None;;
    mret JOB_COMPLETED
  else if Job.bypass_failures job && post_processing_succeeded then
    JobLogger_log E logger "info"
      ("Job completed with bypassed failures: " ++ str_of_int (Job.completed_units job)
       ++ " succeeded, " ++ str_of_int (Job.failed_units job) ++ " bypassed")
      None None None;;
    mret JOB_COMPLETED
  else if Z.ltb 0 (Job.failed_units job) && all_units_done then
    JobLogger_log E logger "warning"
      ("Job finished with failures: " ++ str_of_int (Job.completed_units job)
       ++ " completed, " ++ str_of_int (Job.failed_units job) ++ " failed")
      None None None;;
    mret JOB_FAILED
  else
    JobLogger_log E logger "info"
      ("Job paused: " ++ str_of_int (Job.completed_units job) ++ " completed, "
       ++ str_of_int (Job.failed_units job) ++ " failed, remaining pending")
      None None None;;
    mret JOB_PAUSED.

(** [unit.unit_id == job.post_processing_unit_id] *)
Definition is_post_processing_unit (job : Job.t) (u : WorkUnit.t) : bool :=
  bool_decide (Some (WorkUnit.unit_id u) = Job.post_processing_unit_id job).

(** [JobExecutor._on_unit_complete] *)
Definition _on_unit_complete (E : env) (job_id : string) (unit : ref)
    (result : WorkerResult.t) (logger : JobLogger) : M Datatypes.unit :=
  d ← get_db;
  match get_job d job_id with
  | Some job =>
      u ← deref unit;
      let is_post_processing := is_post_processing_unit job u in
      job ← (if negb is_post_processing then
               let job := Job.set_completed_units (Job.completed_units job + 1) job in
               repo (fun f => update_job f job);;
               mret job
             else mret job);
      JobLogger_log E logger "info"
        ("Unit completed: " ++ short_id (WorkUnit.unit_id u) ++ " ("
         ++ str_of_int (Job.completed_units job) ++ "/"
         ++ str_of_int (Job.total_units job) ++ ")")
        (WorkUnit.worker_id u) (Some (WorkUnit.unit_id u))
        (Some [ ("execution_time", opt_json JFloat (WorkerResult.execution_time result));
                ("cost_usd",
                 if list_truthy (WorkerResult.metadata result)
                 then event_get "total_cost_usd" (WorkerResult.metadata result)
                 else JNull) ])
  | None => mret tt
  end.

(** [JobExecutor._on_unit_failed] *)
Definition _on_unit_failed (E : env) (job_id : string) (unit : ref)
    (result : WorkerResult.t) (logger : JobLogger) : M Datatypes.unit :=
  let error_msg :=
    match WorkerResult.error result with
    | Some e => if str_truthy e then e else "Unknown error"
    | None => "Unknown error"
    end in
  d ← get_db;
  let job := get_job d job_id in
  u ← deref unit;
  let is_post_processing :=
    match job with Some j => is_post_processing_unit j u | None => false end in
  if can_retry u then
    setattr unit (WorkUnit.set_status PENDING);;
    setattr unit (WorkUnit.set_retry_count (WorkUnit.retry_count u + 1));;
    setattr unit (WorkUnit.set_worker_id None);;
    setattr unit (WorkUnit.set_assigned_at None);;
    setattr unit (WorkUnit.set_started_at None);;
    persist_unit unit;;
    u ← deref unit;
    JobLogger_log E logger "warning"
      ("Unit failed, will retry (" ++ str_of_int (WorkUnit.retry_count u) ++ "/"
       ++ str_of_int (WorkUnit.max_retries u) ++ "): " ++ short_id (WorkUnit.unit_id u)
       ++ " - " ++ error_msg)
      (WorkUnit.worker_id u) (Some (WorkUnit.unit_id u)) None
  else
    match job with
    | Some j =>
        if negb is_post_processing then
          let j := Job.set_failed_units (Job.failed_units j + 1) j in
          repo (fun f => update_job f j);; mret tt
        else mret tt
    | None => mret tt
    end;;
    JobLogger_log E logger "error"
      ("Unit failed permanently after " ++ str_of_int (WorkUnit.max_retries u)
       ++ " retries: " ++ short_id (WorkUnit.unit_id u) ++ " - " ++ error_msg)
      (WorkUnit.worker_id u) (Some (WorkUnit.unit_id u))
      (Some [("error", JStr error_msg)]).

(** The pool that [_run_job_loop] builds: its two callbacks are the
    executor's, closed over the repository, the job id and the logger. *)
Definition executor_pool (E : env) (job_id : string) (worker : driver) : WorkerPool :=
  let logger := mk_JobLogger job_id "executor" in
  {| pool_job_id := job_id;
     worker_implementation := worker;
     on_unit_complete :=
       Some (fun unit result => _on_unit_complete E job_id unit result logger);
     on_unit_failed :=
       Some (fun unit result => _on_unit_failed E job_id unit result logger) |}.

Definition failure (error : string) : pydict :=
  [("success", JBool false); ("error", JStr error)].

(** [result["success"]] is true. *)
Definition succeeded (r : outcome pydict) : bool :=
  match r with
  | Returned d => match dict_get "success" d with Some (JBool true) => true | _ => false end
  | Raised _ => false
  end.

(** [repository.reset_stuck_units(job_id)] *)
Definition call_reset_stuck_units (job_id : string) : M Z := fun w =>
  let '(n, d) := reset_stuck_units (w_db w) job_id in (n, with_db d w).

(** [JobExecutor.kill_executor].  A recorded pid that is not an integer
    makes [os.kill] raise a [TypeError]. *)
Definition kill_executor (E : env) (job_id : string) : M (outcome pydict) :=
  d ← get_db;
  match get_job d job_id with
  | None => mret (Returned (failure "Job not found"))
  | Some job =>
      match keep_if truthy (dict_get "executor_pid" (Job.metadata job)) with
      | None => mret (Returned (failure "No executor process found"))
      | Some (JInt pid) =>
          probe ← kill E pid SIG0;
          match probe with
          | ProcessLookupError =>
              let job := Job.set_status JOB_FAILED job in
              t ← now E;
              let job :=
                Job.set_metadata
                  (dict_set "killed_at" (JStr (isoformat t)) (Job.metadata job)) job in
              let job :=
                Job.set_metadata
                  (dict_set "kill_reason"
                     (JStr "User requested kill (process already dead)")
                     (Job.metadata job)) job in
              repo (fun f => update_job f job);;
              mret (Returned
                      [ ("success", JBool true);
                        ("message", JStr "Process was already dead, job marked as failed") ])
          | PermissionError =>
              mret (Returned (failure "Permission denied to check process"))
          | Delivered =>
              group ← killpg E pid SIGKILL;
              single ← match group with
                       | Delivered => mret Delivered
                       | _ => kill E pid SIGKILL
                       end;
              match single with
              | ProcessLookupError => mret (Returned (failure "Process not found"))
              | PermissionError =>
                  mret (Returned (failure "Permission denied to kill process"))
              | Delivered =>
                  let job := Job.set_status JOB_FAILED job in
                  t ← now E;
                  let job :=
                    Job.set_metadata
                      (dict_set "killed_at" (JStr (isoformat t)) (Job.metadata job)) job in
                  let job :=
                    Job.set_metadata
                      (dict_set "kill_reason" (JStr "User requested kill")
                         (Job.metadata job)) job in
                  repo (fun f => update_job f job);;
                  call_reset_stuck_units job_id;;
                  mret (Returned
                          [ ("success", JBool true);
                            ("message", JStr "Job executor killed");
                            ("pid", JInt pid) ])
              end
          end
      | Some _ => mret (Raised (TypeError "an integer is required"))
      end
  end.

(** The [if unit.process_id:] block of [restart_work_unit]: kill the
    process group, else the process, and ignore both errors. *)
Definition kill_stale_process (E : env) (process_id : option Z) : M Datatypes.unit :=
  match process_id with
  | Some pid =>
      if negb (Z.eqb pid 0) then
        group ← killpg E pid SIGKILL;
        match group with
        | Delivered => mret tt
        | _ => kill E pid SIGKILL;; mret tt
        end
      else mret tt
  | None => mret tt
  end.

(** [JobExecutor.restart_work_unit]; the database layer behaves as
    [f_job] during its [update_job] and as [f_unit] during its
    [update_work_unit].  Neither boolean is looked at; an exception that
    a write lets through ends the call. *)
Definition restart_work_unit_on (f_job f_unit : faults) (E : env)
    (job_id unit_id : string) : M (outcome pydict) :=
  d ← get_db;
  match get_work_unit d unit_id with
  | None => mret (Returned (failure "Work unit not found"))
  | Some unit =>
      if negb (String.eqb (WorkUnit.job_id unit) job_id) then
        mret (Returned (failure "Work unit does not belong to this job"))
      else if negb (bool_decide (WorkUnit.status unit = FAILED)) then
        mret (Returned
                (failure ("Cannot restart unit with status '"
                          ++ WorkUnitStatus_value (WorkUnit.status unit)
                          ++ "'. Only failed units can be restarted.")))
      else
        kill_stale_process E (WorkUnit.process_id unit);;
        d ← get_db;
        written ← match get_job d job_id with
                  | Some job =>
                      let job :=
                        Job.set_failed_units (Z.max 0 (Job.failed_units job - 1)) job in
                      repo_on f_job (fun f => update_job f job)
                  | None => mret (Returned true)
                  end;
        match written with
        | Raised e => mret (Raised e)
        | Returned _ =>
            let unit := WorkUnit.set_status PENDING unit in
            let unit := WorkUnit.set_error None unit in
            let unit := WorkUnit.set_result None unit in
            let unit := WorkUnit.set_worker_id None unit in
            let unit := WorkUnit.set_assigned_at None unit in
            let unit := WorkUnit.set_started_at None unit in
            let unit := WorkUnit.set_completed_at None unit in
            let unit := WorkUnit.set_execution_time_seconds None unit in
            let unit := WorkUnit.set_process_id None unit in
            let unit := WorkUnit.set_conversation None unit in
            let unit := WorkUnit.set_rendered_prompt None unit in
            let unit := WorkUnit.set_session_id None unit in
            let unit := WorkUnit.set_cost_usd None unit in
            written ← repo_on f_unit (fun f => update_work_unit f unit);
            match written with
            | Raised e => mret (Raised e)
            | Returned _ =>
                mret (Returned [ ("success", JBool true);
                                 ("message", JStr "Work unit reset to pending");
                                 ("unit_id", JStr unit_id) ])
            end
        end
  end.

(** [restart_work_unit] with a database layer that takes both writes;
    nothing is raised then. *)
Definition restart_work_unit (E : env) (job_id unit_id : string) : M pydict :=
  r ← restart_work_unit_on no_faults no_faults E job_id unit_id;
  mret (match r with Returned result => result | Raised e => failure (exn_str e) end).

(** ** core/orchestrator.py *)

(** The closure [on_process_start] of [_run_test_phase]: it records the
    pid in the database only. *)
Definition test_on_process_start (unit_id : string) : ProcessCallback :=
  fun pid => repo (fun f => set_work_unit_process_id f unit_id (Some pid));; mret tt.

Definition test_complete_message : string :=
  "TEST COMPLETE - USER APPROVAL REQUIRED. "
  ++ "Review the output above and ask the user if they want to proceed. "
  ++ "DO NOT auto-approve. Wait for explicit user confirmation. "
  ++ "Call start_job with approve=true only after user says yes, "
  ++ "or approve=false if user wants to reject and modify the prompt.".

Definition test_failed_message : string :=
  "Test failed. Review the error above. "
  ++ "View full conversation in the dashboard. "
  ++ "Call start_job with approve=false to reset, then modify the prompt and try again.".

(** [Orchestrator._run_test_phase]; [worker] is
    [self.worker_implementation.execute]. *)
Definition _run_test_phase (E : env) (worker : driver) (job : Job.t)
    : M (outcome pydict) :=
  d ← get_db;
  match get_pending_units d (Job.job_id job) 1 with
  | [] => mret (Returned [("error", JStr "No pending units to test")])
  | test_unit :: _ =>
      let job := Job.set_status JOB_TESTING job in
      let job := Job.set_test_unit_id (Some (WorkUnit.unit_id test_unit)) job in
      repo (fun f => update_job f job);;
      let test_unit := WorkUnit.set_status PROCESSING test_unit in
      t ← now E;
      let test_unit := WorkUnit.set_started_at (Some t) test_unit in
      repo (fun f => update_work_unit f test_unit);;
      r ← worker (Job.worker_prompt_template job) (WorkUnit.payload test_unit)
            (DEFAULT_WORKER_TIMEOUT E)
            (Some (pool_on_stream_event (WorkUnit.unit_id test_unit)))
            (Some (test_on_process_start (WorkUnit.unit_id test_unit)));
      match r with
      | Raised e => mret (Raised e)
      | Returned result =>
          let test_unit :=
            WorkUnit.set_status
              (if WorkerResult.success result then COMPLETED else FAILED) test_unit in
          t ← now E;
          let test_unit := WorkUnit.set_completed_at (Some t) test_unit in
          let test_unit :=
            WorkUnit.set_result
              (Some [("output", opt_json JStr (WorkerResult.output result))]) test_unit in
          let test_unit := WorkUnit.set_error (WorkerResult.error result) test_unit in
          let test_unit :=
            WorkUnit.set_conversation (Some (WorkerResult.conversation result)) test_unit in
          let test_unit :=
            WorkUnit.set_execution_time_seconds
              (WorkerResult.execution_time result) test_unit in
          let test_unit :=
            WorkUnit.set_cost_usd
              (if list_truthy (WorkerResult.metadata result)
               then json_as_float (event_get "total_cost_usd" (WorkerResult.metadata result))
               else None) test_unit in
          repo (fun f => update_work_unit f test_unit);;
          let job := Job.set_test_passed (WorkerResult.success result) job in
          let job :=
            if WorkerResult.success result then Job.set_completed_units 1 job else job in
          repo (fun f => update_job f job);;
          mret (Returned
            [ ("status", JStr "testing");
              ("test_passed", JBool (WorkerResult.success result));
              ("job_id", JStr (Job.job_id job));
              ("test_unit_id", JStr (WorkUnit.unit_id test_unit));
              ("test_unit_payload", JDict (WorkUnit.payload test_unit));
              ("output", opt_json JStr (WorkerResult.output result));
              ("error", opt_json JStr (WorkerResult.error result));
              ("execution_time", opt_json JFloat (WorkerResult.execution_time result));
              ("cost_usd", opt_json JFloat (WorkUnit.cost_usd test_unit));
              ("remaining_units", JInt (Job.total_units job - 1));
              ("awaiting_user_approval", JBool true);
              ("message",
               JStr (if WorkerResult.success result
                     then test_complete_message else test_failed_message)) ])
      end
  end.

(** * Further code: queries, process controls, job start *)

(** ** persistence/repository.py, the queries *)

(** [ORDER BY key DESC] on a text column; rows with equal keys keep
    their order. *)
Fixpoint insert_desc {R : Type} (key : R -> string) (r : R) (l : list R) : list R :=
  match l with
  | [] => [r]
  | r' :: l' =>
      if String.ltb (key r') (key r) then r :: l else r' :: insert_desc key r l'
  end.

Definition order_by_desc {R : Type} (key : R -> string) (l : list R) : list R :=
  foldr (insert_desc key) [] (reverse l).

(** [OFFSET n]; a negative offset is no offset. *)
Definition sql_offset {R : Type} (n : Z) (l : list R) : list R := drop (Z.to_nat n) l.

(** [job_id = ?] on the nullable column of table [workers]. *)
Definition worker_of_job (job_id : string) (r : WorkerRow.t) : bool :=
  match WorkerRow.job_id r with Some j => String.eqb j job_id | None => false end.

Definition is_active_worker (job_id : string) (r : WorkerRow.t) : bool :=
  worker_of_job job_id r
  && (bool_decide (WorkerRow.status r = IDLE) || bool_decide (WorkerRow.status r = BUSY)).

(** [Repository.get_active_workers] *)
Definition get_active_workers (d : database) (job_id : string) : list WorkerProcess.loaded :=
  _row_to_worker <$> List.filter (is_active_worker job_id) (workers d).

(** [Repository.get_busy_workers] *)
Definition get_busy_workers (d : database) (job_id : string) : list WorkerProcess.loaded :=
  _row_to_worker <$>
    List.filter (fun r => worker_of_job job_id r && bool_decide (WorkerRow.status r = BUSY))
                (workers d).

Definition terminate_row (r : WorkerRow.t) : WorkerRow.t :=
  {| WorkerRow.worker_id := WorkerRow.worker_id r;
     WorkerRow.status := TERMINATED;
     WorkerRow.job_id := WorkerRow.job_id r;
     WorkerRow.current_unit_id := WorkerRow.current_unit_id r;
     WorkerRow.process_id := WorkerRow.process_id r;
     WorkerRow.started_at := WorkerRow.started_at r;
     WorkerRow.last_heartbeat := WorkerRow.last_heartbeat r;
     WorkerRow.units_completed := WorkerRow.units_completed r;
     WorkerRow.units_failed := WorkerRow.units_failed r;
     WorkerRow.total_execution_time := WorkerRow.total_execution_time r |}.

(** [Repository.cleanup_stale_workers]: the number of rows changed and
    the tables afterwards. *)
Definition cleanup_stale_workers (d : database) (job_id : string) : Z * database :=
  (Z.of_nat (length (List.filter (is_active_worker job_id) (workers d))),
   with_workers (update_where (is_active_worker job_id) terminate_row (workers d)) d).

(** The WHERE clause of [get_units_for_job]; the status filter applies
    when the argument is a non-empty string. *)
Definition unit_selected (job_id : string) (status : option string) (r : UnitRow.t) : bool :=
  String.eqb (UnitRow.job_id r) job_id
  && match keep_if str_truthy status with
     | Some s => String.eqb (WorkUnitStatus_value (UnitRow.status r)) s
     | None => true
     end.

(** [Repository.get_units_for_job] *)
Definition get_units_for_job (d : database) (job_id : string) (status : option string)
    (limit offset : Z) : list WorkUnit.t :=
  _row_to_work_unit <$>
    sql_limit limit
      (sql_offset offset
         (order_by_created_at (List.filter (unit_selected job_id status) (work_units d)))).

(** The status values in the order of their text, which is the order in
    which [GROUP BY status] gives the groups. *)
Definition statuses_by_value : list WorkUnitStatus :=
  [ASSIGNED; COMPLETED; FAILED; PENDING; PROCESSING].

(** [Repository.count_units_by_status]: one key for each status that
    some unit of the job has. *)
Definition count_units_by_status (d : database) (job_id : string) : pydict :=
  omap (fun s =>
          let n :=
            length (List.filter
                      (fun r => String.eqb (UnitRow.job_id r) job_id
                                && bool_decide (UnitRow.status r = s))
                      (work_units d)) in
          match n with
          | O => None
          | _ => Some (WorkUnitStatus_value s, JInt (Z.of_nat n))
          end)
       statuses_by_value.

(** [Repository.get_log_count] *)
Definition get_log_count (d : database) (job_id : string) : Z :=
  Z.of_nat (length (List.filter (fun r => String.eqb (LogRow.job_id r) job_id) (logs d))).

(** The WHERE clause that [get_logs] builds: each optional filter is
    added when its argument is a non-empty string. *)
Definition log_selected (job_id : string) (source level since : option string)
    (r : LogRow.t) : bool :=
  String.eqb (LogRow.job_id r) job_id
  && match keep_if str_truthy source with
     | Some s => String.eqb (LogRow.source r) s
     | None => true
     end
  && match keep_if str_truthy level with
     | Some l => String.eqb (LogRow.level r) l
     | None => true
     end
  && match keep_if str_truthy since with
     | Some t => String.ltb t (LogRow.timestamp r)
     | None => true
     end.

Definition log_to_dict (r : LogRow.t) : pydict :=
  [ ("id", JInt (LogRow.id r));
    ("job_id", JStr (LogRow.job_id r));
    ("source", JStr (LogRow.source r));
    ("level", JStr (LogRow.level r));
    ("message", JStr (LogRow.message r));
    ("timestamp", JStr (LogRow.timestamp r));
    ("worker_id", opt_json JStr (LogRow.worker_id r));
    ("unit_id", opt_json JStr (LogRow.unit_id r));
    ("extra", opt_json JDict (LogRow.extra r)) ].

(** [Repository.get_logs] *)
Definition get_logs (d : database) (job_id : string) (source level : option string)
    (limit offset : Z) (since : option string) : list pydict :=
  log_to_dict <$>
    sql_limit limit
      (sql_offset offset
         (order_by_desc LogRow.timestamp
            (List.filter (log_selected job_id source level since) (logs d)))).

(** ** core/models.py, [Job.progress_percentage] *)

(** [truediv] is the division of two Python integers, [a / b]. *)
Definition progress_percentage (truediv : Z -> Z -> float) (job : Job.t) : float :=
  if Z.eqb (Job.total_units job) 0 then 0%float
  else PrimFloat.mul (truediv (Job.completed_units job) (Job.total_units job)) 100%float.

(** ** core/job_executor.py, the process controls *)

(** [JobExecutor.get_executor_status].  A recorded pid that is not an
    integer makes [os.kill] raise a [TypeError]. *)
Definition get_executor_status (E : env) (truediv : Z -> Z -> float) (job_id : string)
    : M (outcome pydict) :=
  d ← get_db;
  match get_job d job_id with
  | None => mret (Returned [("status", JStr "not_found")])
  | Some job =>
      match keep_if truthy (dict_get "executor_pid" (Job.metadata job)) with
      | None =>
          mret (Returned [ ("status", JStr "not_started");
                           ("job_status", JStr (JobStatus_value (Job.status job))) ])
      | Some (JInt pid) =>
          probe ← kill E pid SIG0;
          let is_running :=
            match probe with
            | Delivered => true
            | ProcessLookupError => false
            | PermissionError => true
            end in
          mret (Returned
            [ ("status", JStr (if is_running then "running" else "stopped"));
              ("pid", JInt pid);
              ("job_status", JStr (JobStatus_value (Job.status job)));
              ("started_at", event_get "executor_started_at" (Job.metadata job));
              ("completed_at", event_get "executor_completed_at" (Job.metadata job));
              ("error", event_get "executor_error" (Job.metadata job));
              ("progress",
               JDict [ ("total", JInt (Job.total_units job));
                       ("completed", JInt (Job.completed_units job));
                       ("failed", JInt (Job.failed_units job));
                       ("percentage", JFloat (progress_percentage truediv job)) ]) ])
      | Some _ => mret (Raised (TypeError "an integer is required"))
      end
  end.

(** [JobExecutor.stop_executor] *)
Definition stop_executor (E : env) (job_id : string) : M (outcome bool) :=
  d ← get_db;
  match get_job d job_id with
  | None => mret (Returned false)
  | Some job =>
      match keep_if truthy (dict_get "executor_pid" (Job.metadata job)) with
      | None => mret (Returned false)
      | Some (JInt pid) =>
          sent ← kill E pid SIGTERM;
          match sent with
          | Delivered => mret (Returned true)
          | ProcessLookupError => mret (Returned false)
          | PermissionError => mret (Returned false)
          end
      | Some _ => mret (Raised (TypeError "an integer is required"))
      end
  end.

(** [JobExecutor.kill_work_unit] *)
Definition kill_work_unit (E : env) (job_id unit_id : string) : M pydict :=
  d ← get_db;
  match get_work_unit d unit_id with
  | None => mret (failure "Work unit not found")
  | Some unit =>
      if negb (String.eqb (WorkUnit.job_id unit) job_id) then
        mret (failure "Work unit does not belong to this job")
      else
        match keep_if (fun pid => negb (Z.eqb pid 0)) (WorkUnit.process_id unit) with
        | None => mret (failure "No process found for this unit (may not be running)")
        | Some pid =>
            probe ← kill E pid SIG0;
            match probe with
            | ProcessLookupError =>
                let unit := WorkUnit.set_status FAILED unit in
                let unit :=
                  WorkUnit.set_error
                    (Some "Process killed by user (process already dead)") unit in
                let unit := WorkUnit.set_process_id None unit in
                repo (fun f => update_work_unit f unit);;
                mret [ ("success", JBool true);
                       ("message",
                        JStr "Process was already dead, unit marked as failed") ]
            | PermissionError => mret (failure "Permission denied to check process")
            | Delivered =>
                group ← killpg E pid SIGKILL;
                single ← match group with
                         | Delivered => mret Delivered
                         | _ => kill E pid SIGKILL
                         end;
                match single with
                | ProcessLookupError => mret (failure "Process not found")
                | PermissionError => mret (failure "Permission denied to kill process")
                | Delivered =>
                    let unit := WorkUnit.set_process_id None unit in
                    repo (fun f => update_work_unit f unit);;
                    mret [ ("success", JBool true);
                           ("message", JStr "Work unit process killed");
                           ("pid", JInt pid) ]
                end
            end
        end
  end.

(** [JobExecutor.start_detached], in the calling process: [pid] is the
    pid of the process that [Process.start()] has started, which runs
    [_run_job_loop] on its own. *)
Definition start_detached (E : env) (job_id : string) (pid : Z) : M Z :=
  d ← get_db;
  match get_job d job_id with
  | Some job =>
      let job :=
        Job.set_metadata (dict_set "executor_pid" (JInt pid) (Job.metadata job)) job in
      t ← now E;
      let job :=
        Job.set_metadata
          (dict_set "executor_started_at" (JStr (isoformat t)) (Job.metadata job)) job in
      repo (fun f => update_job f job);; mret tt
  | None => mret tt
  end;;
  mret pid.

(** [JobExecutor.resume_job]; [pid] is the pid of the executor process
    it starts, when it starts one.  The result is the pid, or [None]. *)
Definition resume_job (E : env) (truediv : Z -> Z -> float) (job_id : string) (pid : Z)
    : M (outcome json) :=
  d ← get_db;
  match get_job d job_id with
  | None => mret (Returned JNull)
  | Some job =>
      match get_pending_units d job_id 1 with
      | [] => mret (Returned JNull)
      | _ :: _ =>
          status ← get_executor_status E truediv job_id;
          match status with
          | Raised e => mret (Raised e)
          | Returned status =>
              if is_str "running" (event_get "status" status)
              then mret (Returned (event_get "pid" status))
              else p ← start_detached E job_id pid; mret (Returned (JInt p))
          end
      end
  end.

(** ** core/orchestrator.py, starting a job *)

(** What the orchestrator reads from outside the database: the division
    of integers, the pid of the executor process it spawns, whether the
    environment variable [ABP_SKIP_TEST] is [1] or [true], and the
    constant [DEFAULT_SKIP_TEST] of [config.py]. *)
Record host := mk_host {
  int_truediv : Z -> Z -> float;
  executor_pid : Z;
  global_skip : bool;
  DEFAULT_SKIP_TEST : bool
}.

(** [Orchestrator._start_job_executor] *)
Definition _start_job_executor (E : env) (H : host) (job : Job.t) : M pydict :=
  let job := Job.set_status JOB_RUNNING job in
  t ← now E;
  let job := Job.set_started_at (Some t) job in
  repo (fun f => update_job f job);;
  pid ← start_detached E (Job.job_id job) (executor_pid H);
  let remaining := Job.total_units job - Job.completed_units job in
  mret [ ("success", JBool true);
         ("status", JStr "started");
         ("job_id", JStr (Job.job_id job));
         ("pid", JInt pid);
         ("remaining_units", JInt remaining);
         ("message",
          JStr ("Job started. Processing " ++ str_of_int remaining
                ++ " remaining units.")) ].

(** [Orchestrator._get_test_results] *)
Definition _get_test_results (job : Job.t) : M pydict :=
  match keep_if str_truthy (Job.test_unit_id job) with
  | None => mret [("error", JStr "No test unit found")]
  | Some test_unit_id =>
      d ← get_db;
      match get_work_unit d test_unit_id with
      | None => mret [("error", JStr "Test unit not found")]
      | Some test_unit =>
          mret
            [ ("status", JStr "testing");
              ("test_passed", JBool (Job.test_passed job));
              ("job_id", JStr (Job.job_id job));
              ("test_unit_id", JStr (WorkUnit.unit_id test_unit));
              ("test_unit_payload", JDict (WorkUnit.payload test_unit));
              ("output",
               match keep_if list_truthy (WorkUnit.result test_unit) with
               | Some result => event_get "output" result
               | None => JNull
               end);
              ("error", opt_json JStr (WorkUnit.error test_unit));
              ("execution_time",
               opt_json JFloat (WorkUnit.execution_time_seconds test_unit));
              ("cost_usd", opt_json JFloat (WorkUnit.cost_usd test_unit));
              ("remaining_units",
               JInt (Job.total_units job - Job.completed_units job));
              ("awaiting_user_approval", JBool true);
              ("message",
               JStr ("USER APPROVAL REQUIRED. Ask the user if they want to proceed. "
                     ++ "Call start_job with approve=true only after user confirms, "
                     ++ "or approve=false to reject.")) ]
      end
  end.

(** [Orchestrator.start_job]; [worker] is
    [self.worker_implementation.execute]. *)
Definition start_job (E : env) (H : host) (worker : driver) (job_id : string)
    (approve : option bool) (skip_test : bool) : M (outcome pydict) :=
  d ← get_db;
  match get_job d job_id with
  | None => mret (Returned [("error", JStr ("Job not found: " ++ job_id))])
  | Some job =>
      match Job.status job with
      | JOB_CREATED =>
          if skip_test || global_skip H || DEFAULT_SKIP_TEST H
          then r ← _start_job_executor E H job; mret (Returned r)
          else _run_test_phase E worker job
      | JOB_TESTING =>
          match approve with
          | Some true => r ← _start_job_executor E H job; mret (Returned r)
          | Some false =>
              let job := Job.set_status JOB_CREATED job in
              let job := Job.set_test_passed false job in
              repo (fun f => update_job f job);;
              mret (Returned
                [ ("success", JBool true);
                  ("status", JStr "reset");
                  ("job_id", JStr (Job.job_id job));
                  ("message",
                   JStr "Job reset to CREATED. Modify the prompt and try again.") ])
          | None => r ← _get_test_results job; mret (Returned r)
          end
      | JOB_RUNNING =>
          status ← get_executor_status E (int_truediv H) job_id;
          match status with
          | Raised e => mret (Raised e)
          | Returned status =>
              if is_str "running" (event_get "status" status)
              then mret (Returned
                     [ ("success", JBool true);
                       ("status", JStr "running");
                       ("message", JStr ("Job " ++ job_id ++ " is already running"));
                       ("pid", event_get "pid" status) ])
              else r ← _start_job_executor E H job; mret (Returned r)
          end
      | _ =>
          mret (Returned
            [("error",
              JStr ("Cannot start job in " ++ JobStatus_value (Job.status job)
                    ++ " status"))])
      end
  end.

(** * Properties *)

(** ** Reasoning about effectful code *)

Lemma bind_run {A B : Type} (m : M A) (k : A -> M B) (w : world) :
  (m ≫= k) w = k (fst (m w)) (snd (m w)).
Proof. unfold mbind, M_bind. destruct (m w); reflexivity. Qed.

Lemma ret_run {A : Type} (a : A) (w : world) : (mret a : M A) w = (a, w).
Proof. reflexivity. Qed.

(** Logging changes the [logs] table and the clock, nothing else. *)
Lemma logger_log_run E logger level message worker_id unit_id extra w :
  JobLogger_log E logger level message worker_id unit_id extra w
  = (tt, with_clock (S (w_clock w))
           (with_db
              (with_logs_sequence (next_log_id (w_db w))
                 (with_logs
                    (logs (w_db w) ++
                     [ LogRow.mk (next_log_id (w_db w))
                         (logger_job_id logger) (logger_source logger) level message
                         (isoformat (now_at E (w_clock w))) worker_id unit_id
                         (keep_if list_truthy extra) ])%list (w_db w))) w)).
Proof. reflexivity. Qed.

(** ** Sample data for the concrete statements *)

Definition sample_time : datetime := mk_datetime "2024-05-01T12:00:00".

(** An agent process that reports an error result. *)
Definition failing_process : process :=
  mk_process 4242
    [ Some (JDict [("type", JStr "system"); ("subtype", JStr "init");
                   ("session_id", JStr "s-1")]);
      Some (JDict [("type", JStr "assistant"); ("message", JStr "working")]);
      Some (JDict [("type", JStr "result"); ("is_error", JBool true);
                   ("result", JStr "boom"); ("total_cost_usd", JFloat 0.25%float)]) ]
    false 1 EmptyString.

Definition sample_env : env :=
  {| now_at := fun _ => sample_time;
     time_at := fun n => match n with O => 10%float | _ => 12.5%float end;
     uuid_at := fun n => "uuid-" ++ pretty n;
     os_kill := fun _ _ => Delivered;
     os_killpg := fun _ _ => Delivered;
     popen := fun _ _ => Returned failing_process;
     py_str := fun v => match v with JStr s => s | JInt n => pretty n | _ => "?" end;
     format_spec := fun _ _ _ => Raised (AttributeError "no such attribute");
     float_1f := fun _ => "0.0";
     format_exc := fun e => "Traceback (most recent call last): " ++ exn_str e;
     DEFAULT_WORKER_TIMEOUT := 600 |}.

Definition sample_job_row (total completed failed : Z) (post_unit : option string)
    (metadata : pydict) : JobRow.t :=
  {| JobRow.job_id := "j"; JobRow.name := "batch"; JobRow.description := "summarise";
     JobRow.status := JOB_RUNNING; JobRow.worker_prompt_template := "Process {file_path}";
     JobRow.unit_type := "file"; JobRow.total_units := total;
     JobRow.completed_units := completed; JobRow.failed_units := failed;
     JobRow.max_workers := 2; JobRow.created_at := "2024-05-01T11:00:00";
     JobRow.started_at := Some "2024-05-01T11:00:01"; JobRow.completed_at := None;
     JobRow.test_unit_id := None; JobRow.test_passed := 0;
     JobRow.output_strategy := "individual"; JobRow.metadata := Some metadata;
     JobRow.post_processing_prompt := Some "SUMMARIZE";
     JobRow.post_processing_unit_id := post_unit; JobRow.bypass_failures := 0 |}.

Definition sample_unit_row (unit_id unit_type : string) (status : WorkUnitStatus)
    (retry_count max_retries : Z) (process_id : option Z) : UnitRow.t :=
  {| UnitRow.unit_id := unit_id; UnitRow.job_id := "j"; UnitRow.unit_type := unit_type;
     UnitRow.status := status; UnitRow.payload := [("file_path", JStr "/data/a.txt")];
     UnitRow.created_at := "2024-05-01T11:00:00";
     UnitRow.assigned_at := Some "2024-05-01T11:00:02";
     UnitRow.started_at := Some "2024-05-01T11:00:03"; UnitRow.completed_at := None;
     UnitRow.worker_id := Some "worker-1"; UnitRow.result := None; UnitRow.error := None;
     UnitRow.retry_count := retry_count; UnitRow.max_retries := max_retries;
     UnitRow.execution_time_seconds := None; UnitRow.output_files := Some [];
     UnitRow.rendered_prompt := None; UnitRow.conversation := None;
     UnitRow.session_id := None; UnitRow.cost_usd := None;
     UnitRow.process_id := process_id |}.

Definition sample_db (job : JobRow.t) (units : list UnitRow.t) : database :=
  mk_database [job] units [] [] 0.

(** The world in which the pool holds the unit of row [r] as object 0. *)
Definition world_holding (d : database) (u : WorkUnit.t) : world :=
  with_heap [u] (initial_world d).

Definition sample_failure : WorkerResult.t :=
  failed_result "boom" 1%float (Some "Process /data/a.txt").

Definition sample_logger : JobLogger := mk_JobLogger "j" "executor".

(** ** Reading back what the repository wrote *)

Lemma find_update_where {R : Type} (p : R -> bool) (f : R -> R) (t : list R) :
  (forall r, p (f r) = p r) ->
  List.find p (update_where p f t) = f <$> List.find p t.
Proof.
  intros Hp. induction t as [|r t IH]; simpl; [reflexivity|].
  destruct (p r) eqn:Hr; simpl.
  - rewrite Hp, Hr. reflexivity.
  - rewrite Hr. exact IH.
Qed.

Lemma fromisoformat_isoformat (d : datetime) : fromisoformat (isoformat d) = d.
Proof. destruct d; reflexivity. Qed.

(** A datetime as it comes back from a nullable text cell. *)
Definition dt_norm (x : option datetime) : option datetime :=
  datetime_of_cell (cell_of_datetime x).

Lemma dt_norm_cell (c : option string) : dt_norm (datetime_of_cell c) = datetime_of_cell c.
Proof.
  unfold dt_norm. destruct c as [s|]; simpl; [|reflexivity].
  destruct (str_truthy s) eqn:Hs; simpl; [rewrite Hs|]; reflexivity.
Qed.

Lemma dt_norm_Some (d : datetime) : str_truthy (isoformat d) = true -> dt_norm (Some d) = Some d.
Proof. unfold dt_norm; simpl. intros ->. rewrite fromisoformat_isoformat. reflexivity. Qed.

Lemma bool_of_int_of_bool (b : bool) : bool_of_int (int_of_bool b) = b.
Proof. destruct b; reflexivity. Qed.

(** A work unit as [_row_to_work_unit] gives it back after
    [update_work_unit] wrote it: nullable datetimes go through their text,
    an empty [result] or [conversation] was stored as NULL, and the two
    floats are what their REAL cells hold. *)
Definition as_stored (u : WorkUnit.t) : WorkUnit.t :=
  {| WorkUnit.unit_id := WorkUnit.unit_id u;
     WorkUnit.job_id := WorkUnit.job_id u;
     WorkUnit.unit_type := WorkUnit.unit_type u;
     WorkUnit.status := WorkUnit.status u;
     WorkUnit.payload := WorkUnit.payload u;
     WorkUnit.created_at := WorkUnit.created_at u;
     WorkUnit.assigned_at := dt_norm (WorkUnit.assigned_at u);
     WorkUnit.started_at := dt_norm (WorkUnit.started_at u);
     WorkUnit.completed_at := dt_norm (WorkUnit.completed_at u);
     WorkUnit.worker_id := WorkUnit.worker_id u;
     WorkUnit.result := keep_if list_truthy (WorkUnit.result u);
     WorkUnit.error := WorkUnit.error u;
     WorkUnit.retry_count := WorkUnit.retry_count u;
     WorkUnit.max_retries := WorkUnit.max_retries u;
     WorkUnit.execution_time_seconds := real_cell (WorkUnit.execution_time_seconds u);
     WorkUnit.output_files := WorkUnit.output_files u;
     WorkUnit.rendered_prompt := WorkUnit.rendered_prompt u;
     WorkUnit.conversation := keep_if list_truthy (WorkUnit.conversation u);
     WorkUnit.session_id := WorkUnit.session_id u;
     WorkUnit.cost_usd := real_cell (WorkUnit.cost_usd u);
     WorkUnit.process_id := WorkUnit.process_id u |}.

(** The columns [update_work_unit] does not write. *)
Definition same_unit_identity (u u' : WorkUnit.t) : Prop :=
  WorkUnit.unit_id u' = WorkUnit.unit_id u
  /\ WorkUnit.job_id u' = WorkUnit.job_id u
  /\ WorkUnit.unit_type u' = WorkUnit.unit_type u
  /\ WorkUnit.payload u' = WorkUnit.payload u
  /\ WorkUnit.created_at u' = WorkUnit.created_at u
  /\ WorkUnit.max_retries u' = WorkUnit.max_retries u.

Lemma row_to_unit_update (r : UnitRow.t) (u' : WorkUnit.t) :
  same_unit_identity (_row_to_work_unit r) u' ->
  _row_to_work_unit (unit_update_row u' r) = as_stored u'.
Proof.
  intros (H1 & H2 & H3 & H4 & H5 & H6). destruct u'; simpl in *. subst.
  unfold _row_to_work_unit, as_stored, unit_update_row, dt_norm. simpl. reflexivity.
Qed.

Lemma get_work_unit_inv d unit_id u :
  get_work_unit d unit_id = Some u ->
  exists r, List.find (has_unit_id unit_id) (work_units d) = Some r
            /\ u = _row_to_work_unit r /\ UnitRow.unit_id r = unit_id.
Proof.
  unfold get_work_unit, fetchone. intros H.
  destruct (List.find (has_unit_id unit_id) (work_units d)) as [r|] eqn:Hr; [|discriminate].
  exists r. injection H as <-. repeat split.
  apply find_some in Hr as [_ Hr]. unfold has_unit_id in Hr.
  apply String.eqb_eq in Hr. exact Hr.
Qed.

(** After [update_work_unit u'] the unit reads back as [as_stored u']. *)
Lemma find_unit_after_update (rows : list UnitRow.t) unit_id u u' :
  _row_to_work_unit <$> List.find (has_unit_id unit_id) rows = Some u ->
  same_unit_identity u u' ->
  _row_to_work_unit <$>
    List.find (has_unit_id unit_id)
      (update_where (has_unit_id unit_id) (unit_update_row u') rows)
  = Some (as_stored u').
Proof.
  intros H Hsame.
  destruct (List.find (has_unit_id unit_id) rows) as [r|] eqn:Hr; [|discriminate].
  injection H as <-.
  rewrite find_update_where by reflexivity. rewrite Hr. simpl.
  rewrite row_to_unit_update; [reflexivity|exact Hsame].
Qed.

Lemma get_work_unit_after_update d unit_id u u' :
  get_work_unit d unit_id = Some u ->
  same_unit_identity u u' ->
  get_work_unit
    (with_work_units
       (update_where (has_unit_id (WorkUnit.unit_id u')) (unit_update_row u') (work_units d)) d)
    unit_id
  = Some (as_stored u').
Proof.
  intros Hu Hsame.
  pose proof Hu as (r & Hr & -> & Hid)%get_work_unit_inv.
  unfold get_work_unit, fetchone. cbn [work_units with_work_units].
  destruct Hsame as (Hsame1 & Hsame). rewrite Hsame1. cbn [WorkUnit.unit_id _row_to_work_unit].
  rewrite Hid. apply (find_unit_after_update _ _ (_row_to_work_unit r)).
  - exact Hu.
  - split; assumption.
Qed.

(** The same for jobs. *)
Definition same_job_identity (j j' : Job.t) : Prop :=
  Job.job_id j' = Job.job_id j
  /\ Job.name j' = Job.name j
  /\ Job.description j' = Job.description j
  /\ Job.worker_prompt_template j' = Job.worker_prompt_template j
  /\ Job.unit_type j' = Job.unit_type j
  /\ Job.total_units j' = Job.total_units j
  /\ Job.max_workers j' = Job.max_workers j
  /\ Job.created_at j' = Job.created_at j
  /\ Job.output_strategy j' = Job.output_strategy j.

Definition job_as_stored (j : Job.t) : Job.t :=
  Job.set_completed_at (dt_norm (Job.completed_at j))
    (Job.set_started_at (dt_norm (Job.started_at j)) j).

Lemma row_to_job_update (r : JobRow.t) (j' : Job.t) :
  same_job_identity (_row_to_job r) j' ->
  _row_to_job (job_update_row j' r) = job_as_stored j'.
Proof.
  intros (H1 & H2 & H3 & H4 & H5 & H6 & H7 & H8 & H9). destruct j'; simpl in *. subst.
  unfold _row_to_job, job_as_stored, job_update_row, dt_norm. simpl.
  rewrite !bool_of_int_of_bool. reflexivity.
Qed.

Lemma get_job_inv d job_id j :
  get_job d job_id = Some j ->
  exists r, List.find (fun r => String.eqb (JobRow.job_id r) job_id) (jobs d) = Some r
            /\ j = _row_to_job r /\ JobRow.job_id r = job_id.
Proof.
  unfold get_job, fetchone. intros H.
  destruct (List.find _ (jobs d)) as [r|] eqn:Hr; [|discriminate].
  exists r. injection H as <-. repeat split.
  apply find_some in Hr as [_ Hr]. apply String.eqb_eq in Hr. exact Hr.
Qed.

Lemma get_job_after_update d job_id j j' :
  get_job d job_id = Some j ->
  same_job_identity j j' ->
  get_job
    (with_jobs
       (update_where (fun r => String.eqb (JobRow.job_id r) (Job.job_id j'))
                     (job_update_row j') (jobs d)) d)
    job_id
  = Some (job_as_stored j').
Proof.
  intros (r & Hr & -> & Hid)%get_job_inv Hsame.
  unfold get_job, fetchone. cbn [jobs with_jobs].
  destruct Hsame as (Hsame1 & Hsame). rewrite Hsame1. cbn [Job.job_id _row_to_job].
  rewrite Hid, find_update_where by reflexivity. rewrite Hr. simpl.
  rewrite row_to_job_update; [reflexivity|]. split; assumption.
Qed.

(** A job read from the database is its own stored form. *)
Lemma job_as_stored_read d job_id j :
  get_job d job_id = Some j -> dt_norm (Job.started_at j) = Job.started_at j
                               /\ dt_norm (Job.completed_at j) = Job.completed_at j.
Proof.
  intros (r & _ & -> & _)%get_job_inv. simpl. split; apply dt_norm_cell.
Qed.

Lemma unit_as_stored_read d unit_id u :
  get_work_unit d unit_id = Some u ->
  dt_norm (WorkUnit.assigned_at u) = WorkUnit.assigned_at u
  /\ dt_norm (WorkUnit.started_at u) = WorkUnit.started_at u
  /\ dt_norm (WorkUnit.completed_at u) = WorkUnit.completed_at u.
Proof.
  intros (r & _ & -> & _)%get_work_unit_inv. simpl. repeat split; apply dt_norm_cell.
Qed.

(** Running a repository update from the code above it. *)
Lemma repo_update_job_run j w :
  repo (fun f => update_job f j) w
  = (true, with_db (with_jobs
        (update_where (fun r => String.eqb (JobRow.job_id r) (Job.job_id j))
                      (job_update_row j) (jobs (w_db w))) (w_db w)) w).
Proof. reflexivity. Qed.

Lemma repo_update_work_unit_run u w :
  repo (fun f => update_work_unit f u) w
  = (true, with_db (with_work_units
        (update_where (has_unit_id (WorkUnit.unit_id u)) (unit_update_row u)
                      (work_units (w_db w))) (w_db w)) w).
Proof. reflexivity. Qed.


(** ** The final status of a job *)

(** The rule table of the specification, by priority: its inputs are the
    two counter tests, the bypass flag, whether a post-processing prompt
    is present, whether a unit failed, and the status of the
    post-processing unit if there is one. *)
Definition final_status_table (all_units_done all_succeeded bypass_failures
    has_prompt has_failed_units : bool) (post_status : option WorkUnitStatus) : JobStatus :=
  if bool_decide (post_status = Some FAILED) then JOB_FAILED
  else if all_succeeded
          && (negb has_prompt || bool_decide (post_status = Some COMPLETED))
       then JOB_COMPLETED
  else if bypass_failures && bool_decide (post_status = Some COMPLETED) then JOB_COMPLETED
  else if has_failed_units && all_units_done then JOB_FAILED
  else JOB_PAUSED.

(** C3: whatever the world, the status [_determine_final_status] returns
    is the entry of the rule table for the job's two counter tests, its
    bypass flag, the presence of a post-processing prompt (a non-empty
    one, as Python's truth test reads it), [failed_units > 0] and the
    post-processing unit's status; the call only adds a log row. *)
Theorem determine_final_status_table E job post_unit logger w :
  fst (_determine_final_status E job post_unit logger w)
  = final_status_table
      (Z.eqb (Job.completed_units job + Job.failed_units job) (Job.total_units job))
      (Z.eqb (Job.completed_units job) (Job.total_units job))
      (Job.bypass_failures job)
      (opt_truthy str_truthy (Job.post_processing_prompt job))
      (Z.ltb 0 (Job.failed_units job))
      (WorkUnit.status <$> post_unit)
  /\ jobs (w_db (snd (_determine_final_status E job post_unit logger w))) = jobs (w_db w)
  /\ work_units (w_db (snd (_determine_final_status E job post_unit logger w)))
     = work_units (w_db w).
Proof.
  unfold _determine_final_status, final_status_table.
  destruct post_unit as [u|]; simpl.
  - destruct (WorkUnit.status u); simpl;
      repeat match goal with
             | |- context [if ?b then _ else _] => destruct b; simpl
             end; rewrite ?bind_run, ?logger_log_run; simpl; auto.
  - repeat match goal with
           | |- context [if ?b then _ else _] => destruct b; simpl
           end; rewrite ?bind_run, ?logger_log_run; simpl; auto.
Qed.


(** ** Total cost of a job *)

Definition job_with_free_unit : database :=
  with_work_units
    [ {| UnitRow.unit_id := "u1"; UnitRow.job_id := "j"; UnitRow.unit_type := "file";
         UnitRow.status := COMPLETED; UnitRow.payload := [];
         UnitRow.created_at := "2024-01-01T00:00:00"; UnitRow.assigned_at := None;
         UnitRow.started_at := None; UnitRow.completed_at := None;
         UnitRow.worker_id := None; UnitRow.result := None; UnitRow.error := None;
         UnitRow.retry_count := 0; UnitRow.max_retries := 3;
         UnitRow.execution_time_seconds := None; UnitRow.output_files := Some [];
         UnitRow.rendered_prompt := None; UnitRow.conversation := None;
         UnitRow.session_id := None; UnitRow.cost_usd := Some 0%float;
         UnitRow.process_id := None |} ]
    empty_database.

(** C9, at the failing input: one unit of the job has the recorded cost
    0.0; the query sums it to 0.0, and [get_job_total_cost] answers [None]
    instead of that sum. *)
Lemma get_job_total_cost_zero_sum :
  recorded_costs job_with_free_unit "j" = [0%float]
  /\ sql_sum (recorded_costs job_with_free_unit "j") = Some 0%float
  /\ get_job_total_cost job_with_free_unit "j" = None.
Proof. repeat split; reflexivity. Qed.


(** ** Database errors in the mutation operations *)










(** ** Restarting a work unit *)

Lemma kill_stale_process_db E pid w :
  w_db (snd (kill_stale_process E pid w)) = w_db w
  /\ w_heap (snd (kill_stale_process E pid w)) = w_heap w.
Proof.
  unfold kill_stale_process. destruct pid as [pid|]; [|auto].
  destruct (negb (Z.eqb pid 0)); [|auto].
  rewrite bind_run. unfold killpg at 1. simpl.
  destruct (os_killpg E pid SIGKILL); simpl; auto.
Qed.

(** The unit that [restart_work_unit] writes back. *)
Definition restarted (u : WorkUnit.t) : WorkUnit.t :=
  {| WorkUnit.unit_id := WorkUnit.unit_id u;
     WorkUnit.job_id := WorkUnit.job_id u;
     WorkUnit.unit_type := WorkUnit.unit_type u;
     WorkUnit.status := PENDING;
     WorkUnit.payload := WorkUnit.payload u;
     WorkUnit.created_at := WorkUnit.created_at u;
     WorkUnit.assigned_at := None;
     WorkUnit.started_at := None;
     WorkUnit.completed_at := None;
     WorkUnit.worker_id := None;
     WorkUnit.result := None;
     WorkUnit.error := None;
     WorkUnit.retry_count := WorkUnit.retry_count u;
     WorkUnit.max_retries := WorkUnit.max_retries u;
     WorkUnit.execution_time_seconds := None;
     WorkUnit.output_files := WorkUnit.output_files u;
     WorkUnit.rendered_prompt := None;
     WorkUnit.conversation := None;
     WorkUnit.session_id := None;
     WorkUnit.cost_usd := None;
     WorkUnit.process_id := None |}.

(** A write that the database layer takes, run from the code above the
    repository. *)
Lemma repo_on_update_job f j w :
  accepts f (UpdateJob j) (w_db w) = true ->
  repo_on f (fun f => update_job f j) w
  = (Returned true,
     with_db (with_jobs
        (update_where (fun r => String.eqb (JobRow.job_id r) (Job.job_id j))
                      (job_update_row j) (jobs (w_db w))) (w_db w)) w).
Proof.
  unfold accepts, raises_overflow, any_fault, statements_of, violates_constraint,
    bound_integers, repo_on, update_job, mutation, _get_connection, conn_execute,
    sql_update_job.
  generalize (forallb fits_int64 [Job.completed_units j; Job.failed_units j]).
  intros fits. simpl.
  destruct (connect_fails f), (pragma_fails f), (execute_fails f 0), (commit_fails f),
    (bind_overflows f 0), fits; simpl; try discriminate; reflexivity.
Qed.

Lemma repo_on_update_work_unit f u w :
  accepts f (UpdateWorkUnit u) (w_db w) = true ->
  repo_on f (fun f => update_work_unit f u) w
  = (Returned true,
     with_db (with_work_units
        (update_where (has_unit_id (WorkUnit.unit_id u)) (unit_update_row u)
                      (work_units (w_db w))) (w_db w)) w).
Proof.
  unfold accepts, raises_overflow, any_fault, statements_of, violates_constraint,
    bound_integers, repo_on, update_work_unit, mutation, _get_connection, conn_execute,
    sql_update_work_unit.
  generalize (forallb fits_int64
                (WorkUnit.retry_count u :: option_list (WorkUnit.process_id u))).
  intros fits. simpl.
  destruct (connect_fails f), (pragma_fails f), (execute_fails f 0), (commit_fails f),
    (bind_overflows f 0), fits; simpl; try discriminate; reflexivity.
Qed.

(** The job as [restart_work_unit] writes it back. *)
Definition with_one_failure_less (j : Job.t) : Job.t :=
  Job.set_failed_units (Z.max 0 (Job.failed_units j - 1)) j.

(** A restart of a failed unit whose writes the database layer takes, as
    a change of the database. *)
Lemma restart_failed_unit_on f_job f_unit E job_id unit_id w u :
  get_work_unit (w_db w) unit_id = Some u ->
  WorkUnit.job_id u = job_id ->
  WorkUnit.status u = FAILED ->
  (forall j, get_job (w_db w) job_id = Some j ->
             accepts f_job (UpdateJob (with_one_failure_less j)) (w_db w) = true) ->
  accepts f_unit (UpdateWorkUnit (restarted u)) (w_db w) = true ->
  let r := restart_work_unit_on f_job f_unit E job_id unit_id w in
  succeeded (fst r) = true
  /\ get_work_unit (w_db (snd r)) unit_id = Some (restarted u)
  /\ (forall j, get_job (w_db w) job_id = Some j ->
        get_job (w_db (snd r)) job_id = Some (with_one_failure_less j))
  /\ (get_job (w_db w) job_id = None -> jobs (w_db (snd r)) = jobs (w_db w)).
Proof.
  intros Hu Hjob Hst Hfj Hfu r. subst r. unfold restart_work_unit_on.
  unfold mbind, M_bind, mret, M_ret, get_db.
  rewrite Hu, Hjob, String.eqb_refl. cbn [negb].
  rewrite Hst. rewrite bool_decide_eq_true_2 by reflexivity. cbn [negb].
  pose proof (kill_stale_process_db E (WorkUnit.process_id u) w) as [Hdb Hheap].
  destruct (kill_stale_process E (WorkUnit.process_id u) w) as [[] w1].
  destruct w1 as [d1 h1 c1 t1 u1 s1 p1]. simpl in Hdb, Hheap. subst d1 h1.
  cbn [w_db].
  set (u' := WorkUnit.set_cost_usd None _).
  assert (Hsame : same_unit_identity u u') by (repeat split).
  assert (Hu' : as_stored u' = restarted u) by reflexivity.
  assert (Hfu' : forall d, accepts f_unit (UpdateWorkUnit u') d = true).
  { intros d. exact Hfu. }
  destruct (get_job (w_db w) job_id) as [job|] eqn:Hj.
  - rewrite repo_on_update_job by (apply (Hfj job eq_refl)).
    rewrite repo_on_update_work_unit by apply Hfu'. cbn [w_db with_db fst snd].
    split; [reflexivity|]. split; [|split; [|discriminate]].
    + rewrite <- Hu'. apply (get_work_unit_after_update _ _ u); [exact Hu|exact Hsame].
    + intros j [= <-].
      set (j' := Job.set_failed_units _ job).
      change (get_job (with_jobs (update_where
                (fun r => String.eqb (JobRow.job_id r) (Job.job_id j'))
                (job_update_row j') (jobs (w_db w))) (w_db w)) job_id = Some j').
      erewrite get_job_after_update; [|exact Hj|repeat split].
      f_equal. destruct (job_as_stored_read _ _ _ Hj) as [H1 H2].
      unfold job_as_stored, j'. destruct job; simpl in *. rewrite H1, H2. reflexivity.
  - rewrite repo_on_update_work_unit by apply Hfu'. cbn [w_db with_db fst snd].
    split; [reflexivity|]. split; [|split; [intros j [=]|reflexivity]].
    rewrite <- Hu'. apply (get_work_unit_after_update _ _ u); [exact Hu|exact Hsame].
Qed.

(** The same for [restart_work_unit], where the layer takes every write. *)
Lemma restart_failed_unit E job_id unit_id w u :
  get_work_unit (w_db w) unit_id = Some u ->
  WorkUnit.job_id u = job_id ->
  WorkUnit.status u = FAILED ->
  let r := restart_work_unit E job_id unit_id w in
  succeeded (Returned (fst r)) = true
  /\ get_work_unit (w_db (snd r)) unit_id = Some (restarted u)
  /\ (forall j, get_job (w_db w) job_id = Some j ->
        get_job (w_db (snd r)) job_id
        = Some (Job.set_failed_units (Z.max 0 (Job.failed_units j - 1)) j))
  /\ (get_job (w_db w) job_id = None -> jobs (w_db (snd r)) = jobs (w_db w)).
Proof.
  intros Hu Hjob Hst r. subst r.
  destruct (restart_failed_unit_on no_faults no_faults E job_id unit_id w u Hu Hjob Hst)
    as (H1 & H2 & H3 & H4); [reflexivity..|].
  unfold restart_work_unit. rewrite bind_run. cbn [mret M_ret fst snd].
  destruct (fst (restart_work_unit_on no_faults no_faults E job_id unit_id w))
    as [result|e]; [|discriminate].
  repeat split; assumption.
Qed.

(** A unit that is not [failed] is refused, whatever the database layer
    does, and nothing is changed or signalled. *)
Lemma restart_other_unit_on f_job f_unit E job_id unit_id w u :
  get_work_unit (w_db w) unit_id = Some u ->
  WorkUnit.job_id u = job_id ->
  WorkUnit.status u <> FAILED ->
  let r := restart_work_unit_on f_job f_unit E job_id unit_id w in
  (exists result, fst r = Returned result) /\ succeeded (fst r) = false /\ snd r = w.
Proof.
  intros Hu Hjob Hst r. subst r. unfold restart_work_unit_on.
  unfold mbind, M_bind, mret, M_ret, get_db.
  rewrite Hu, Hjob, String.eqb_refl. cbn [negb].
  rewrite bool_decide_eq_false_2 by exact Hst. cbn [negb]. simpl.
  split; [eexists; reflexivity|]. split; reflexivity.
Qed.

(** C5: [restart_work_unit] on a unit [u] of the job, with the database
    layer as a parameter.  When [u] is [failed] and the layer takes the
    two writes, the call succeeds, the unit reads back as [restarted u]
    (status [pending], every per-attempt field null, [retry_count] and the
    rest as before), and the job, when it exists, reads back with
    [failed_units = max(0, failed_units - 1)] and nothing else changed.
    When [u] has any other status the call returns an error and the world
    (database, signals sent) is as before, whatever the layer does. *)
Theorem restart_work_unit_spec f_job f_unit E job_id unit_id w u :
  get_work_unit (w_db w) unit_id = Some u ->
  WorkUnit.job_id u = job_id ->
  let r := restart_work_unit_on f_job f_unit E job_id unit_id w in
  (WorkUnit.status u = FAILED ->
   (forall j, get_job (w_db w) job_id = Some j ->
              accepts f_job (UpdateJob (with_one_failure_less j)) (w_db w) = true) ->
   accepts f_unit (UpdateWorkUnit (restarted u)) (w_db w) = true ->
     succeeded (fst r) = true
     /\ get_work_unit (w_db (snd r)) unit_id = Some (restarted u)
     /\ (forall j, get_job (w_db w) job_id = Some j ->
           get_job (w_db (snd r)) job_id
           = Some (Job.set_failed_units (Z.max 0 (Job.failed_units j - 1)) j)))
  /\ (WorkUnit.status u <> FAILED ->
     succeeded (fst r) = false /\ snd r = w).
Proof.
  intros Hu Hjob r. split.
  - intros Hst Hfj Hfu.
    destruct (restart_failed_unit_on f_job f_unit E job_id unit_id w u Hu Hjob Hst Hfj Hfu)
      as (H1 & H2 & H3 & _).
    repeat split; assumption.
  - intros Hst.
    destruct (restart_other_unit_on f_job f_unit E job_id unit_id w u Hu Hjob Hst)
      as (_ & H1 & H2).
    split; assumption.
Qed.

Definition world_with_failed_unit : world :=
  initial_world
    (sample_db (sample_job_row 3 1 1 None [])
       [sample_unit_row "u1" "file" FAILED 2 3 (Some 4242)]).

(** A database that is locked: every statement fails. *)
Definition database_locked : faults :=
  mk_faults false false (fun _ => true) (fun _ => false) false.

(** C5 as stated fails: the database is locked during both writes;
    [restart_work_unit] does not look at what they return and reports
    success, while the unit is still [failed] and the job's
    [failed_units] is what it was. *)
Lemma restart_reports_success_without_writing :
  let r := restart_work_unit_on database_locked database_locked sample_env "j" "u1"
             world_with_failed_unit in
  fst r = Returned [ ("success", JBool true);
                     ("message", JStr "Work unit reset to pending");
                     ("unit_id", JStr "u1") ]
  /\ WorkUnit.status <$> get_work_unit (w_db world_with_failed_unit) "u1" = Some FAILED
  /\ WorkUnit.status <$> get_work_unit (w_db (snd r)) "u1" = Some FAILED
  /\ Job.failed_units <$> get_job (w_db world_with_failed_unit) "j" = Some 1
  /\ Job.failed_units <$> get_job (w_db (snd r)) "j" = Some 1
  /\ w_db (snd r) = w_db world_with_failed_unit.
Proof. vm_compute. repeat split; reflexivity. Qed.

Lemma restart_work_unit_spec_witness :
  let r := restart_work_unit_on no_faults no_faults sample_env "j" "u1"
             world_with_failed_unit in
  succeeded (fst r) = true
  /\ get_work_unit (w_db (snd r)) "u1"
     = Some (restarted (_row_to_work_unit (sample_unit_row "u1" "file" FAILED 2 3 (Some 4242))))
  /\ (Job.failed_units <$> get_job (w_db (snd r)) "j") = Some 0.
Proof.
  pose proof (restart_work_unit_spec no_faults no_faults sample_env "j" "u1"
                world_with_failed_unit _ eq_refl eq_refl) as [H _].
  destruct (H eq_refl ltac:(intros j _; reflexivity) eq_refl) as (H1 & H2 & H3).
  split; [exact H1|]. split; [exact H2|].
  rewrite (H3 _ eq_refl). reflexivity.
Defined.

(** ** The failure callback *)

Lemma deref_run (r : ref) (w : world) (u : WorkUnit.t) :
  w_heap w !! r = Some u -> deref r w = (u, w).
Proof. unfold deref. intros ->. reflexivity. Qed.

(** The object after the retry branch of [_on_unit_failed]. *)
Definition retried (u : WorkUnit.t) : WorkUnit.t :=
  WorkUnit.set_started_at None
    (WorkUnit.set_assigned_at None
       (WorkUnit.set_worker_id None
          (WorkUnit.set_retry_count (WorkUnit.retry_count u + 1)
             (WorkUnit.set_status PENDING u)))).






(** ** A failed attempt in the pool *)

Lemma alter_as_insert {A : Type} (f : A -> A) (i : nat) (l : list A) (x : A) :
  l !! i = Some x -> alter f i l = <[i := f x]> l.
Proof.
  revert i. induction l as [|a l IH]; intros [|i] H; simpl in *; try discriminate.
  - injection H as ->. reflexivity.
  - f_equal. apply IH. exact H.
Qed.

Lemma alter_insert_same {A : Type} (f : A -> A) (i : nat) (l : list A) (x y : A) :
  l !! i = Some x -> alter f i (<[i := y]> l) = <[i := f y]> l.
Proof.
  intros H. rewrite (alter_as_insert f i _ y).
  - apply list_insert_insert_eq.
  - apply list_lookup_insert_eq. apply lookup_lt_Some in H. exact H.
Qed.

Lemma lookup_insert_same {A : Type} (i : nat) (l : list A) (x y : A) :
  l !! i = Some x -> <[i := y]> l !! i = Some y.
Proof. intros H. apply list_lookup_insert_eq. apply lookup_lt_Some in H. exact H. Qed.

(** The retry branch of [_on_unit_failed], as a change of the world. *)
Lemma on_unit_failed_retry_run E job_id unit result logger w u :
  w_heap w !! unit = Some u ->
  can_retry u = true ->
  let w' := snd (_on_unit_failed E job_id unit result logger w) in
  w_heap w' = <[unit := retried u]> (w_heap w)
  /\ work_units (w_db w')
     = update_where (has_unit_id (WorkUnit.unit_id u)) (unit_update_row (retried u))
         (work_units (w_db w))
  /\ jobs (w_db w') = jobs (w_db w).
Proof.
  intros Hu Hretry w'. subst w'. unfold _on_unit_failed, ref in *.
  unfold mbind, M_bind, mret, M_ret, get_db.
  rewrite (deref_run _ _ _ Hu), Hretry.
  unfold setattr, persist_unit, deref, mbind, M_bind, mret, M_ret.
  cbn [w_heap with_heap fst snd].
  rewrite (alter_as_insert _ _ _ _ Hu), !(alter_insert_same _ _ _ _ _ Hu).
  rewrite (lookup_insert_same _ _ _ _ Hu). cbn [default].
  rewrite repo_update_work_unit_run, logger_log_run.
  cbn [w_heap w_db with_heap with_db with_clock fst snd jobs with_logs with_work_units
       work_units].
  repeat split; reflexivity.
Qed.

(** The object after the assignments the body makes for a failed result
    that was completed at [t], before it calls [on_unit_failed]. *)
Definition failed_attempt (t : datetime) (result : WorkerResult.t) (u : WorkUnit.t)
    : WorkUnit.t :=
  let u := WorkUnit.set_completed_at (Some t) u in
  let u := WorkUnit.set_execution_time_seconds (WorkerResult.execution_time result) u in
  let u := WorkUnit.set_output_files (WorkerResult.output_files result) u in
  let u := WorkUnit.set_process_id None u in
  let u := WorkUnit.set_rendered_prompt (WorkerResult.rendered_prompt result) u in
  let u := WorkUnit.set_conversation (Some (WorkerResult.conversation result)) u in
  let u :=
    if list_truthy (WorkerResult.metadata result) then
      WorkUnit.set_cost_usd
        (json_as_float (event_get "total_cost_usd" (WorkerResult.metadata result)))
        (WorkUnit.set_session_id
           (json_as_str (event_get "session_id" (WorkerResult.metadata result))) u)
    else u in
  let u := WorkUnit.set_status FAILED u in
  let u := WorkUnit.set_error (WorkerResult.error result) u in
  WorkUnit.set_result (Some (WorkerResult_to_dict result)) u.

Lemma pool_log_run E self level message worker_id unit_id extra w :
  WorkerPool_log E self level message worker_id unit_id extra w
  = (tt, with_clock (S (w_clock w))
           (with_db
              (with_logs_sequence (next_log_id (w_db w))
                 (with_logs
                    (logs (w_db w) ++
                     [ LogRow.mk (next_log_id (w_db w))
                         (pool_job_id self) "worker" level message
                         (isoformat (now_at E (w_clock w))) worker_id unit_id
                         (keep_if list_truthy extra) ])%list (w_db w))) w)).
Proof. reflexivity. Qed.

Lemma record_result_failure E self worker unit result w u cb :
  w_heap w !! unit = Some u ->
  WorkerResult.success result = false ->
  on_unit_failed self = Some cb ->
  exists w1,
    w_heap w1 = <[unit := failed_attempt (now_at E (w_clock w)) result u]> (w_heap w)
    /\ work_units (w_db w1) = work_units (w_db w)
    /\ jobs (w_db w1) = jobs (w_db w)
    /\ snd (record_result E self worker unit result w)
       = snd (persist_unit unit (snd (cb unit result w1))).
Proof.
  intros Hu Hfail Hcb. unfold record_result, call_callback, ref in *.
  rewrite Hcb, Hfail.
  unfold mbind, M_bind, mret, M_ret, now, setattr, deref.
  cbn [w_heap with_heap with_clock with_db w_db w_clock fst snd].
  rewrite (alter_as_insert _ _ _ _ Hu), !(alter_insert_same _ _ _ _ _ Hu).
  unfold failed_attempt.
  destruct (list_truthy (WorkerResult.metadata result));
    cbn [w_heap with_heap with_clock with_db w_db w_clock fst snd];
    rewrite ?(alter_insert_same _ _ _ _ _ Hu), ?(lookup_insert_same _ _ _ _ Hu);
    cbn [default]; rewrite pool_log_run;
    match goal with |- context [cb unit result ?W] => exists W end;
    cbn [w_heap with_heap with_clock with_db w_db w_clock fst snd jobs work_units
         with_logs];
    (split; [reflexivity|]); (split; [reflexivity|]); (split; [reflexivity|]);
    destruct (cb unit result _); reflexivity.
Qed.

Lemma can_retry_failed_attempt t result u :
  can_retry (failed_attempt t result u) = can_retry u.
Proof. unfold failed_attempt. destruct (list_truthy _); reflexivity. Qed.

Lemma same_identity_failed_attempt t result u0 u :
  same_unit_identity u0 u -> same_unit_identity u0 (retried (failed_attempt t result u)).
Proof. unfold failed_attempt. destruct (list_truthy _); intros H; exact H. Qed.

Lemma same_identity_as_stored u : same_unit_identity (as_stored u) u.
Proof. repeat split. Qed.

(** C6, as the code has it: a failed attempt on the shared object [u],
    with retries left, in the executor's pool.  After the body has
    recorded the result and called the failure callback, the unit reads
    back [pending] with [retry_count] one higher and [worker_id],
    [assigned_at] and [started_at] null; its [error], [result],
    [completed_at], [conversation] and [execution_time_seconds] are those
    of the failed attempt, as their cells hold them. *)
Theorem failed_attempt_is_retried E job_id drv worker unit result w u u0 :
  w_heap w !! unit = Some u ->
  get_work_unit (w_db w) (WorkUnit.unit_id u) = Some u0 ->
  same_unit_identity u0 u ->
  WorkerResult.success result = false ->
  can_retry u = true ->
  let w' := snd (record_result E (executor_pool E job_id drv) worker unit result w) in
  let t := now_at E (w_clock w) in
  exists stored,
    get_work_unit (w_db w') (WorkUnit.unit_id u) = Some stored
    /\ w_heap w' !! unit = Some (retried (failed_attempt t result u))
    /\ WorkUnit.status stored = PENDING
    /\ WorkUnit.retry_count stored = WorkUnit.retry_count u + 1
    /\ WorkUnit.worker_id stored = None
    /\ WorkUnit.assigned_at stored = None
    /\ WorkUnit.started_at stored = None
    /\ WorkUnit.error stored = WorkerResult.error result
    /\ WorkUnit.result stored = Some (WorkerResult_to_dict result)
    /\ WorkUnit.completed_at stored = dt_norm (Some t)
    /\ WorkUnit.conversation stored
       = keep_if list_truthy (Some (WorkerResult.conversation result))
    /\ WorkUnit.execution_time_seconds stored
       = real_cell (WorkerResult.execution_time result).
Proof.
  intros Hu Hu0 Hsame Hfail Hretry w' t. subst w'.
  destruct (record_result_failure E (executor_pool E job_id drv) worker unit result w u _
              Hu Hfail eq_refl) as (w1 & Hheap1 & Hunits1 & Hjobs1 & ->).
  fold t in Hheap1. set (fa := failed_attempt t result u) in *.
  assert (Hfa : w_heap w1 !! unit = Some fa).
  { rewrite Hheap1. exact (lookup_insert_same _ _ _ _ Hu). }
  assert (Hretry' : can_retry fa = true).
  { unfold fa. rewrite can_retry_failed_attempt. exact Hretry. }
  destruct (on_unit_failed_retry_run E job_id unit result (mk_JobLogger job_id "executor")
              w1 fa Hfa Hretry') as (Hheap2 & Hunits2 & Hjobs2).
  set (w2 := snd (_on_unit_failed E job_id unit result _ w1)) in *.
  assert (Hobj : w_heap w2 !! unit = Some (retried fa)).
  { rewrite Hheap2. exact (lookup_insert_same _ _ _ _ Hfa). }
  unfold persist_unit, mbind, M_bind, mret, M_ret. rewrite (deref_run _ _ _ Hobj).
  rewrite repo_update_work_unit_run. cbn [fst snd w_db with_db w_heap].
  exists (as_stored (retried fa)).
  assert (Hid : WorkUnit.unit_id (retried fa) = WorkUnit.unit_id u).
  { unfold fa, failed_attempt. destruct (list_truthy _); reflexivity. }
  assert (Hid' : WorkUnit.unit_id fa = WorkUnit.unit_id u).
  { unfold fa, failed_attempt. destruct (list_truthy _); reflexivity. }
  assert (Hsame' : same_unit_identity u0 (retried fa))
    by (apply same_identity_failed_attempt; exact Hsame).
  split.
  - unfold get_work_unit, fetchone. cbn [work_units with_work_units].
    rewrite Hid, Hunits2, Hunits1, Hid'.
    apply (find_unit_after_update _ _ (as_stored (retried fa)));
      [|apply same_identity_as_stored].
    apply (find_unit_after_update _ _ u0); [exact Hu0|exact Hsame'].
  - split; [exact Hobj|].
    unfold fa, failed_attempt. destruct (list_truthy (WorkerResult.metadata result));
      repeat split; reflexivity.
Qed.

Definition sample_cli : ClaudeCliWorker := mk_ClaudeCliWorker "claude" None None.

Definition sample_worker : WorkerProcess.t :=
  {| WorkerProcess.worker_id := "worker-1"; WorkerProcess.status := BUSY;
     WorkerProcess.job_id := Some "j"; WorkerProcess.current_unit_id := Some "u1";
     WorkerProcess.process_id := None; WorkerProcess.started_at := sample_time;
     WorkerProcess.last_heartbeat := None; WorkerProcess.units_completed := 0;
     WorkerProcess.units_failed := 0; WorkerProcess.total_execution_time := 0%float |}.

Definition assigned_unit_row : UnitRow.t := sample_unit_row "u1" "file" ASSIGNED 0 3 None.

(** A job with one unit, assigned to a worker of the executor's pool. *)
Definition world_unit_assigned : world :=
  world_holding (sample_db (sample_job_row 1 0 0 None []) [assigned_unit_row])
    (_row_to_work_unit assigned_unit_row).

Definition after_failed_attempt : world :=
  snd (_execute_work_unit sample_env
         (executor_pool sample_env "j" (execute sample_env sample_cli))
         sample_worker 0%nat "Process {file_path}" world_unit_assigned).

(** C6 as stated fails: the agent reports an error on the first attempt
    of a unit with three retries; the unit is back to [pending] with
    [retry_count = 1], and its row still holds the error, the result, the
    completion time, the conversation and the execution time of the failed
    attempt. *)
Lemma retried_unit_keeps_attempt_fields :
  let u := get_work_unit (w_db after_failed_attempt) "u1" in
  WorkUnit.status <$> u = Some PENDING
  /\ WorkUnit.retry_count <$> u = Some 1
  /\ WorkUnit.error <$> u = Some (Some "boom")
  /\ WorkUnit.completed_at <$> u = Some (Some sample_time)
  /\ WorkUnit.execution_time_seconds <$> u = Some (Some 2.5%float)
  /\ WorkUnit.conversation <$> u
     = Some (Some [JDict [("type", JStr "assistant"); ("message", JStr "working")]])
  /\ (WorkUnit.result <$> u) ≫= (fun r => r ≫= dict_get "error") = Some (JStr "boom").
Proof. vm_compute. repeat split; reflexivity. Qed.

Lemma failed_attempt_is_retried_witness :
  let w' := snd (record_result sample_env (executor_pool sample_env "j"
                   (execute sample_env sample_cli)) sample_worker 0%nat sample_failure
                   world_unit_assigned) in
  exists stored,
    get_work_unit (w_db w') "u1" = Some stored
    /\ WorkUnit.status stored = PENDING
    /\ WorkUnit.error stored = Some "boom".
Proof.
  destruct (failed_attempt_is_retried sample_env "j" (execute sample_env sample_cli)
              sample_worker 0%nat sample_failure world_unit_assigned
              (_row_to_work_unit assigned_unit_row) (_row_to_work_unit assigned_unit_row)
              eq_refl eq_refl (ltac:(repeat split)) eq_refl eq_refl)
    as (stored & H1 & _ & H3 & _ & _ & _ & _ & H8 & _).
  exists stored. split; [exact H1|]. split; [exact H3|exact H8].
Defined.

(** ** Killing the executor *)

Lemma dict_get_set_same {V : Type} (k : string) (v : V) (d : list (string * V)) :
  dict_get k (dict_set k v d) = Some v.
Proof.
  induction d as [|[k' v'] d IH]; simpl.
  - rewrite String.eqb_refl. reflexivity.
  - destruct (String.eqb k k') eqn:Hk; simpl.
    + rewrite String.eqb_refl. reflexivity.
    + rewrite Hk. exact IH.
Qed.

Lemma dict_get_set_other {V : Type} (k k' : string) (v : V) (d : list (string * V)) :
  String.eqb k k' = false -> dict_get k (dict_set k' v d) = dict_get k d.
Proof.
  intros Hk. induction d as [|[k1 v1] d IH]; simpl.
  - rewrite Hk. reflexivity.
  - destruct (String.eqb k' k1) eqn:Hk1; simpl.
    + apply String.eqb_eq in Hk1. subst k1. rewrite Hk. reflexivity.
    + destruct (String.eqb k k1); [reflexivity | exact IH].
Qed.

Lemma find_update_where_key {R : Type} (p q : R -> bool) (f : R -> R) (t : list R) :
  (forall r, q (f r) = q r) ->
  List.find q (update_where p f t) = (fun r => if p r then f r else r) <$> List.find q t.
Proof.
  intros Hq. induction t as [|r t IH]; simpl; [reflexivity|].
  destruct (p r) eqn:Hp; simpl.
  - rewrite Hq. destruct (q r); simpl; [rewrite Hp; reflexivity | exact IH].
  - destruct (q r); simpl; [rewrite Hp; reflexivity | exact IH].
Qed.

(** A unit of the job that [reset_stuck_units] finds [assigned] or
    [processing] reads back [pending], with its assignment cleared. *)
Lemma reset_stuck_units_pending d job_id unit_id u :
  get_work_unit d unit_id = Some u ->
  WorkUnit.job_id u = job_id ->
  WorkUnit.status u = ASSIGNED \/ WorkUnit.status u = PROCESSING ->
  exists u', get_work_unit (snd (reset_stuck_units d job_id)) unit_id = Some u'
             /\ WorkUnit.status u' = PENDING /\ WorkUnit.worker_id u' = None
             /\ WorkUnit.assigned_at u' = None /\ WorkUnit.started_at u' = None.
Proof.
  intros (r & Hr & -> & Hid)%get_work_unit_inv Hjob Hst.
  unfold reset_stuck_units, get_work_unit, fetchone. cbn [snd work_units with_work_units].
  rewrite find_update_where_key by reflexivity. rewrite Hr. cbn [fmap option_fmap option_map].
  assert (His : is_stuck job_id r = true).
  { unfold is_stuck. simpl in Hjob, Hst. rewrite Hjob, String.eqb_refl.
    destruct Hst as [-> | ->]; reflexivity. }
  rewrite His. eexists. split; [reflexivity|]. repeat split.
Qed.

(** The job that [kill_executor] writes on its two successful paths. *)
Definition killed_job (E : env) (w : world) (reason : string) (job : Job.t) : Job.t :=
  Job.set_metadata
    (dict_set "kill_reason" (JStr reason)
       (dict_set "killed_at" (JStr (isoformat (now_at E (w_clock w)))) (Job.metadata job)))
    (Job.set_status JOB_FAILED job).

(** What a successful [kill_executor] leaves behind, on each of its two
    successful paths: the job reads back [failed] with [killed_at] set;
    the stuck units are reset when the executor was alive and was killed,
    and the unit rows are untouched when it was already gone. *)
Lemma kill_executor_success E job_id w :
  succeeded (fst (kill_executor E job_id w)) = true ->
  let w' := snd (kill_executor E job_id w) in
  exists job pid,
    get_job (w_db w) job_id = Some job
    /\ dict_get "executor_pid" (Job.metadata job) = Some (JInt pid)
    /\ (os_kill E pid SIG0 = Delivered \/ os_kill E pid SIG0 = ProcessLookupError)
    /\ (exists job', get_job (w_db w') job_id = Some job'
                     /\ Job.status job' = JOB_FAILED
                     /\ dict_get "killed_at" (Job.metadata job')
                        = Some (JStr (isoformat (now_at E (w_clock w)))))
    /\ (os_kill E pid SIG0 = Delivered ->
        forall unit_id u,
          get_work_unit (w_db w) unit_id = Some u ->
          WorkUnit.job_id u = job_id ->
          WorkUnit.status u = ASSIGNED \/ WorkUnit.status u = PROCESSING ->
          WorkUnit.status <$> get_work_unit (w_db w') unit_id = Some PENDING)
    /\ (os_kill E pid SIG0 = ProcessLookupError ->
        work_units (w_db w') = work_units (w_db w)).
Proof.
  unfold kill_executor, kill, killpg, now, call_reset_stuck_units.
  unfold mbind, M_bind, mret, M_ret, get_db.
  destruct (get_job (w_db w) job_id) as [job|] eqn:Hj; [|discriminate].
  destruct (dict_get "executor_pid" (Job.metadata job)) as [pidv|] eqn:Hpid;
    [|discriminate].
  cbn [keep_if]. destruct (truthy pidv) eqn:Htruthy; [|discriminate].
  destruct pidv as [| | pid | | | |]; try discriminate.
  cbn [fst snd].
  assert (Hjob' : forall reason d',
    jobs d' = jobs (w_db w) ->
    exists job', get_job
        (with_jobs (update_where
           (fun r => String.eqb (JobRow.job_id r) (Job.job_id (killed_job E w reason job)))
           (job_update_row (killed_job E w reason job)) (jobs d')) d') job_id = Some job'
      /\ Job.status job' = JOB_FAILED
      /\ dict_get "killed_at" (Job.metadata job')
         = Some (JStr (isoformat (now_at E (w_clock w))))).
  { intros reason d' Hd'. eexists. split.
    - apply (get_job_after_update d' job_id job); [|repeat split].
      unfold get_job. rewrite Hd'. exact Hj.
    - split; [reflexivity|]. simpl.
      rewrite dict_get_set_other by reflexivity. apply dict_get_set_same. }
  assert (Hreset : forall unit_id u,
          get_work_unit (w_db w) unit_id = Some u ->
          WorkUnit.job_id u = job_id ->
          WorkUnit.status u = ASSIGNED \/ WorkUnit.status u = PROCESSING ->
          WorkUnit.status <$>
            (_row_to_work_unit <$>
               List.find (has_unit_id unit_id)
                 (update_where (is_stuck job_id) unstick_row (work_units (w_db w))))
          = Some PENDING).
  { intros unit_id u Hu Hjid Hst.
    destruct (reset_stuck_units_pending (w_db w) job_id unit_id u Hu Hjid Hst)
      as (u' & Hu' & Hst' & _).
    unfold get_work_unit, fetchone, reset_stuck_units in Hu'.
    cbn [snd work_units with_work_units] in Hu'. rewrite Hu'. simpl. rewrite Hst'.
    reflexivity. }
  destruct (os_kill E pid SIG0) eqn:Hprobe.
  - (* the executor is alive *)
    destruct (os_killpg E pid SIGKILL) eqn:Hgroup;
      [|destruct (os_kill E pid SIGKILL) eqn:Hsingle; try discriminate..].
    all: intros _; exists job, pid; rewrite ?Hprobe; split; [reflexivity|];
      split; [exact Hpid|]; split; [left; reflexivity|];
      rewrite repo_update_job_run;
      cbn [fst snd w_db with_db with_clock with_signals reset_stuck_units jobs
           with_work_units work_units with_jobs w_clock];
      (split; [apply (Hjob' "User requested kill" (w_db w)); reflexivity|]);
      (split; [|discriminate]); intros _; exact Hreset.
  - (* the executor is already gone *)
    intros _. exists job, pid. rewrite ?Hprobe. split; [reflexivity|]. split; [exact Hpid|].
    split; [right; reflexivity|].
    rewrite repo_update_job_run.
    cbn [fst snd w_db with_db with_clock with_signals jobs work_units with_jobs w_clock].
    split; [apply (Hjob' "User requested kill (process already dead)" (w_db w)); reflexivity|].
    split; [discriminate|reflexivity].
  - discriminate.
Qed.

(** An environment in which the recorded executor process has died. *)
Definition env_executor_gone : env :=
  {| now_at := now_at sample_env; time_at := time_at sample_env;
     uuid_at := uuid_at sample_env;
     os_kill := fun _ _ => ProcessLookupError;
     os_killpg := fun _ _ => ProcessLookupError;
     popen := popen sample_env; py_str := py_str sample_env;
     format_spec := format_spec sample_env; float_1f := float_1f sample_env;
     format_exc := format_exc sample_env;
     DEFAULT_WORKER_TIMEOUT := DEFAULT_WORKER_TIMEOUT sample_env |}.

(** A running job whose executor, pid 4242, crashed while unit [u1] was
    being processed. *)
Definition world_executor_crashed : world :=
  initial_world
    (sample_db (sample_job_row 2 0 0 None [("executor_pid", JInt 4242)])
       [ sample_unit_row "u1" "file" PROCESSING 0 3 (Some 5151);
         sample_unit_row "u2" "file" PENDING 0 3 None ]).

(** C4, at the failing input: the executor process is already gone;
    [kill_executor] returns success, the job reads back [failed] with
    [killed_at] set, and the unit that was [processing] is still
    [processing], assigned to its worker: [reset_stuck_units] was not
    applied on this path. *)
Lemma kill_executor_already_dead_keeps_stuck_units :
  let r := kill_executor env_executor_gone "j" world_executor_crashed in
  let u := get_work_unit (w_db (snd r)) "u1" in
  succeeded (fst r) = true
  /\ Job.status <$> get_job (w_db (snd r)) "j" = Some JOB_FAILED
  /\ (get_job (w_db (snd r)) "j" ≫= fun j => dict_get "killed_at" (Job.metadata j))
     = Some (JStr "2024-05-01T12:00:00")
  /\ WorkUnit.status <$> get_work_unit (w_db world_executor_crashed) "u1" = Some PROCESSING
  /\ WorkUnit.status <$> u = Some PROCESSING
  /\ WorkUnit.worker_id <$> u = Some (Some "worker-1")
  /\ w_signals (snd r) = [(false, 4242, SIG0)].
Proof. vm_compute. repeat split; reflexivity. Qed.

(** On the sibling path, with the executor alive, the same call resets
    the unit. *)
Lemma kill_executor_alive_resets_stuck_units :
  let r := kill_executor sample_env "j" world_executor_crashed in
  succeeded (fst r) = true
  /\ WorkUnit.status <$> get_work_unit (w_db (snd r)) "u1" = Some PENDING
  /\ WorkUnit.worker_id <$> get_work_unit (w_db (snd r)) "u1" = Some None.
Proof. vm_compute. repeat split; reflexivity. Qed.

(** ** Writing a value and reading it back *)

(** An optional datetime whose ISO text is not empty; every datetime that
    Python prints is one. *)
Definition printable (x : option datetime) : Prop :=
  match x with Some d => str_truthy (isoformat d) = true | None => True end.

Lemma dt_norm_printable (x : option datetime) : printable x -> dt_norm x = x.
Proof. destruct x as [d|]; [apply dt_norm_Some | reflexivity]. Qed.

Lemma find_app_new {R : Type} (p : R -> bool) (t : list R) (r : R) :
  existsb p t = false -> p r = true -> List.find p (t ++ [r]) = Some r.
Proof.
  intros Ht Hr. induction t as [|a t IH]; simpl in *.
  - rewrite Hr. reflexivity.
  - destruct (p a); [discriminate | exact (IH Ht)].
Qed.

Lemma row_to_job_insert (job : Job.t) :
  printable (Job.started_at job) -> printable (Job.completed_at job) ->
  _row_to_job (job_insert_row job) = job.
Proof.
  intros H1 H2. destruct job. unfold _row_to_job, job_insert_row. simpl in *.
  rewrite !bool_of_int_of_bool.
  fold (dt_norm started_at). fold (dt_norm completed_at).
  rewrite (dt_norm_printable _ H1), (dt_norm_printable _ H2).
  destruct created_at. reflexivity.
Qed.

(** A float that a REAL cell holds as it is: every float but NaN and the
    negative zero. *)
Definition stored_as_is (x : float) : bool :=
  match PrimFloat.classify x with
  | FloatClass.NaN | FloatClass.NZero => false
  | _ => true
  end.

Definition cell_stored_as_is (x : option float) : bool :=
  match x with Some v => stored_as_is v | None => true end.

Lemma real_cell_stored_as_is (x : option float) :
  cell_stored_as_is x = true -> real_cell x = x.
Proof.
  destruct x as [v|]; [|reflexivity]. unfold cell_stored_as_is, stored_as_is, real_cell.
  destruct (PrimFloat.classify v); try discriminate; reflexivity.
Qed.

(** A worker as [_row_to_worker] gives it back: its
    [total_execution_time] is what the cell holds. *)
Definition loaded_worker (worker : WorkerProcess.t) : WorkerProcess.loaded :=
  WorkerProcess.set_total_execution_time
    (Some (WorkerProcess.total_execution_time worker)) worker.

Lemma row_to_worker_insert (worker : WorkerProcess.t) :
  printable (WorkerProcess.last_heartbeat worker) ->
  stored_as_is (WorkerProcess.total_execution_time worker) = true ->
  _row_to_worker (worker_insert_row worker) = loaded_worker worker.
Proof.
  intros H Hx. destruct worker.
  unfold _row_to_worker, worker_insert_row, loaded_worker.
  cbn [WorkerRow.worker_id WorkerRow.status WorkerRow.job_id WorkerRow.current_unit_id
       WorkerRow.process_id WorkerRow.started_at WorkerRow.last_heartbeat
       WorkerRow.units_completed WorkerRow.units_failed WorkerRow.total_execution_time
       WorkerProcess.worker_id WorkerProcess.status WorkerProcess.job_id
       WorkerProcess.current_unit_id WorkerProcess.process_id WorkerProcess.started_at
       WorkerProcess.last_heartbeat WorkerProcess.units_completed
       WorkerProcess.units_failed WorkerProcess.total_execution_time
       WorkerProcess.set_total_execution_time] in *.
  rewrite (real_cell_stored_as_is (Some _) Hx).
  fold (dt_norm last_heartbeat). rewrite (dt_norm_printable _ H).
  destruct started_at. reflexivity.
Qed.

(** A work unit with its empty containers stored as NULL. *)
Definition without_empty (u : WorkUnit.t) : WorkUnit.t :=
  WorkUnit.set_conversation (keep_if list_truthy (WorkUnit.conversation u))
    (WorkUnit.set_result (keep_if list_truthy (WorkUnit.result u)) u).

Lemma row_to_unit_insert (unit : WorkUnit.t) :
  printable (WorkUnit.assigned_at unit) -> printable (WorkUnit.started_at unit) ->
  printable (WorkUnit.completed_at unit) ->
  cell_stored_as_is (WorkUnit.execution_time_seconds unit) = true ->
  cell_stored_as_is (WorkUnit.cost_usd unit) = true ->
  _row_to_work_unit (unit_insert_row unit)
  = WorkUnit.set_process_id None (without_empty unit).
Proof.
  intros H1 H2 H3 H4 H5. destruct unit.
  unfold _row_to_work_unit, unit_insert_row, without_empty.
  cbn [WorkUnit.execution_time_seconds WorkUnit.cost_usd UnitRow.execution_time_seconds
       UnitRow.cost_usd] in *.
  rewrite (real_cell_stored_as_is _ H4), (real_cell_stored_as_is _ H5). simpl in *.
  fold (dt_norm assigned_at). fold (dt_norm started_at). fold (dt_norm completed_at).
  rewrite (dt_norm_printable _ H1), (dt_norm_printable _ H2), (dt_norm_printable _ H3).
  destruct created_at. reflexivity.
Qed.

Lemma create_returns_true {R : Type} f ints (key : R -> string) (r : R)
    (get : database -> list R) (set : list R -> database -> database) (d : database) :
  let stmt : statement Datatypes.unit := fun d =>
    t ← insert_unique key r (get d); Some (tt, set t d) in
  fst (fst (mutation f
              (fun d => '(_, d) ← conn_execute f 0 ints stmt d; Returned (true, d)) d))
  = Returned true ->
  existsb (fun r' => String.eqb (key r') (key r)) (get d) = false
  /\ snd (fst (mutation f
                 (fun d => '(_, d) ← conn_execute f 0 ints stmt d; Returned (true, d)) d))
     = set (get d ++ [r])%list d.
Proof.
  intros stmt. subst stmt. unfold mutation, _get_connection, conn_execute, insert_unique.
  destruct (connect_fails f); [discriminate|].
  destruct (pragma_fails f); [discriminate|].
  destruct (execute_fails f 0); [discriminate|].
  destruct (bind_overflows f 0 && negb (forallb fits_int64 ints)); [discriminate|]. simpl.
  destruct (existsb _ (get d)); simpl; [discriminate|].
  destruct (commit_fails f); [discriminate|]. intros _. split; reflexivity.
Qed.

(** C7, as the code has it.  A job written by [create_job] reads back
    from [get_job] as it was.  A worker written by [create_worker] reads
    back from its row through [_row_to_worker] as it was, when its
    [total_execution_time] is a float that the REAL cell holds as it is.
    A work unit written by [create_work_unit], whose
    [execution_time_seconds] and [cost_usd] are such floats or [None],
    reads back from [get_work_unit] equal to the original in every field
    other than [process_id], except that an empty [result] dict and an
    empty [conversation] list read back as [None].  Datetimes are compared
    by their ISO text. *)
Theorem create_then_read_back :
  (forall f job d,
     printable (Job.started_at job) -> printable (Job.completed_at job) ->
     fst (fst (create_job f job d)) = Returned true ->
     get_job (snd (fst (create_job f job d))) (Job.job_id job) = Some job)
  /\ (forall f worker d,
     printable (WorkerProcess.last_heartbeat worker) ->
     stored_as_is (WorkerProcess.total_execution_time worker) = true ->
     fst (fst (create_worker f worker d)) = Returned true ->
     _row_to_worker <$>
       fetchone (fun r => String.eqb (WorkerRow.worker_id r) (WorkerProcess.worker_id worker))
                (workers (snd (fst (create_worker f worker d))))
     = Some (loaded_worker worker))
  /\ (forall f unit d,
     printable (WorkUnit.assigned_at unit) -> printable (WorkUnit.started_at unit) ->
     printable (WorkUnit.completed_at unit) ->
     cell_stored_as_is (WorkUnit.execution_time_seconds unit) = true ->
     cell_stored_as_is (WorkUnit.cost_usd unit) = true ->
     fst (fst (create_work_unit f unit d)) = Returned true ->
     exists stored,
       get_work_unit (snd (fst (create_work_unit f unit d))) (WorkUnit.unit_id unit)
       = Some stored
       /\ WorkUnit.set_process_id (WorkUnit.process_id unit) stored = without_empty unit).
Proof.
  split; [|split].
  - intros f job d H1 H2 Hok.
    apply (create_returns_true f _ JobRow.job_id (job_insert_row job) jobs with_jobs d)
      in Hok as [Hnew Hd].
    unfold create_job, sql_insert_job. rewrite Hd. unfold get_job, fetchone.
    cbn [jobs with_jobs]. rewrite find_app_new.
    + simpl. rewrite row_to_job_insert by assumption. reflexivity.
    + exact Hnew.
    + simpl. apply String.eqb_refl.
  - intros f worker d H Hx Hok.
    apply (create_returns_true f _ WorkerRow.worker_id (worker_insert_row worker)
             workers with_workers d) in Hok as [Hnew Hd].
    unfold create_worker, sql_insert_worker. rewrite Hd. unfold fetchone.
    cbn [workers with_workers]. rewrite find_app_new.
    + simpl. rewrite row_to_worker_insert by assumption. reflexivity.
    + exact Hnew.
    + simpl. apply String.eqb_refl.
  - intros f unit d H1 H2 H3 H4 H5 Hok.
    apply (create_returns_true f _ UnitRow.unit_id (unit_insert_row unit)
             work_units with_work_units d) in Hok as [Hnew Hd].
    unfold create_work_unit, sql_insert_work_unit. rewrite Hd.
    unfold get_work_unit, fetchone. cbn [work_units with_work_units].
    rewrite find_app_new.
    + simpl. rewrite row_to_unit_insert by assumption. eexists. split; [reflexivity|].
      destruct unit; reflexivity.
    + exact Hnew.
    + unfold has_unit_id. simpl. apply String.eqb_refl.
Qed.

(** A unit whose agent process is running and whose containers are empty. *)
Definition unit_with_process : WorkUnit.t :=
  WorkUnit.set_conversation (Some [])
    (WorkUnit.set_result (Some [])
       (WorkUnit.set_process_id (Some 4242)
          (_row_to_work_unit (sample_unit_row "u1" "file" PROCESSING 0 3 None)))).

(** C7 as stated fails: the unit is written and read back; its
    [process_id], its empty [result] dict and its empty [conversation]
    list all come back as [None]. *)
Lemma work_unit_round_trip_loses_fields :
  let written := create_work_unit no_faults unit_with_process empty_database in
  let stored := get_work_unit (snd (fst written)) "u1" in
  fst (fst written) = Returned true
  /\ WorkUnit.process_id unit_with_process = Some 4242
  /\ WorkUnit.process_id <$> stored = Some None
  /\ WorkUnit.result unit_with_process = Some []
  /\ WorkUnit.result <$> stored = Some None
  /\ WorkUnit.conversation unit_with_process = Some []
  /\ WorkUnit.conversation <$> stored = Some None
  /\ stored <> Some unit_with_process.
Proof. vm_compute. repeat split; try reflexivity. discriminate. Qed.

Lemma create_then_read_back_witness :
  exists stored,
    get_work_unit (snd (fst (create_work_unit no_faults unit_with_process empty_database)))
      "u1" = Some stored
    /\ WorkUnit.set_process_id (Some 4242) stored = without_empty unit_with_process.
Proof.
  destruct create_then_read_back as (_ & _ & H).
  exact (H no_faults unit_with_process empty_database eq_refl eq_refl I eq_refl eq_refl
           eq_refl).
Defined.

(** A worker whose [total_execution_time] is NaN, and one where it is the
    negative zero. *)
Definition worker_with_total (x : float) : WorkerProcess.t :=
  {| WorkerProcess.worker_id := "worker-1"; WorkerProcess.status := IDLE;
     WorkerProcess.job_id := Some "j"; WorkerProcess.current_unit_id := None;
     WorkerProcess.process_id := None;
     WorkerProcess.started_at := mk_datetime "2024-05-01T12:00:00";
     WorkerProcess.last_heartbeat := None; WorkerProcess.units_completed := 0;
     WorkerProcess.units_failed := 0; WorkerProcess.total_execution_time := x |}.

(** The floats that do not come back: a NaN is read back as [None], and
    a negative zero as [0.0]. *)
Lemma nan_is_read_back_as_none :
  let read x :=
    WorkerProcess.total_execution_time
    <$> (_row_to_worker
         <$> fetchone (fun r => String.eqb (WorkerRow.worker_id r) "worker-1")
               (workers (snd (fst (create_worker no_faults (worker_with_total x)
                                     empty_database))))) in
  read PrimFloat.nan = Some None
  /\ read PrimFloat.neg_zero = Some (Some 0%float)
  /\ read 2.5%float = Some (Some 2.5%float).
Proof. vm_compute. repeat split; reflexivity. Qed.


(** ** Rendering a prompt with a missing variable *)



(** Text without braces. *)
Definition brace_free (s : string) : bool :=
  all_chars (fun c => negb (Ascii.eqb c "{"%char || Ascii.eqb c "}"%char)) s.




Fixpoint chars (s : string) : list piece :=
  match s with
  | EmptyString => []
  | String c r => Char c :: chars r
  end.

Lemma append_cons (c : ascii) (s r : string) : String c s ++ r = String c (s ++ r).
Proof. reflexivity. Qed.


Lemma snoc_append (s : string) (c : ascii) (r : string) :
  snoc s c ++ r = s ++ String c r.
Proof.
  unfold snoc. induction s as [|a s IH]; [reflexivity|].
  rewrite !append_cons, IH. reflexivity.
Qed.

Lemma append_empty_r (s : string) : s ++ EmptyString = s.
Proof. induction s as [|a s IH]; [reflexivity|]. rewrite append_cons, IH. reflexivity. Qed.





Lemma format_pieces_chars E kwargs (s : string) (ps : list piece) (acc : string) :
  format_pieces E kwargs (chars s ++ ps)%list acc = format_pieces E kwargs ps (acc ++ s).
Proof.
  revert acc. induction s as [|c s IH]; intros acc; simpl.
  - rewrite append_empty_r. reflexivity.
  - rewrite IH, snoc_append. reflexivity.
Qed.








(** ** The job counters *)

Lemma get_job_counted d job_id j (j' : Job.t) :
  get_job d job_id = Some j ->
  same_job_identity j j' ->
  Job.started_at j' = Job.started_at j ->
  Job.completed_at j' = Job.completed_at j ->
  get_job
    (with_jobs
       (update_where (fun r => String.eqb (JobRow.job_id r) (Job.job_id j'))
                     (job_update_row j') (jobs d)) d)
    job_id
  = Some j'.
Proof.
  intros Hj Hsame Hs Hc. rewrite (get_job_after_update d job_id j j' Hj Hsame).
  f_equal. destruct (job_as_stored_read _ _ _ Hj) as [H1 H2].
  unfold job_as_stored. rewrite Hs, Hc, H1, H2. rewrite <- Hs, <- Hc.
  destruct j'; reflexivity.
Qed.

(** The job after the completion callback. *)
Lemma on_unit_complete_job E job_id unit result logger w u j :
  w_heap w !! unit = Some u ->
  get_job (w_db w) job_id = Some j ->
  let w' := snd (_on_unit_complete E job_id unit result logger w) in
  get_job (w_db w') job_id
  = Some (if is_post_processing_unit j u then j
          else Job.set_completed_units (Job.completed_units j + 1) j)
  /\ work_units (w_db w') = work_units (w_db w)
  /\ w_heap w' = w_heap w.
Proof.
  intros Hu Hj w'. subst w'. unfold _on_unit_complete, ref in *.
  unfold mbind, M_bind, mret, M_ret, get_db.
  rewrite Hj, (deref_run _ _ _ Hu).
  destruct (is_post_processing_unit j u); cbn [negb].
  - rewrite logger_log_run.
    cbn [w_heap w_db with_heap with_db with_clock fst snd jobs work_units with_logs].
    repeat split. exact Hj.
  - rewrite repo_update_job_run. cbn [fst snd]. rewrite logger_log_run.
    cbn [w_heap w_db with_heap with_db with_clock fst snd jobs work_units with_logs
         with_jobs].
    repeat split.
    apply (get_job_counted (w_db w) job_id j); [exact Hj|repeat split|reflexivity..].
Qed.

(** The job after the failure callback. *)
Lemma on_unit_failed_job E job_id unit result logger w u j :
  w_heap w !! unit = Some u ->
  get_job (w_db w) job_id = Some j ->
  let w' := snd (_on_unit_failed E job_id unit result logger w) in
  get_job (w_db w') job_id
  = Some (if can_retry u || is_post_processing_unit j u then j
          else Job.set_failed_units (Job.failed_units j + 1) j).
Proof.
  intros Hu Hj w'. subst w'.
  destruct (can_retry u) eqn:Hretry.
  - destruct (on_unit_failed_retry_run E job_id unit result logger w u Hu Hretry)
      as (_ & _ & Hjobs).
    unfold get_job in *. rewrite Hjobs. exact Hj.
  - unfold _on_unit_failed, ref in *.
    unfold mbind, M_bind, mret, M_ret, get_db.
    rewrite Hj, (deref_run _ _ _ Hu), Hretry.
    destruct (is_post_processing_unit j u); cbn [negb orb].
    + rewrite logger_log_run.
      cbn [w_heap w_db with_heap with_db with_clock fst snd jobs work_units with_logs].
      exact Hj.
    + rewrite repo_update_job_run. cbn [fst snd]. rewrite logger_log_run.
      cbn [w_heap w_db with_heap with_db with_clock fst snd jobs work_units with_logs
           with_jobs].
      apply (get_job_counted (w_db w) job_id j); [exact Hj|repeat split|reflexivity..].
Qed.

(** *** Code that leaves the [jobs] table alone *)

Definition keeps_jobs {A : Type} (m : M A) : Prop :=
  forall w, jobs (w_db (snd (m w))) = jobs (w_db w).

Lemma keeps_jobs_ret {A : Type} (a : A) : keeps_jobs (mret a : M A).
Proof. intros w. reflexivity. Qed.

Lemma keeps_jobs_bind {A B : Type} (m : M A) (k : A -> M B) :
  keeps_jobs m -> (forall a, keeps_jobs (k a)) -> keeps_jobs (m ≫= k).
Proof.
  intros Hm Hk w. rewrite bind_run. rewrite Hk. apply Hm.
Qed.

Lemma keeps_jobs_now E : keeps_jobs (now E).
Proof. intros w. reflexivity. Qed.

Lemma keeps_jobs_time E : keeps_jobs (time_time E).
Proof. intros w. reflexivity. Qed.

Lemma keeps_jobs_kill E pid sig : keeps_jobs (kill E pid sig).
Proof. intros w. reflexivity. Qed.

Lemma keeps_jobs_killpg E pid sig : keeps_jobs (killpg E pid sig).
Proof. intros w. reflexivity. Qed.

Lemma keeps_jobs_Popen E cmd cwd : keeps_jobs (Popen E cmd cwd).
Proof. intros w. reflexivity. Qed.

Lemma keeps_jobs_session_id unit_id session_id :
  keeps_jobs (repo (fun f => set_work_unit_session_id f unit_id session_id)).
Proof. intros w. reflexivity. Qed.

Lemma keeps_jobs_process_id unit_id pid :
  keeps_jobs (repo (fun f => set_work_unit_process_id f unit_id pid)).
Proof. intros w. reflexivity. Qed.

Lemma keeps_jobs_append unit_id event :
  keeps_jobs (repo (fun f => append_conversation_event f unit_id event)).
Proof.
  intros w. unfold repo, append_conversation_event, mutation, _get_connection,
    conn_execute, sql_select_conversation, no_faults.
  cbn. destruct (fetchone _ _); reflexivity.
Qed.

Lemma keeps_jobs_update_work_unit u :
  keeps_jobs (repo (fun f => update_work_unit f u)).
Proof. intros w. reflexivity. Qed.

Create HintDb keeps_jobs.

#[local] Hint Resolve keeps_jobs_ret keeps_jobs_now keeps_jobs_time keeps_jobs_kill
  keeps_jobs_killpg keeps_jobs_Popen keeps_jobs_session_id keeps_jobs_process_id
  keeps_jobs_append keeps_jobs_update_work_unit : keeps_jobs.

Ltac keeps_jobs_step :=
  lazymatch goal with
  | |- keeps_jobs (_ ≫= _) => apply keeps_jobs_bind; [|intros ?]
  | |- _ => solve [auto with keeps_jobs]
  end.

(** The [on_stream_event] closure writes to the unit's row only. *)
Lemma keeps_jobs_on_stream_event unit_id event_type event :
  keeps_jobs (pool_on_stream_event unit_id event_type event).
Proof.
  unfold pool_on_stream_event.
  destruct (_ && _).
  - destruct (event_get "session_id" event); auto with keeps_jobs.
    destruct (str_truthy _); repeat keeps_jobs_step.
  - destruct (is_conversation_event _); repeat keeps_jobs_step.
Qed.

Lemma keeps_jobs_test_on_process_start unit_id pid :
  keeps_jobs (test_on_process_start unit_id pid).
Proof. unfold test_on_process_start. repeat keeps_jobs_step. Qed.

Section Streaming.
Variable E : env.
Variable on_stream_event : option StreamCallback.
Variable on_process_start : option ProcessCallback.
Hypothesis stream_keeps :
  forall f, on_stream_event = Some f -> forall t e, keeps_jobs (f t e).
Hypothesis start_keeps :
  forall f, on_process_start = Some f -> forall pid, keeps_jobs (f pid).

Lemma keeps_jobs_call_stream event_type event :
  keeps_jobs (call_stream on_stream_event event_type event).
Proof.
  unfold call_stream. destruct on_stream_event eqn:H; [|apply keeps_jobs_ret].
  apply (stream_keeps _ eq_refl).
Qed.

Lemma keeps_jobs_read_event line st :
  keeps_jobs (read_event on_stream_event line st).
Proof.
  pose proof keeps_jobs_call_stream as Hcall.
  unfold read_event. destruct line as [[]|]; try apply keeps_jobs_ret.
  destruct (_ && _).
  { apply keeps_jobs_bind; [apply Hcall|intros ?; apply keeps_jobs_ret]. }
  destruct (is_conversation_event _).
  { apply keeps_jobs_bind; [apply Hcall|intros ?; apply keeps_jobs_ret]. }
  destruct (is_str "result" _); [|apply keeps_jobs_ret].
  apply keeps_jobs_bind; [apply Hcall|intros ?; apply keeps_jobs_ret].
Qed.

Lemma keeps_jobs_read_events lines :
  forall st, keeps_jobs (read_events on_stream_event lines st).
Proof.
  induction lines as [|line lines IH]; intros st; cbn [read_events].
  - apply keeps_jobs_ret.
  - apply keeps_jobs_bind; [apply keeps_jobs_read_event|].
    intros [st'|e]; [apply IH|apply keeps_jobs_ret].
Qed.

Lemma keeps_jobs_execute_with_streaming cmd rendered payload timeout start_time :
  keeps_jobs (_execute_with_streaming E cmd rendered payload timeout start_time
                on_stream_event on_process_start).
Proof.
  unfold _execute_with_streaming.
  apply keeps_jobs_bind; [apply keeps_jobs_Popen|].
  intros [process|e]; [|apply keeps_jobs_ret].
  apply keeps_jobs_bind.
  { destruct on_process_start eqn:H; [|apply keeps_jobs_ret].
    apply (start_keeps _ eq_refl). }
  intros _. apply keeps_jobs_bind; [apply keeps_jobs_read_events|].
  intros [st|e]; [|apply keeps_jobs_ret].
  destruct (proc_timed_out process).
  - repeat keeps_jobs_step. destruct a; repeat keeps_jobs_step.
  - apply keeps_jobs_bind; [apply keeps_jobs_time|]. intros t.
    destruct (keep_if _ _); apply keeps_jobs_ret.
Qed.

Lemma keeps_jobs_execute_except e timeout start_time rendered :
  keeps_jobs (execute_except E e timeout start_time rendered).
Proof. unfold execute_except. repeat keeps_jobs_step. Qed.

(** [ClaudeCliWorker.execute] writes to the [jobs] table only through
    its callbacks. *)
Lemma keeps_jobs_execute self prompt payload timeout :
  keeps_jobs (execute E self prompt payload timeout on_stream_event on_process_start).
Proof.
  unfold execute. apply keeps_jobs_bind; [apply keeps_jobs_time|]. intros t.
  destruct (_render_prompt _ _ _); [|apply keeps_jobs_execute_except].
  apply keeps_jobs_bind; [apply keeps_jobs_execute_with_streaming|].
  intros [r|e]; [apply keeps_jobs_ret|apply keeps_jobs_execute_except].
Qed.
End Streaming.

Lemma get_job_same_jobs d d' job_id :
  jobs d = jobs d' -> get_job d job_id = get_job d' job_id.
Proof. unfold get_job. intros ->. reflexivity. Qed.

(** The job as the test phase leaves it when the worker returned. *)
Definition test_started (test_unit_id : string) (j : Job.t) : Job.t :=
  Job.set_test_unit_id (Some test_unit_id) (Job.set_status JOB_TESTING j).

Definition tested (test_unit_id : string) (passed : bool) (j : Job.t) : Job.t :=
  let j := Job.set_test_passed passed (test_started test_unit_id j) in
  if passed then Job.set_completed_units 1 j else j.

(** A worker implementation that, called with the closures of the test
    phase, leaves the [jobs] table alone. *)
Definition worker_keeps_jobs (worker : driver) : Prop :=
  forall prompt payload timeout unit_id,
    keeps_jobs (worker prompt payload timeout
                  (Some (pool_on_stream_event unit_id))
                  (Some (test_on_process_start unit_id))).

Lemma execute_keeps_jobs E self : worker_keeps_jobs (execute E self).
Proof.
  intros prompt payload timeout unit_id. apply keeps_jobs_execute.
  - intros f [= <-]. apply keeps_jobs_on_stream_event.
  - intros f [= <-]. apply keeps_jobs_test_on_process_start.
Qed.

(** The job after the test phase. *)
Lemma run_test_phase_job E worker j w :
  worker_keeps_jobs worker ->
  get_job (w_db w) (Job.job_id j) = Some j ->
  let r := _run_test_phase E worker j w in
  match get_pending_units (w_db w) (Job.job_id j) 1 with
  | [] =>
      fst r = Returned [("error", JStr "No pending units to test")]
      /\ get_job (w_db (snd r)) (Job.job_id j) = Some j
  | test_unit :: _ =>
      match fst r with
      | Raised _ =>
          get_job (w_db (snd r)) (Job.job_id j)
          = Some (test_started (WorkUnit.unit_id test_unit) j)
      | Returned d =>
          exists passed,
            dict_get "test_passed" d = Some (JBool passed)
            /\ get_job (w_db (snd r)) (Job.job_id j)
               = Some (tested (WorkUnit.unit_id test_unit) passed j)
      end
  end.
Proof.
  intros Hworker Hj r. subst r.
  destruct (get_pending_units (w_db w) (Job.job_id j) 1) as [|test_unit rest] eqn:Hpending.
  { unfold _run_test_phase, mbind, M_bind, mret, M_ret, get_db. rewrite Hpending.
    split; [reflexivity|exact Hj]. }
  destruct (_run_test_phase E worker j w) as [out wf] eqn:Hrun. cbn [fst snd].
  unfold _run_test_phase in Hrun. unfold mbind, M_bind, mret, M_ret, get_db in Hrun.
  rewrite Hpending in Hrun.
  rewrite repo_update_job_run in Hrun. unfold now at 1 in Hrun.
  rewrite repo_update_work_unit_run in Hrun.
  set (j1 := Job.set_test_unit_id _ _) in Hrun.
  match type of Hrun with
  | context [worker ?a ?b ?c (Some (pool_on_stream_event ?uid)) ?e ?w1] =>
      assert (Hkeep : jobs (w_db (snd (worker a b c (Some (pool_on_stream_event uid)) e w1)))
                      = jobs (w_db w1)) by apply Hworker;
      destruct (worker a b c (Some (pool_on_stream_event uid)) e w1) as [res w2]
  end.
  cbn [snd] in Hkeep.
  assert (Hj1 : get_job (w_db w2) (Job.job_id j) = Some j1).
  { rewrite (get_job_same_jobs _ _ _ Hkeep).
    cbn [w_db with_db with_clock with_work_units jobs].
    rewrite <- (get_job_counted (w_db w) (Job.job_id j) j j1 Hj);
      [|repeat split|reflexivity..].
    apply get_job_same_jobs. reflexivity. }
  destruct res as [result|e].
  2:{ injection Hrun as <- <-. exact Hj1. }
  unfold now at 1 in Hrun. rewrite repo_update_work_unit_run in Hrun.
  rewrite repo_update_job_run in Hrun. injection Hrun as <- <-.
  exists (WorkerResult.success result). split; [reflexivity|].
  cbn [w_db with_db with_clock].
  match goal with |- get_job (with_jobs (update_where _ (job_update_row ?j2) _) _) _ = _ =>
    set (jfinal := j2) end.
  transitivity (get_job
    (with_jobs (update_where (fun r => String.eqb (JobRow.job_id r) (Job.job_id jfinal))
                  (job_update_row jfinal) (jobs (w_db w2))) (w_db w2)) (Job.job_id j)).
  { apply get_job_same_jobs. reflexivity. }
  rewrite (get_job_counted (w_db w2) (Job.job_id j) j1 jfinal Hj1).
  - unfold tested, test_started. subst jfinal j1.
    destruct (WorkerResult.success result); reflexivity.
  - subst jfinal j1. destruct (WorkerResult.success result); repeat split.
  - subst jfinal j1. destruct (WorkerResult.success result); reflexivity.
  - subst jfinal j1. destruct (WorkerResult.success result); reflexivity.
Qed.














(** An agent process that reports a result. *)
Definition succeeding_process : process :=
  mk_process 4343
    [ Some (JDict [("type", JStr "assistant"); ("message", JStr "working")]);
      Some (JDict [("type", JStr "result"); ("is_error", JBool false);
                   ("result", JStr "done"); ("total_cost_usd", JFloat 0.25%float)]) ]
    false 0 EmptyString.

Definition env_agent_succeeds : env :=
  {| now_at := now_at sample_env; time_at := time_at sample_env;
     uuid_at := uuid_at sample_env;
     os_kill := os_kill sample_env; os_killpg := os_killpg sample_env;
     popen := fun _ _ => Returned succeeding_process;
     py_str := py_str sample_env; format_spec := format_spec sample_env;
     float_1f := float_1f sample_env; format_exc := format_exc sample_env;
     DEFAULT_WORKER_TIMEOUT := DEFAULT_WORKER_TIMEOUT sample_env |}.

Definition sample_success : WorkerResult.t :=
  {| WorkerResult.success := true; WorkerResult.output := Some "done";
     WorkerResult.error := None; WorkerResult.execution_time := Some 2.5%float;
     WorkerResult.output_files := []; WorkerResult.metadata := [];
     WorkerResult.conversation := [];
     WorkerResult.rendered_prompt := Some "Process /data/a.txt" |}.

Definition running_unit_row : UnitRow.t := sample_unit_row "u1" "file" PROCESSING 0 3 None.

(** A running job of one unit; the executor, pid 4242, is processing the
    unit: the row is [processing], as [_execute_work_unit] wrote it before
    it called the worker. *)
Definition world_unit_running : world :=
  world_holding
    (sample_db (sample_job_row 1 0 0 None [("executor_pid", JInt 4242)])
       [running_unit_row])
    (_row_to_work_unit running_unit_row).






(** A job of two pending units, before its test phase. *)
Definition world_before_test : world :=
  initial_world
    (sample_db (sample_job_row 2 0 0 None [])
       [ sample_unit_row "u1" "file" PENDING 0 3 None;
         sample_unit_row "u2" "file" PENDING 0 3 None ]).

Definition job_of_one_unit : Job.t :=
  _row_to_job (sample_job_row 1 0 0 None [("executor_pid", JInt 4242)]).



(** * Further properties of the code *)

(** ** [ClaudeCliWorker.execute] *)


























(** ** A template variable that the payload does not have *)

(** Code that starts no process. *)
Definition spawns_nothing {A : Type} (m : M A) : Prop :=
  forall w, w_spawned (snd (m w)) = w_spawned w.

Lemma spawns_nothing_ret {A : Type} (a : A) : spawns_nothing (mret a : M A).
Proof. intros w. reflexivity. Qed.

Lemma spawns_nothing_bind {A B : Type} (m : M A) (k : A -> M B) :
  spawns_nothing m -> (forall a, spawns_nothing (k a)) -> spawns_nothing (m ≫= k).
Proof. intros Hm Hk w. rewrite bind_run. rewrite Hk. apply Hm. Qed.




Lemma spawns_nothing_repo op : spawns_nothing (repo op).
Proof. intros w. unfold repo. destruct (op no_faults (w_db w)) as [[r d] ev]. reflexivity. Qed.




Lemma test_on_process_start_spawns_nothing unit_id pid :
  spawns_nothing (test_on_process_start unit_id pid).
Proof.
  unfold test_on_process_start.
  apply spawns_nothing_bind; [apply spawns_nothing_repo|intros ?; apply spawns_nothing_ret].
Qed.

Section Spawning.
Variable E : env.
Variable on_stream_event : option StreamCallback.
Variable on_process_start : option ProcessCallback.
Hypothesis stream_quiet :
  forall f, on_stream_event = Some f -> forall t e, spawns_nothing (f t e).
Hypothesis start_quiet :
  forall f, on_process_start = Some f -> forall pid, spawns_nothing (f pid).






End Spawning.



(** ** [ClaudeCliWorker._render_prompt] *)




Lemma scan_brace_free (s : string) : brace_free s = true -> scan Literal s = chars s.
Proof.
  induction s as [|c s IH]; [reflexivity|].
  cbn [brace_free all_chars scan chars]. intros [Hc Hs]%andb_prop.
  apply negb_true_iff, orb_false_elim in Hc as [Hopen Hclose].
  rewrite Hopen, Hclose, IH by exact Hs. reflexivity.
Qed.


(** A template without braces is the prompt, whatever the payload. *)
Theorem render_prompt_without_placeholders E template payload :
  brace_free template = true ->
  _render_prompt E template payload = Returned template.
Proof.
  intros Hfree. unfold _render_prompt, str_format.
  rewrite (scan_brace_free _ Hfree).
  rewrite <- (app_nil_r (chars template)), format_pieces_chars. reflexivity.
Qed.

Lemma render_prompt_without_placeholders_witness :
  _render_prompt sample_env "Summarise the report." [("file_path", JStr "/data/a.txt")]
  = Returned "Summarise the report.".
Proof.
  exact (render_prompt_without_placeholders sample_env "Summarise the report."
           [("file_path", JStr "/data/a.txt")] eq_refl).
Defined.



(** ** [Repository.reset_stuck_units] and [get_pending_units] *)

Definition unit_is_stuck (job_id : string) (u : WorkUnit.t) : Prop :=
  WorkUnit.job_id u = job_id
  /\ (WorkUnit.status u = ASSIGNED \/ WorkUnit.status u = PROCESSING).

Lemma is_stuck_spec job_id r :
  is_stuck job_id r = true <-> unit_is_stuck job_id (_row_to_work_unit r).
Proof.
  unfold is_stuck, unit_is_stuck. cbn [_row_to_work_unit WorkUnit.job_id WorkUnit.status].
  rewrite andb_true_iff, orb_true_iff, String.eqb_eq, !bool_decide_eq_true. reflexivity.
Qed.

Lemma is_stuck_unstick job_id r : is_stuck job_id (unstick_row r) = false.
Proof.
  unfold is_stuck. cbn. apply andb_false_r.
Qed.

Lemma update_where_none {R : Type} (p : R -> bool) (f : R -> R) (t : list R) :
  List.filter p t = [] -> update_where p f t = t.
Proof.
  unfold update_where. induction t as [|r t IH]; [reflexivity|].
  cbn. destruct (p r); [discriminate|]. intros H. rewrite IH by exact H. reflexivity.
Qed.

Lemma filter_update_where_none {R : Type} (p : R -> bool) (f : R -> R) (t : list R) :
  (forall r, p (f r) = false) -> List.filter p (update_where p f t) = [].
Proof.
  intros Hf. unfold update_where. induction t as [|r t IH]; [reflexivity|].
  cbn. destruct (p r) eqn:Hr; [rewrite Hf|rewrite Hr]; exact IH.
Qed.

Definition is_pending_of (job_id : string) (r : UnitRow.t) : bool :=
  String.eqb (UnitRow.job_id r) job_id && bool_decide (UnitRow.status r = PENDING).

Lemma pending_after_unstick job_id (t : list UnitRow.t) :
  length (List.filter (is_pending_of job_id) (update_where (is_stuck job_id) unstick_row t))
  = (length (List.filter (is_pending_of job_id) t)
     + length (List.filter (is_stuck job_id) t))%nat.
Proof.
  unfold update_where. induction t as [|r t IH]; [reflexivity|].
  cbn [map List.filter]. destruct (is_stuck job_id r) eqn:Hstuck.
  - assert (Hp : is_pending_of job_id (unstick_row r) = true).
    { unfold is_stuck in Hstuck. apply andb_true_iff in Hstuck as [Hjob _].
      unfold is_pending_of. cbn. rewrite Hjob. reflexivity. }
    assert (Hq : is_pending_of job_id r = false).
    { unfold is_stuck in Hstuck. apply andb_true_iff in Hstuck as [_ Hst].
      unfold is_pending_of. apply andb_false_iff. right.
      apply bool_decide_eq_false. intros Hpend. rewrite Hpend in Hst.
      discriminate. }
    rewrite Hp, Hq. cbn [length]. rewrite IH. lia.
  - destruct (is_pending_of job_id r); cbn [length]; rewrite IH; lia.
Qed.

Lemma insert_by_created_at_length r l :
  length (insert_by_created_at r l) = S (length l).
Proof.
  induction l as [|r' l IH]; [reflexivity|].
  cbn. destruct (String.ltb _ _); cbn; [reflexivity|]. rewrite IH. reflexivity.
Qed.

Lemma order_by_created_at_length l : length (order_by_created_at l) = length l.
Proof.
  unfold order_by_created_at. rewrite <- (length_reverse l).
  induction (reverse l) as [|r t IH]; [reflexivity|].
  cbn [foldr]. rewrite insert_by_created_at_length, IH. reflexivity.
Qed.

Lemma pending_count d job_id :
  length (get_pending_units d job_id (-1))
  = length (List.filter (is_pending_of job_id) (work_units d)).
Proof.
  unfold get_pending_units, sql_limit. cbn [Z.ltb Z.compare].
  rewrite length_fmap, order_by_created_at_length. reflexivity.
Qed.

(** [reset_stuck_units]: afterwards no unit of the job is [assigned] or
    [processing]; the units that were neither read back as they were; the
    number returned is the number of units of the job that became
    [pending]; the other tables are untouched, and a second call finds
    nothing to reset. *)
Theorem reset_stuck_units_spec d job_id :
  let r := reset_stuck_units d job_id in
  (forall unit_id u, get_work_unit (snd r) unit_id = Some u -> ~ unit_is_stuck job_id u)
  /\ (forall unit_id u,
        get_work_unit d unit_id = Some u -> ~ unit_is_stuck job_id u ->
        get_work_unit (snd r) unit_id = Some u)
  /\ Z.of_nat (length (get_pending_units (snd r) job_id (-1)))
     = Z.of_nat (length (get_pending_units d job_id (-1))) + fst r
  /\ reset_stuck_units (snd r) job_id = (0, snd r)
  /\ jobs (snd r) = jobs d /\ workers (snd r) = workers d /\ logs (snd r) = logs d.
Proof.
  intros r. subst r. unfold reset_stuck_units. cbn [fst snd].
  assert (Hfind : forall unit_id,
    get_work_unit
      (with_work_units (update_where (is_stuck job_id) unstick_row (work_units d)) d) unit_id
    = _row_to_work_unit <$>
        ((fun r => if is_stuck job_id r then unstick_row r else r)
           <$> List.find (has_unit_id unit_id) (work_units d))).
  { intros unit_id. unfold get_work_unit, fetchone. cbn [work_units with_work_units].
    rewrite find_update_where_key by reflexivity. reflexivity. }
  split; [|split; [|split; [|split]]].
  - intros unit_id u. rewrite Hfind.
    destruct (List.find (has_unit_id unit_id) (work_units d)) as [row|]; [|discriminate].
    cbn. intros [= <-]. rewrite <- is_stuck_spec.
    destruct (is_stuck job_id row) eqn:Hstuck.
    + rewrite is_stuck_unstick. discriminate.
    + rewrite Hstuck. discriminate.
  - intros unit_id u Hu Hnot. rewrite Hfind.
    apply get_work_unit_inv in Hu as (row & Hrow & -> & _). rewrite Hrow. cbn.
    rewrite <- is_stuck_spec in Hnot. apply not_true_is_false in Hnot.
    rewrite Hnot. reflexivity.
  - rewrite !pending_count. cbn [work_units with_work_units].
    rewrite pending_after_unstick. lia.
  - cbn [work_units with_work_units].
    rewrite (filter_update_where_none _ _ _ (is_stuck_unstick job_id)).
    rewrite update_where_none
      by apply (filter_update_where_none _ _ _ (is_stuck_unstick job_id)).
    destruct d; reflexivity.
  - repeat split.
Qed.

Lemma string_ltb_asym a b : String.ltb a b = true -> String.ltb b a = false.
Proof.
  unfold String.ltb. rewrite (String.compare_antisym b a).
  destruct (String.compare a b); cbn; congruence.
Qed.

(** Not later than: the order of [ORDER BY created_at] on the stored
    text. *)
Definition created_not_after (a b : WorkUnit.t) : Prop :=
  String.ltb (isoformat (WorkUnit.created_at b)) (isoformat (WorkUnit.created_at a)) = false.

Definition row_not_after (a b : UnitRow.t) : Prop :=
  String.ltb (UnitRow.created_at b) (UnitRow.created_at a) = false.

Lemma insert_by_created_at_sorted r l :
  Sorted row_not_after l -> Sorted row_not_after (insert_by_created_at r l).
Proof.
  induction l as [|r' l IH]; intros Hl; cbn.
  - repeat constructor.
  - destruct (String.ltb (UnitRow.created_at r) (UnitRow.created_at r')) eqn:Hlt.
    + constructor; [exact Hl|]. constructor. apply string_ltb_asym, Hlt.
    + apply Sorted_inv in Hl as [Hl Hhd]. constructor; [apply IH, Hl|].
      destruct l as [|r'' l]; cbn.
      * constructor. exact Hlt.
      * destruct (String.ltb (UnitRow.created_at r) (UnitRow.created_at r'')).
        -- constructor. exact Hlt.
        -- apply HdRel_inv in Hhd. constructor. exact Hhd.
Qed.

Lemma order_by_created_at_sorted l : Sorted row_not_after (order_by_created_at l).
Proof.
  unfold order_by_created_at. induction (reverse l) as [|r t IH]; cbn [foldr].
  - constructor.
  - apply insert_by_created_at_sorted, IH.
Qed.

Lemma insert_by_created_at_perm r l : insert_by_created_at r l ≡ₚ r :: l.
Proof.
  induction l as [|r' l IH]; [reflexivity|].
  cbn. destruct (String.ltb _ _); [reflexivity|].
  rewrite IH. apply Permutation_swap.
Qed.

Lemma order_by_created_at_perm l : order_by_created_at l ≡ₚ l.
Proof.
  unfold order_by_created_at. rewrite <- (reverse_Permutation l) at 2.
  induction (reverse l) as [|r t IH]; [reflexivity|].
  cbn [foldr]. rewrite insert_by_created_at_perm, IH. reflexivity.
Qed.

Lemma Sorted_take {A : Type} (R : A -> A -> Prop) (n : nat) (l : list A) :
  Sorted R l -> Sorted R (take n l).
Proof.
  revert n. induction l as [|a l IH]; intros n Hl; destruct n; cbn; try constructor.
  - apply IH. apply Sorted_inv in Hl as [Hl _]. exact Hl.
  - apply Sorted_inv in Hl as [_ Hhd].
    destruct l as [|b l]; destruct n; cbn; constructor.
    apply HdRel_inv in Hhd. exact Hhd.
Qed.

Lemma Sorted_fmap {A B : Type} (R : A -> A -> Prop) (S : B -> B -> Prop) (f : A -> B)
    (l : list A) :
  (forall a b, R a b -> S (f a) (f b)) -> Sorted R l -> Sorted S (f <$> l).
Proof.
  intros Hf. induction l as [|a l IH]; intros Hl; cbn; [constructor|].
  apply Sorted_inv in Hl as [Hl Hhd]. constructor; [apply IH, Hl|].
  destruct l as [|b l]; cbn; constructor. apply HdRel_inv in Hhd. apply Hf, Hhd.
Qed.

(** [get_pending_units]: every unit returned is a [pending] unit of the
    job; the units come oldest first by [created_at]; a limit that is not
    negative bounds their number and keeps the oldest; without a limit
    (or with one that is large enough) every pending unit of the job is
    returned. *)
Theorem get_pending_units_spec d job_id limit :
  let units := get_pending_units d job_id limit in
  let all := get_pending_units d job_id (-1) in
  Forall (fun u => WorkUnit.status u = PENDING /\ WorkUnit.job_id u = job_id) units
  /\ Sorted created_not_after units
  /\ (0 <= limit -> Z.of_nat (length units) <= limit
                    /\ units = take (Z.to_nat limit) all)
  /\ (limit < 0 -> units = all)
  /\ all ≡ₚ _row_to_work_unit <$> List.filter (is_pending_of job_id) (work_units d).
Proof.
  intros units all. subst units all. unfold get_pending_units.
  fold (is_pending_of job_id).
  set (rows := order_by_created_at (List.filter (is_pending_of job_id) (work_units d))).
  assert (Hrows : Forall (fun r => is_pending_of job_id r = true) rows).
  { apply Forall_forall. intros r Hr. unfold rows in Hr.
    rewrite order_by_created_at_perm in Hr.
    apply list_elem_of_In, filter_In in Hr as [_ Hr]. exact Hr. }
  assert (Hsub : forall n, Forall (fun r => is_pending_of job_id r = true) (sql_limit n rows)).
  { intros n. unfold sql_limit. destruct (Z.ltb n 0); [exact Hrows|].
    apply Forall_take, Hrows. }
  split; [|split; [|split; [|split]]].
  - apply Forall_fmap. eapply Forall_impl; [apply Hsub|].
    intros r Hr. unfold is_pending_of in Hr. apply andb_true_iff in Hr as [Hjob Hst].
    cbn. split; [apply bool_decide_eq_true in Hst; exact Hst|apply String.eqb_eq, Hjob].
  - apply (Sorted_fmap row_not_after); [intros a b H; exact H|].
    unfold sql_limit. destruct (Z.ltb limit 0);
      [|apply Sorted_take]; apply order_by_created_at_sorted.
  - intros Hlimit. unfold sql_limit. cbn [Z.ltb Z.compare].
    destruct (Z.ltb limit 0) eqn:Hneg; [apply Z.ltb_lt in Hneg; lia|].
    rewrite fmap_take. split; [|reflexivity].
    rewrite length_take. lia.
  - intros Hlimit. unfold sql_limit. cbn [Z.ltb Z.compare].
    apply Z.ltb_lt in Hlimit. rewrite Hlimit. reflexivity.
  - unfold sql_limit. cbn [Z.ltb Z.compare]. unfold rows.
    rewrite order_by_created_at_perm. reflexivity.
Qed.

(** ** The column writes and the updates of the repository *)

Lemma find_other_update_where {R : Type} (p q : R -> bool) (f : R -> R) (t : list R) :
  (forall r, q (f r) = q r) ->
  (forall r, q r = true -> p r = false) ->
  List.find q (update_where p f t) = List.find q t.
Proof.
  intros Hq Hpq. rewrite find_update_where_key by exact Hq.
  destruct (List.find q t) as [r|] eqn:Hr; [|reflexivity].
  apply find_some in Hr as [_ Hr]. cbn. rewrite (Hpq r Hr). reflexivity.
Qed.

Lemma has_unit_id_other unit_id other r :
  other <> unit_id -> has_unit_id other r = true -> has_unit_id unit_id r = false.
Proof.
  unfold has_unit_id. intros Hne ->%String.eqb_eq.
  apply String.eqb_neq. exact Hne.
Qed.

(** A write to one column of the row of a unit, read back. *)
Lemma column_write_read_back d unit_id (set_row : UnitRow.t -> UnitRow.t)
    (set_unit : WorkUnit.t -> WorkUnit.t) u :
  (forall r, UnitRow.unit_id (set_row r) = UnitRow.unit_id r) ->
  (forall r, _row_to_work_unit (set_row r) = set_unit (_row_to_work_unit r)) ->
  get_work_unit d unit_id = Some u ->
  let d' := with_work_units (update_where (has_unit_id unit_id) set_row (work_units d)) d in
  get_work_unit d' unit_id = Some (set_unit u)
  /\ (forall other, other <> unit_id -> get_work_unit d' other = get_work_unit d other).
Proof.
  intros Hid Hset Hu d'. subst d'. unfold get_work_unit, fetchone in *.
  cbn [work_units with_work_units]. split.
  - rewrite find_update_where by (intros r; unfold has_unit_id; rewrite Hid; reflexivity).
    destruct (List.find (has_unit_id unit_id) (work_units d)) as [r|]; [|discriminate].
    cbn in *. injection Hu as <-. rewrite Hset. reflexivity.
  - intros other Hne. rewrite find_other_update_where; [reflexivity| |].
    + intros r. unfold has_unit_id. rewrite Hid. reflexivity.
    + intros r. apply has_unit_id_other, Hne.
Qed.

(** [append_conversation_event] on a unit that has a row: the event is
    appended to the stored conversation (an empty one when the cell is
    NULL), the call returns [True], and nothing else of the unit or of
    any other unit changes. *)
Theorem append_conversation_event_appends d unit_id event u :
  get_work_unit d unit_id = Some u ->
  let r := append_conversation_event no_faults unit_id event d in
  fst (fst r) = Returned true
  /\ get_work_unit (snd (fst r)) unit_id
     = Some (WorkUnit.set_conversation
               (Some (default [] (WorkUnit.conversation u) ++ [event])%list) u)
  /\ (forall other, other <> unit_id ->
        get_work_unit (snd (fst r)) other = get_work_unit d other)
  /\ jobs (snd (fst r)) = jobs d.
Proof.
  intros Hu r. subst r.
  pose proof Hu as (row & Hrow & Hurow & _)%get_work_unit_inv.
  set (current := (default [] (UnitRow.conversation row) ++ [event])%list).
  assert (Hrun : append_conversation_event no_faults unit_id event d
                 = (Returned true,
                    with_work_units
                      (update_where (has_unit_id unit_id)
                         (row_set_conversation (Some current)) (work_units d)) d,
                    [Commit; Close])).
  { unfold append_conversation_event, mutation, _get_connection, conn_execute,
      sql_select_conversation, sql_update_column, no_faults, fetchone.
    cbn [connect_fails pragma_fails execute_fails commit_fails].
    rewrite Hrow. subst current. cbn. destruct (UnitRow.conversation row); reflexivity. }
  rewrite Hrun. cbn [fst snd]. split; [reflexivity|].
  destruct (column_write_read_back d unit_id (row_set_conversation (Some current))
              (WorkUnit.set_conversation (Some current)) u) as [H1 H2];
    [reflexivity|reflexivity|exact Hu|].
  split; [|split; [exact H2|reflexivity]].
  rewrite H1. subst u current. reflexivity.
Qed.

(** [set_work_unit_session_id] and [set_work_unit_process_id] on a unit
    that has a row: the call returns [True], the unit reads back with
    that one field set, and no other unit changes. *)
Theorem set_work_unit_ids_write_one_field d unit_id u :
  get_work_unit d unit_id = Some u ->
  (forall session_id,
     let r := set_work_unit_session_id no_faults unit_id session_id d in
     fst (fst r) = Returned true
     /\ get_work_unit (snd (fst r)) unit_id
        = Some (WorkUnit.set_session_id (Some session_id) u)
     /\ (forall other, other <> unit_id ->
           get_work_unit (snd (fst r)) other = get_work_unit d other))
  /\ (forall process_id,
        let r := set_work_unit_process_id no_faults unit_id process_id d in
        fst (fst r) = Returned true
        /\ get_work_unit (snd (fst r)) unit_id
           = Some (WorkUnit.set_process_id process_id u)
        /\ (forall other, other <> unit_id ->
              get_work_unit (snd (fst r)) other = get_work_unit d other)).
Proof.
  intros Hu. split.
  - intros session_id r. subst r. split; [reflexivity|].
    apply (column_write_read_back d unit_id (row_set_session_id (Some session_id))
             (WorkUnit.set_session_id (Some session_id)) u);
      [reflexivity|reflexivity|exact Hu].
  - intros process_id r. subst r. split; [reflexivity|].
    apply (column_write_read_back d unit_id (row_set_process_id process_id)
             (WorkUnit.set_process_id process_id) u);
      [reflexivity|reflexivity|exact Hu].
Qed.

(** The row an UPDATE of the repository is aimed at. *)
Definition update_target_missing (c : mutation_call) (d : database) : Prop :=
  match c with
  | UpdateJob job => get_job d (Job.job_id job) = None
  | UpdateWorkUnit unit => get_work_unit d (WorkUnit.unit_id unit) = None
  | UpdateWorker worker =>
      List.find (fun r => String.eqb (WorkerRow.worker_id r) (WorkerProcess.worker_id worker))
                (workers d) = None
  | SetWorkUnitSessionId unit_id _ | SetWorkUnitProcessId unit_id _ =>
      get_work_unit d unit_id = None
  | _ => False
  end.

Lemma update_where_no_match {R : Type} (p : R -> bool) (f : R -> R) (t : list R) :
  List.find p t = None -> update_where p f t = t.
Proof.
  unfold update_where. induction t as [|r t IH]; [reflexivity|].
  cbn. destruct (p r); [discriminate|]. intros H. rewrite IH by exact H. reflexivity.
Qed.

Lemma fmap_find_none {A B : Type} (f : A -> B) (x : option A) : f <$> x = None -> x = None.
Proof. destruct x; [discriminate|reflexivity]. Qed.

(** An update of a job, a work unit or a worker, or a write to a column
    of a unit, that is aimed at an id without a row: the call commits and
    returns [True], and the tables are as they were. *)
Theorem update_without_row_reports_success c d :
  update_target_missing c d ->
  run_mutation no_faults c d = (Returned true, d, [Commit; Close]).
Proof.
  destruct c; cbn [update_target_missing run_mutation]; try contradiction; intros H.
  - apply fmap_find_none in H.
    unfold update_job, mutation, _get_connection, conn_execute, sql_update_job, no_faults.
    cbn. unfold fetchone in H. rewrite (update_where_no_match _ _ _ H).
    destruct d; reflexivity.
  - apply fmap_find_none in H.
    unfold update_work_unit, mutation, _get_connection, conn_execute,
      sql_update_work_unit, no_faults.
    cbn. unfold fetchone in H. rewrite (update_where_no_match _ _ _ H).
    destruct d; reflexivity.
  - unfold update_worker, mutation, _get_connection, conn_execute,
      sql_update_worker, no_faults.
    cbn. rewrite (update_where_no_match _ _ _ H). destruct d; reflexivity.
  - apply fmap_find_none in H.
    unfold set_work_unit_session_id, mutation, _get_connection, conn_execute,
      sql_update_column, no_faults.
    cbn. unfold fetchone in H. rewrite (update_where_no_match _ _ _ H).
    destruct d; reflexivity.
  - apply fmap_find_none in H.
    unfold set_work_unit_process_id, mutation, _get_connection, conn_execute,
      sql_update_column, no_faults.
    cbn. unfold fetchone in H. rewrite (update_where_no_match _ _ _ H).
    destruct d; reflexivity.
Qed.

Definition db_one_unit_running : database :=
  sample_db (sample_job_row 1 0 0 None []) [running_unit_row].

Lemma append_conversation_event_appends_witness :
  let r := append_conversation_event no_faults "u1" (JDict [("type", JStr "user")])
             db_one_unit_running in
  fst (fst r) = Returned true
  /\ get_work_unit (snd (fst r)) "u1"
     = Some (WorkUnit.set_conversation
               (Some (default [] (WorkUnit.conversation (_row_to_work_unit running_unit_row))
                      ++ [JDict [("type", JStr "user")]])%list)
               (_row_to_work_unit running_unit_row))
  /\ (forall other, other <> "u1" ->
        get_work_unit (snd (fst r)) other = get_work_unit db_one_unit_running other)
  /\ jobs (snd (fst r)) = jobs db_one_unit_running.
Proof.
  exact (append_conversation_event_appends db_one_unit_running "u1"
           (JDict [("type", JStr "user")]) (_row_to_work_unit running_unit_row)
           ltac:(vm_compute; reflexivity)).
Defined.

Lemma set_work_unit_ids_write_one_field_witness :
  (forall session_id,
     let r := set_work_unit_session_id no_faults "u1" session_id db_one_unit_running in
     fst (fst r) = Returned true
     /\ get_work_unit (snd (fst r)) "u1"
        = Some (WorkUnit.set_session_id (Some session_id)
                  (_row_to_work_unit running_unit_row))
     /\ (forall other, other <> "u1" ->
           get_work_unit (snd (fst r)) other = get_work_unit db_one_unit_running other))
  /\ (forall process_id,
        let r := set_work_unit_process_id no_faults "u1" process_id db_one_unit_running in
        fst (fst r) = Returned true
        /\ get_work_unit (snd (fst r)) "u1"
           = Some (WorkUnit.set_process_id process_id (_row_to_work_unit running_unit_row))
        /\ (forall other, other <> "u1" ->
              get_work_unit (snd (fst r)) other = get_work_unit db_one_unit_running other)).
Proof.
  exact (set_work_unit_ids_write_one_field db_one_unit_running "u1"
           (_row_to_work_unit running_unit_row) ltac:(vm_compute; reflexivity)).
Defined.

Lemma update_without_row_reports_success_witness :
  run_mutation no_faults
    (UpdateWorkUnit (_row_to_work_unit (sample_unit_row "u9" "file" FAILED 0 3 None)))
    db_one_unit_running
  = (Returned true, db_one_unit_running, [Commit; Close]).
Proof.
  exact (update_without_row_reports_success
           (UpdateWorkUnit (_row_to_work_unit (sample_unit_row "u9" "file" FAILED 0 3 None)))
           db_one_unit_running ltac:(vm_compute; reflexivity)).
Defined.

(** ** The executor's callbacks and controls *)

(** The branch of [_on_unit_failed] for a unit without retries left
    leaves the unit objects and the unit rows alone. *)
Lemma on_unit_failed_final_run E job_id unit result logger w u :
  w_heap w !! unit = Some u ->
  can_retry u = false ->
  let w' := snd (_on_unit_failed E job_id unit result logger w) in
  w_heap w' = w_heap w /\ work_units (w_db w') = work_units (w_db w).
Proof.
  intros Hu Hretry w'. subst w'. unfold _on_unit_failed, ref in *.
  unfold mbind, M_bind, mret, M_ret, get_db.
  rewrite (deref_run _ _ _ Hu), Hretry.
  destruct (get_job (w_db w) job_id) as [j|].
  - destruct (is_post_processing_unit j u); cbn [negb].
    + rewrite logger_log_run. split; reflexivity.
    + rewrite repo_update_job_run. cbn [fst snd]. rewrite logger_log_run.
      split; reflexivity.
  - rewrite logger_log_run. split; reflexivity.
Qed.

(** [n] failures of the same unit in a row, as the pool reports them. *)
Fixpoint fail_times (n : nat) (E : env) (job_id : string) (unit : ref)
    (result : WorkerResult.t) (logger : JobLogger) : M Datatypes.unit :=
  match n with
  | O => mret tt
  | S n' =>
      _on_unit_failed E job_id unit result logger;;
      fail_times n' E job_id unit result logger
  end.

(** The retry budget.  A unit other than the post-processing unit, with
    [retry_count <= max_retries], fails [n] times in a row: each of the
    first [max_retries - retry_count] failures raises [retry_count] by
    one and leaves the job's counters alone; every failure after that
    leaves [retry_count] at [max_retries] and adds one to
    [failed_units]. *)
Theorem retries_are_bounded E job_id unit result logger n :
  forall w u j,
  w_heap w !! unit = Some u ->
  get_job (w_db w) job_id = Some j ->
  is_post_processing_unit j u = false ->
  WorkUnit.retry_count u <= WorkUnit.max_retries u ->
  let w' := snd (fail_times n E job_id unit result logger w) in
  let budget := Z.to_nat (WorkUnit.max_retries u - WorkUnit.retry_count u) in
  WorkUnit.retry_count <$> w_heap w' !! unit
  = Some (WorkUnit.retry_count u + Z.of_nat (Nat.min n budget))
  /\ Job.failed_units <$> get_job (w_db w') job_id
     = Some (Job.failed_units j + Z.of_nat (n - budget))
  /\ Job.completed_units <$> get_job (w_db w') job_id = Some (Job.completed_units j).
Proof.
  induction n as [|n IH]; intros w u j Hu Hj Hpp Hle w' budget; subst w'.
  - cbn [fail_times snd mret M_ret]. unfold ref in *. rewrite Hu, Hj. cbn.
    repeat split; f_equal; lia.
  - cbn [fail_times]. rewrite bind_run.
    set (w1 := snd (_on_unit_failed E job_id unit result logger w)).
    destruct (can_retry u) eqn:Hretry.
    + destruct (on_unit_failed_retry_run E job_id unit result logger w u Hu Hretry)
        as (Hheap & _ & Hjobs). fold w1 in Hheap, Hjobs.
      assert (Hu1 : w_heap w1 !! unit = Some (retried u)).
      { rewrite Hheap. apply (lookup_insert_same _ _ u). exact Hu. }
      assert (Hj1 : get_job (w_db w1) job_id = Some j).
      { rewrite (get_job_same_jobs _ _ _ Hjobs). exact Hj. }
      unfold can_retry in Hretry. apply Z.ltb_lt in Hretry.
      destruct (IH w1 (retried u) j Hu1 Hj1 Hpp) as (H1 & H2 & H3).
      { cbn. lia. }
      cbn [retried WorkUnit.retry_count WorkUnit.max_retries WorkUnit.set_started_at
           WorkUnit.set_assigned_at WorkUnit.set_worker_id WorkUnit.set_retry_count
           WorkUnit.set_status] in H1, H2.
      rewrite H1, H2, H3. subst budget. repeat split; f_equal; lia.
    + destruct (on_unit_failed_final_run E job_id unit result logger w u Hu Hretry)
        as (Hheap & _). fold w1 in Hheap.
      pose proof (on_unit_failed_job E job_id unit result logger w u j Hu Hj) as Hj1.
      cbn zeta in Hj1. fold w1 in Hj1. rewrite Hretry, Hpp in Hj1. cbn [orb] in Hj1.
      assert (Hu1 : w_heap w1 !! unit = Some u) by (rewrite Hheap; exact Hu).
      unfold can_retry in Hretry. apply Z.ltb_ge in Hretry.
      destruct (IH w1 u _ Hu1 Hj1 Hpp Hle) as (H1 & H2 & H3).
      cbn [Job.failed_units Job.completed_units Job.set_failed_units] in H2, H3.
      rewrite H1, H2, H3. subst budget. repeat split; f_equal; lia.
Qed.

Lemma retries_are_bounded_witness :
  let u := _row_to_work_unit assigned_unit_row in
  let j := _row_to_job (sample_job_row 1 0 0 None []) in
  let w' := snd (fail_times 5 sample_env "j" 0%nat sample_failure sample_logger
                   world_unit_assigned) in
  let budget := Z.to_nat (WorkUnit.max_retries u - WorkUnit.retry_count u) in
  WorkUnit.retry_count <$> w_heap w' !! 0%nat
  = Some (WorkUnit.retry_count u + Z.of_nat (Nat.min 5 budget))
  /\ Job.failed_units <$> get_job (w_db w') "j"
     = Some (Job.failed_units j + Z.of_nat (5 - budget))
  /\ Job.completed_units <$> get_job (w_db w') "j" = Some (Job.completed_units j).
Proof.
  exact (retries_are_bounded sample_env "j" 0%nat sample_failure sample_logger 5
           world_unit_assigned (_row_to_work_unit assigned_unit_row)
           (_row_to_job (sample_job_row 1 0 0 None []))
           eq_refl ltac:(vm_compute; reflexivity) ltac:(vm_compute; reflexivity)
           ltac:(vm_compute; discriminate)).
Defined.

(** The signal was sent and did not reach a process. *)
Definition not_delivered (E : env) (s : bool * Z * signal) : Prop :=
  let '(group, pid, sig) := s in
  (if group then os_killpg E pid sig else os_kill E pid sig) <> Delivered.

(** [kill_executor] that does not report success (no such job, no
    recorded executor, no permission, or the process vanished between
    the probe and the kill) leaves the database and the unit objects as
    they were: the job is not marked [failed] and no unit is reset.  The
    signals it sent after the probe reached no process. *)
Theorem kill_executor_failure_changes_nothing E job_id w :
  let r := kill_executor E job_id w in
  succeeded (fst r) = false ->
  w_db (snd r) = w_db w
  /\ w_heap (snd r) = w_heap w
  /\ exists probe kills,
       w_signals (snd r) = (w_signals w ++ probe ++ kills)%list
       /\ Forall (fun s => s.2 = SIG0) probe
       /\ Forall (not_delivered E) kills.
Proof.
  intros r. subst r.
  unfold kill_executor, kill, killpg, now, call_reset_stuck_units.
  unfold mbind, M_bind, mret, M_ret, get_db.
  destruct (get_job (w_db w) job_id) as [job|].
  2:{ intros _. repeat split. exists [], []. rewrite !app_nil_r. repeat constructor. }
  destruct (keep_if truthy (dict_get "executor_pid" (Job.metadata job))) as [pidv|].
  2:{ intros _. repeat split. exists [], []. rewrite !app_nil_r. repeat constructor. }
  destruct pidv as [| |pid| | | |];
    try (intros _; repeat split; exists [], []; rewrite !app_nil_r; repeat constructor).
  destruct (os_kill E pid SIG0) eqn:Hprobe; cbn [fst snd].
  - destruct (os_killpg E pid SIGKILL) eqn:Hgroup; cbn [fst snd].
    + cbn. discriminate.
    + destruct (os_kill E pid SIGKILL) eqn:Hsingle; cbn [fst snd].
      * cbn. discriminate.
      * intros _. repeat split.
        exists [(false, pid, SIG0)], [(true, pid, SIGKILL); (false, pid, SIGKILL)].
        cbn [w_signals with_signals]. rewrite <- !app_assoc. split; [reflexivity|].
        split; repeat constructor; cbn; congruence.
      * intros _. repeat split.
        exists [(false, pid, SIG0)], [(true, pid, SIGKILL); (false, pid, SIGKILL)].
        cbn [w_signals with_signals]. rewrite <- !app_assoc. split; [reflexivity|].
        split; repeat constructor; cbn; congruence.
    + destruct (os_kill E pid SIGKILL) eqn:Hsingle; cbn [fst snd].
      * cbn. discriminate.
      * intros _. repeat split.
        exists [(false, pid, SIG0)], [(true, pid, SIGKILL); (false, pid, SIGKILL)].
        cbn [w_signals with_signals]. rewrite <- !app_assoc. split; [reflexivity|].
        split; repeat constructor; cbn; congruence.
      * intros _. repeat split.
        exists [(false, pid, SIG0)], [(true, pid, SIGKILL); (false, pid, SIGKILL)].
        cbn [w_signals with_signals]. rewrite <- !app_assoc. split; [reflexivity|].
        split; repeat constructor; cbn; congruence.
  - cbn. discriminate.
  - intros _. repeat split. exists [(false, pid, SIG0)], [].
    cbn [w_signals with_signals]. rewrite app_nil_r. split; [reflexivity|].
    split; repeat constructor.
Qed.

(** An environment in which the caller may not signal the executor. *)
Definition env_no_permission : env :=
  {| now_at := now_at sample_env; time_at := time_at sample_env;
     uuid_at := uuid_at sample_env;
     os_kill := fun _ _ => PermissionError;
     os_killpg := fun _ _ => PermissionError;
     popen := popen sample_env; py_str := py_str sample_env;
     format_spec := format_spec sample_env; float_1f := float_1f sample_env;
     format_exc := format_exc sample_env;
     DEFAULT_WORKER_TIMEOUT := DEFAULT_WORKER_TIMEOUT sample_env |}.

Lemma kill_executor_failure_changes_nothing_witness :
  let r := kill_executor env_no_permission "j" world_executor_crashed in
  w_db (snd r) = w_db world_executor_crashed
  /\ w_heap (snd r) = w_heap world_executor_crashed
  /\ exists probe kills,
       w_signals (snd r) = (w_signals world_executor_crashed ++ probe ++ kills)%list
       /\ Forall (fun s => s.2 = SIG0) probe
       /\ Forall (not_delivered env_no_permission) kills.
Proof.
  exact (kill_executor_failure_changes_nothing env_no_permission "j" world_executor_crashed
           ltac:(vm_compute; reflexivity)).
Defined.

(** ** [WorkerPool._execute_work_unit] *)

Lemma execute_work_unit_except_worker E self worker unit e w :
  WorkerProcess.worker_id (fst (_execute_work_unit_except E self worker unit e w))
  = WorkerProcess.worker_id worker.
Proof.
  unfold _execute_work_unit_except. repeat rewrite bind_run. reflexivity.
Qed.

Lemma record_result_worker E self worker unit result w :
  WorkerProcess.worker_id (fst (record_result E self worker unit result w))
  = WorkerProcess.worker_id worker.
Proof.
  unfold record_result. repeat rewrite bind_run.
  destruct (WorkerResult.success result).
  - repeat rewrite bind_run.
    destruct (WorkerResult.execution_time result).
    + repeat rewrite bind_run. reflexivity.
    + rewrite execute_work_unit_except_worker. reflexivity.
  - repeat rewrite bind_run. reflexivity.
Qed.






(** The object after the assignments the body makes for a successful
    result that was completed at [t], before it calls
    [on_unit_complete]. *)
Definition completed_attempt (t : datetime) (result : WorkerResult.t) (u : WorkUnit.t)
    : WorkUnit.t :=
  let u := WorkUnit.set_completed_at (Some t) u in
  let u := WorkUnit.set_execution_time_seconds (WorkerResult.execution_time result) u in
  let u := WorkUnit.set_output_files (WorkerResult.output_files result) u in
  let u := WorkUnit.set_process_id None u in
  let u := WorkUnit.set_rendered_prompt (WorkerResult.rendered_prompt result) u in
  let u := WorkUnit.set_conversation (Some (WorkerResult.conversation result)) u in
  let u :=
    if list_truthy (WorkerResult.metadata result) then
      WorkUnit.set_cost_usd
        (json_as_float (event_get "total_cost_usd" (WorkerResult.metadata result)))
        (WorkUnit.set_session_id
           (json_as_str (event_get "session_id" (WorkerResult.metadata result))) u)
    else u in
  let u := WorkUnit.set_status COMPLETED u in
  WorkUnit.set_result (Some (WorkerResult_to_dict result)) u.

Lemma record_result_success E self worker unit result w u cb x :
  w_heap w !! unit = Some u ->
  WorkerResult.success result = true ->
  WorkerResult.execution_time result = Some x ->
  on_unit_complete self = Some cb ->
  exists w1,
    w_heap w1 = <[unit := completed_attempt (now_at E (w_clock w)) result u]> (w_heap w)
    /\ work_units (w_db w1) = work_units (w_db w)
    /\ jobs (w_db w1) = jobs (w_db w)
    /\ snd (record_result E self worker unit result w)
       = snd (persist_unit unit (snd (cb unit result w1))).
Proof.
  intros Hu Hok Htime Hcb. unfold record_result, call_callback, ref in *.
  rewrite Hcb, Hok, Htime.
  unfold mbind, M_bind, mret, M_ret, now, setattr, deref.
  cbn [w_heap with_heap with_clock with_db w_db w_clock fst snd].
  rewrite (alter_as_insert _ _ _ _ Hu), !(alter_insert_same _ _ _ _ _ Hu).
  unfold completed_attempt. rewrite Htime.
  destruct (list_truthy (WorkerResult.metadata result));
    cbn [w_heap with_heap with_clock with_db w_db w_clock fst snd];
    rewrite ?(alter_insert_same _ _ _ _ _ Hu), ?(lookup_insert_same _ _ _ _ Hu);
    cbn [default]; rewrite pool_log_run;
    match goal with |- context [cb unit result ?W] => exists W end;
    cbn [w_heap with_heap with_clock with_db w_db w_clock fst snd jobs work_units
         with_logs];
    (split; [reflexivity|]); (split; [reflexivity|]); (split; [reflexivity|]);
    destruct (cb unit result _); reflexivity.
Qed.

(** A successful attempt in the executor's pool, on the shared object
    [u] of a unit that has a row.  After the body has recorded the
    result and called the completion callback, the unit reads back
    [completed] with the result, the completion time, the conversation,
    the execution time, and the session id and cost of the result's
    metadata, and with no process id; the job reads back with
    [completed_units] one higher, unless the unit is its post-processing
    unit. *)
Theorem successful_attempt_is_recorded E job_id drv worker unit result w u u0 j x :
  w_heap w !! unit = Some u ->
  get_work_unit (w_db w) (WorkUnit.unit_id u) = Some u0 ->
  same_unit_identity u0 u ->
  get_job (w_db w) job_id = Some j ->
  WorkerResult.success result = true ->
  WorkerResult.execution_time result = Some x ->
  let w' := snd (record_result E (executor_pool E job_id drv) worker unit result w) in
  let done := completed_attempt (now_at E (w_clock w)) result u in
  get_work_unit (w_db w') (WorkUnit.unit_id u) = Some (as_stored done)
  /\ w_heap w' !! unit = Some done
  /\ WorkUnit.status done = COMPLETED
  /\ WorkUnit.result done = Some (WorkerResult_to_dict result)
  /\ WorkUnit.process_id done = None
  /\ WorkUnit.retry_count done = WorkUnit.retry_count u
  /\ get_job (w_db w') job_id
     = Some (if is_post_processing_unit j u then j
             else Job.set_completed_units (Job.completed_units j + 1) j).
Proof.
  intros Hu Hu0 Hsame Hj Hok Htime w' done. subst w'.
  destruct (record_result_success E (executor_pool E job_id drv) worker unit result w u _ x
              Hu Hok Htime eq_refl) as (w1 & Hheap1 & Hunits1 & Hjobs1 & ->).
  fold done in Hheap1.
  assert (Hdone : w_heap w1 !! unit = Some done).
  { rewrite Hheap1. exact (lookup_insert_same _ _ _ _ Hu). }
  assert (Hj1 : get_job (w_db w1) job_id = Some j).
  { rewrite (get_job_same_jobs _ _ _ Hjobs1). exact Hj. }
  destruct (on_unit_complete_job E job_id unit result (mk_JobLogger job_id "executor")
              w1 done j Hdone Hj1) as (Hjob2 & Hunits2 & Hheap2).
  set (w2 := snd (_on_unit_complete E job_id unit result _ w1)) in *.
  assert (Hobj : w_heap w2 !! unit = Some done) by (rewrite Hheap2; exact Hdone).
  unfold persist_unit, mbind, M_bind, mret, M_ret. rewrite (deref_run _ _ _ Hobj).
  rewrite repo_update_work_unit_run. cbn [fst snd w_db with_db w_heap].
  assert (Hid : WorkUnit.unit_id done = WorkUnit.unit_id u).
  { unfold done, completed_attempt. destruct (list_truthy _); reflexivity. }
  assert (Hsame' : same_unit_identity u0 done).
  { unfold done, completed_attempt. destruct (list_truthy _); exact Hsame. }
  assert (Hpp : is_post_processing_unit j done = is_post_processing_unit j u).
  { unfold is_post_processing_unit. rewrite Hid. reflexivity. }
  split; [|split; [exact Hobj|]].
  - unfold get_work_unit, fetchone. cbn [work_units with_work_units].
    rewrite Hid, Hunits2, Hunits1.
    apply (find_unit_after_update _ _ u0); [exact Hu0|exact Hsame'].
  - split; [|split; [|split; [|split]]];
      try (unfold done, completed_attempt;
           destruct (list_truthy (WorkerResult.metadata result)); reflexivity).
    rewrite <- Hpp. rewrite <- Hjob2. apply get_job_same_jobs. reflexivity.
Qed.

Lemma successful_attempt_is_recorded_witness :
  let u := _row_to_work_unit running_unit_row in
  let w' := snd (record_result env_agent_succeeds
                   (executor_pool env_agent_succeeds "j"
                      (execute env_agent_succeeds sample_cli))
                   sample_worker 0%nat sample_success world_unit_running) in
  let done := completed_attempt (now_at env_agent_succeeds (w_clock world_unit_running))
                sample_success u in
  get_work_unit (w_db w') (WorkUnit.unit_id u) = Some (as_stored done)
  /\ w_heap w' !! 0%nat = Some done
  /\ WorkUnit.status done = COMPLETED
  /\ WorkUnit.result done = Some (WorkerResult_to_dict sample_success)
  /\ WorkUnit.process_id done = None
  /\ WorkUnit.retry_count done = WorkUnit.retry_count u
  /\ get_job (w_db w') "j"
     = Some (if is_post_processing_unit job_of_one_unit u then job_of_one_unit
             else Job.set_completed_units (Job.completed_units job_of_one_unit + 1)
                    job_of_one_unit).
Proof.
  exact (successful_attempt_is_recorded env_agent_succeeds "j"
           (execute env_agent_succeeds sample_cli) sample_worker 0%nat sample_success
           world_unit_running (_row_to_work_unit running_unit_row)
           (_row_to_work_unit running_unit_row) job_of_one_unit 2.5%float
           eq_refl ltac:(vm_compute; reflexivity) ltac:(repeat split)
           ltac:(vm_compute; reflexivity) eq_refl eq_refl).
Defined.

(** The exception that formatting [None] with [.1f] raises. *)
Definition format_of_None : exn :=
  TypeError "unsupported format string passed to NoneType.__format__".

(** The object after a successful result without an execution time: the
    assignments of the success branch, then those of the [except]
    clause, entered at [t]. *)
Definition crashed_attempt (t0 t : datetime) (result : WorkerResult.t) (u : WorkUnit.t)
    : WorkUnit.t :=
  WorkUnit.set_completed_at (Some t)
    (WorkUnit.set_error (Some ("Unexpected error: " ++ exn_str format_of_None))
       (WorkUnit.set_status FAILED (completed_attempt t0 result u))).

(** The result the [except] clause hands to the failure callback. *)
Definition crash_result (e : exn) : WorkerResult.t :=
  {| WorkerResult.success := false; WorkerResult.output := None;
     WorkerResult.error := Some (exn_str e); WorkerResult.execution_time := None;
     WorkerResult.output_files := []; WorkerResult.metadata := [];
     WorkerResult.conversation := []; WorkerResult.rendered_prompt := None |}.

Lemma record_result_crash E self worker unit result w u cb :
  w_heap w !! unit = Some u ->
  WorkerResult.success result = true ->
  WorkerResult.execution_time result = None ->
  on_unit_failed self = Some cb ->
  let crashed :=
    crashed_attempt (now_at E (w_clock w)) (now_at E (S (w_clock w))) result u in
  exists w1,
    w_heap w1 = <[unit := crashed]> (w_heap w)
    /\ work_units (w_db w1)
       = update_where (has_unit_id (WorkUnit.unit_id u)) (unit_update_row crashed)
           (work_units (w_db w))
    /\ jobs (w_db w1) = jobs (w_db w)
    /\ snd (record_result E self worker unit result w)
       = snd (cb unit (crash_result format_of_None) w1).
Proof.
  intros Hu Hok Htime Hcb crashed. subst crashed.
  unfold record_result, _execute_work_unit_except, call_callback, persist_unit, ref in *.
  rewrite Hcb, Hok, Htime.
  unfold mbind, M_bind, mret, M_ret, now, setattr, deref.
  cbn [w_heap with_heap with_clock with_db w_db w_clock fst snd].
  rewrite (alter_as_insert _ _ _ _ Hu), !(alter_insert_same _ _ _ _ _ Hu).
  unfold crashed_attempt, completed_attempt. rewrite Htime.
  assert (Hid : forall a b, WorkUnit.unit_id
            (if list_truthy (WorkerResult.metadata result) then
               WorkUnit.set_cost_usd a (WorkUnit.set_session_id b u) else u)
          = WorkUnit.unit_id u) by (intros; destruct (list_truthy _); reflexivity).
  destruct (list_truthy (WorkerResult.metadata result));
    cbn [w_heap with_heap with_clock with_db w_db w_clock fst snd];
    rewrite ?(alter_insert_same _ _ _ _ _ Hu), ?(lookup_insert_same _ _ _ _ Hu);
    cbn [default]; rewrite repo_update_work_unit_run;
    cbn [w_heap with_heap with_clock with_db w_db w_clock fst snd];
    rewrite ?(lookup_insert_same _ _ _ _ Hu); cbn [default];
    rewrite pool_log_run;
    match goal with |- context [cb unit ?r ?W] => exists W end;
    cbn [w_heap with_heap with_clock with_db w_db w_clock fst snd jobs work_units
         with_logs with_work_units];
    (split; [reflexivity|]); (split; [reflexivity|]); (split; [reflexivity|]);
    destruct (cb unit _ _); reflexivity.
Qed.

Lemma crashed_attempt_facts t0 t result u :
  let crashed := crashed_attempt t0 t result u in
  can_retry crashed = can_retry u
  /\ WorkUnit.unit_id crashed = WorkUnit.unit_id u
  /\ (forall u0, same_unit_identity u0 u -> same_unit_identity u0 crashed)
  /\ (forall u0, same_unit_identity u0 u -> same_unit_identity u0 (retried crashed)).
Proof.
  unfold crashed_attempt, completed_attempt.
  destruct (list_truthy (WorkerResult.metadata result)); repeat split;
    match goal with H : same_unit_identity _ _ |- _ => apply H end.
Qed.

(** A successful result that carries no execution time, in the
    executor's pool.  Formatting the log line of the success branch
    raises, so the completion callback is not called: the unit is
    handled as a failed one.  With retries left it reads back [pending]
    with [retry_count] one higher, otherwise [failed]; its error is the
    formatting error; the job's [completed_units] is not raised, and
    [failed_units] is raised when the unit has no retries left and is not
    the post-processing unit. *)
Theorem success_without_execution_time_is_a_failure
    E job_id drv worker unit result w u u0 j :
  w_heap w !! unit = Some u ->
  get_work_unit (w_db w) (WorkUnit.unit_id u) = Some u0 ->
  same_unit_identity u0 u ->
  get_job (w_db w) job_id = Some j ->
  WorkerResult.success result = true ->
  WorkerResult.execution_time result = None ->
  let w' := snd (record_result E (executor_pool E job_id drv) worker unit result w) in
  let crashed :=
    crashed_attempt (now_at E (w_clock w)) (now_at E (S (w_clock w))) result u in
  let final := if can_retry u then retried crashed else crashed in
  w_heap w' !! unit = Some final
  /\ get_work_unit (w_db w') (WorkUnit.unit_id u) = Some (as_stored final)
  /\ WorkUnit.status final = (if can_retry u then PENDING else FAILED)
  /\ WorkUnit.error final
     = Some "Unexpected error: unsupported format string passed to NoneType.__format__"
  /\ get_job (w_db w') job_id
     = Some (if can_retry u || is_post_processing_unit j u then j
             else Job.set_failed_units (Job.failed_units j + 1) j).
Proof.
  intros Hu Hu0 Hsame Hj Hok Htime w' crashed final. subst w'.
  destruct (record_result_crash E (executor_pool E job_id drv) worker unit result w u _
              Hu Hok Htime eq_refl) as (w1 & Hheap1 & Hunits1 & Hjobs1 & ->).
  fold crashed in Hheap1, Hunits1.
  destruct (crashed_attempt_facts (now_at E (w_clock w)) (now_at E (S (w_clock w)))
              result u) as (Hretry & Hid & Hsame1 & Hsame2).
  fold crashed in Hretry, Hid, Hsame1, Hsame2.
  assert (Hcrashed : w_heap w1 !! unit = Some crashed).
  { rewrite Hheap1. exact (lookup_insert_same _ _ _ _ Hu). }
  assert (Hj1 : get_job (w_db w1) job_id = Some j).
  { rewrite (get_job_same_jobs _ _ _ Hjobs1). exact Hj. }
  assert (Hpp : is_post_processing_unit j crashed = is_post_processing_unit j u).
  { unfold is_post_processing_unit. rewrite Hid. reflexivity. }
  pose proof (on_unit_failed_job E job_id unit (crash_result format_of_None)
                (mk_JobLogger job_id "executor") w1 crashed j Hcrashed Hj1) as Hjob.
  cbn zeta in Hjob. rewrite Hretry, Hpp in Hjob.
  assert (Hstored1 :
    _row_to_work_unit <$> List.find (has_unit_id (WorkUnit.unit_id u)) (work_units (w_db w1))
    = Some (as_stored crashed)).
  { rewrite Hunits1. apply (find_unit_after_update _ _ u0); [exact Hu0|].
    apply Hsame1, Hsame. }
  subst final. destruct (can_retry u) eqn:Hcan.
  - destruct (on_unit_failed_retry_run E job_id unit (crash_result format_of_None)
                (mk_JobLogger job_id "executor") w1 crashed Hcrashed Hretry)
      as (Hheap2 & Hunits2 & _).
    split; [rewrite Hheap2; exact (lookup_insert_same _ _ _ _ Hcrashed)|].
    split; [|split; [reflexivity|split; [reflexivity|exact Hjob]]].
    unfold get_work_unit, fetchone. rewrite Hunits2, Hid.
    apply (find_unit_after_update _ _ (as_stored crashed)); [exact Hstored1|].
    repeat split.
  - destruct (on_unit_failed_final_run E job_id unit (crash_result format_of_None)
                (mk_JobLogger job_id "executor") w1 crashed Hcrashed Hretry)
      as (Hheap2 & Hunits2).
    split; [rewrite Hheap2; exact Hcrashed|].
    split; [|split; [reflexivity|split; [reflexivity|exact Hjob]]].
    unfold get_work_unit, fetchone. rewrite Hunits2. exact Hstored1.
Qed.

(** A result that reports success and no execution time. *)
Definition success_without_time : WorkerResult.t :=
  {| WorkerResult.success := true; WorkerResult.output := Some "done";
     WorkerResult.error := None; WorkerResult.execution_time := None;
     WorkerResult.output_files := []; WorkerResult.metadata := [];
     WorkerResult.conversation := []; WorkerResult.rendered_prompt := None |}.

Lemma success_without_execution_time_is_a_failure_witness :
  let u := _row_to_work_unit running_unit_row in
  let w' := snd (record_result sample_env
                   (executor_pool sample_env "j" (execute sample_env sample_cli))
                   sample_worker 0%nat success_without_time world_unit_running) in
  let crashed :=
    crashed_attempt (now_at sample_env (w_clock world_unit_running))
      (now_at sample_env (S (w_clock world_unit_running))) success_without_time u in
  let final := if can_retry u then retried crashed else crashed in
  w_heap w' !! 0%nat = Some final
  /\ get_work_unit (w_db w') (WorkUnit.unit_id u) = Some (as_stored final)
  /\ WorkUnit.status final = (if can_retry u then PENDING else FAILED)
  /\ WorkUnit.error final
     = Some "Unexpected error: unsupported format string passed to NoneType.__format__"
  /\ get_job (w_db w') "j"
     = Some (if can_retry u || is_post_processing_unit job_of_one_unit u
             then job_of_one_unit
             else Job.set_failed_units (Job.failed_units job_of_one_unit + 1)
                    job_of_one_unit).
Proof.
  exact (success_without_execution_time_is_a_failure sample_env "j"
           (execute sample_env sample_cli) sample_worker 0%nat success_without_time
           world_unit_running (_row_to_work_unit running_unit_row)
           (_row_to_work_unit running_unit_row) job_of_one_unit
           eq_refl ltac:(vm_compute; reflexivity) ltac:(repeat split)
           ltac:(vm_compute; reflexivity) eq_refl eq_refl).
Defined.

(** ** The queries on workers, units and logs *)

Lemma is_active_terminate job_id r : is_active_worker job_id (terminate_row r) = false.
Proof. unfold is_active_worker. cbn. apply andb_false_r. Qed.

Lemma filter_update_where_other {R : Type} (p q : R -> bool) (f : R -> R) (t : list R) :
  (forall r, p r = true -> q r = false) ->
  (forall r, p r = true -> q (f r) = false) ->
  List.filter q (update_where p f t) = List.filter q t.
Proof.
  intros Hq Hqf. unfold update_where. induction t as [|r t IH]; [reflexivity|].
  cbn. destruct (p r) eqn:Hp.
  - rewrite (Hqf r Hp), (Hq r Hp). exact IH.
  - destruct (q r); rewrite IH; reflexivity.
Qed.

Lemma worker_of_other_job job_id other r :
  other <> job_id -> worker_of_job job_id r = true -> worker_of_job other r = false.
Proof.
  unfold worker_of_job. destruct (WorkerRow.job_id r) as [j|]; [|discriminate].
  intros Hne ->%String.eqb_eq. apply String.eqb_neq. congruence.
Qed.

(** [cleanup_stale_workers]: afterwards the job has no active and no busy
    worker; the number returned is the number of workers that were
    active; the workers of every other job are listed as before; the
    other tables are untouched, and a second call changes nothing. *)
Theorem cleanup_stale_workers_spec d job_id :
  let r := cleanup_stale_workers d job_id in
  get_active_workers (snd r) job_id = []
  /\ get_busy_workers (snd r) job_id = []
  /\ fst r = Z.of_nat (length (get_active_workers d job_id))
  /\ (forall other, other <> job_id ->
        get_active_workers (snd r) other = get_active_workers d other
        /\ get_busy_workers (snd r) other = get_busy_workers d other)
  /\ cleanup_stale_workers (snd r) job_id = (0, snd r)
  /\ jobs (snd r) = jobs d /\ work_units (snd r) = work_units d /\ logs (snd r) = logs d.
Proof.
  intros r. subst r. unfold cleanup_stale_workers, get_active_workers, get_busy_workers.
  cbn [fst snd workers with_workers].
  pose proof (filter_update_where_none (is_active_worker job_id) terminate_row (workers d)
                (is_active_terminate job_id)) as Hnone.
  split; [rewrite Hnone; reflexivity|].
  split.
  { assert (H : List.filter
                  (fun r => worker_of_job job_id r && bool_decide (WorkerRow.status r = BUSY))
                  (update_where (is_active_worker job_id) terminate_row (workers d)) = []).
    { clear Hnone. unfold update_where. induction (workers d) as [|r t IH]; [reflexivity|].
      cbn. destruct (is_active_worker job_id r) eqn:Hact.
      - cbn. rewrite andb_false_r. exact IH.
      - destruct (worker_of_job job_id r && bool_decide (WorkerRow.status r = BUSY)) eqn:Hb;
          [|exact IH].
        apply andb_true_iff in Hb as [Hjob Hbusy]. unfold is_active_worker in Hact.
        rewrite Hjob, Hbusy, orb_true_r in Hact. discriminate. }
    rewrite H. reflexivity. }
  split; [rewrite length_fmap; reflexivity|].
  split.
  { intros other Hne. split; f_equal; apply filter_update_where_other.
    - intros r [Hjob _]%andb_true_iff. unfold is_active_worker.
      rewrite (worker_of_other_job _ _ _ Hne Hjob). reflexivity.
    - intros r [Hjob _]%andb_true_iff. unfold is_active_worker.
      change (worker_of_job other (terminate_row r)) with (worker_of_job other r).
      rewrite (worker_of_other_job _ _ _ Hne Hjob). reflexivity.
    - intros r [Hjob _]%andb_true_iff.
      rewrite (worker_of_other_job _ _ _ Hne Hjob). reflexivity.
    - intros r [Hjob _]%andb_true_iff.
      change (worker_of_job other (terminate_row r)) with (worker_of_job other r).
      rewrite (worker_of_other_job _ _ _ Hne Hjob). reflexivity. }
  split; [|repeat split].
  rewrite Hnone, (update_where_none _ _ _ Hnone). destruct d; reflexivity.
Qed.

Lemma sql_limit_none {R : Type} (l : list R) : sql_limit (-1) l = l.
Proof. reflexivity. Qed.

Lemma sql_offset_zero {R : Type} (l : list R) : sql_offset 0 l = l.
Proof. reflexivity. Qed.

Lemma Sorted_drop {A : Type} (R : A -> A -> Prop) (n : nat) (l : list A) :
  Sorted R l -> Sorted R (drop n l).
Proof.
  revert l. induction n as [|n IH]; intros l Hl; [exact Hl|].
  destruct l as [|a l]; [constructor|]. cbn. apply IH.
  apply Sorted_inv in Hl as [Hl _]. exact Hl.
Qed.

(** [get_units_for_job]: every unit listed is a unit of the job with the
    status asked for (when one is asked for); the units come oldest
    first; a page is the slice of the full listing that [OFFSET] and
    [LIMIT] cut out, so that consecutive pages neither overlap nor skip
    a unit; the full listing has every selected unit once. *)
Theorem get_units_for_job_spec d job_id status limit offset :
  let page := get_units_for_job d job_id status limit offset in
  let all := get_units_for_job d job_id status (-1) 0 in
  Forall (fun u =>
            WorkUnit.job_id u = job_id
            /\ (forall s, keep_if str_truthy status = Some s ->
                          WorkUnitStatus_value (WorkUnit.status u) = s)) page
  /\ Sorted created_not_after page
  /\ page = sql_limit limit (sql_offset offset all)
  /\ (0 <= limit ->
      (page ++ get_units_for_job d job_id status (-1) (Z.max 0 offset + limit))%list
      = get_units_for_job d job_id status (-1) offset)
  /\ all ≡ₚ _row_to_work_unit <$> List.filter (unit_selected job_id status) (work_units d).
Proof.
  intros page all. subst page all. unfold get_units_for_job.
  set (rows := order_by_created_at (List.filter (unit_selected job_id status) (work_units d))).
  rewrite !sql_limit_none, sql_offset_zero.
  assert (Hrows : Forall (fun r => unit_selected job_id status r = true) rows).
  { apply Forall_forall. intros r Hr. unfold rows in Hr.
    rewrite order_by_created_at_perm in Hr.
    apply list_elem_of_In, filter_In in Hr as [_ Hr]. exact Hr. }
  assert (Hslice : forall n o,
            Forall (fun r => unit_selected job_id status r = true)
                   (sql_limit n (sql_offset o rows))).
  { intros n o. unfold sql_limit, sql_offset. destruct (Z.ltb n 0).
    - apply Forall_drop, Hrows.
    - apply Forall_take, Forall_drop, Hrows. }
  split; [|split; [|split; [|split]]].
  - apply Forall_fmap. eapply Forall_impl; [apply Hslice|].
    intros r Hr. unfold unit_selected in Hr. apply andb_true_iff in Hr as [Hjob Hst].
    cbn. split; [apply String.eqb_eq, Hjob|].
    intros s Hs. rewrite Hs in Hst. apply String.eqb_eq, Hst.
  - apply (Sorted_fmap row_not_after); [intros a b H; exact H|].
    unfold sql_limit, sql_offset. destruct (Z.ltb limit 0).
    + apply Sorted_drop, order_by_created_at_sorted.
    + apply Sorted_take, Sorted_drop, order_by_created_at_sorted.
  - unfold sql_limit, sql_offset. destruct (Z.ltb limit 0).
    + rewrite fmap_drop. reflexivity.
    + rewrite fmap_take, fmap_drop. reflexivity.
  - intros Hlimit. unfold sql_limit, sql_offset.
    destruct (Z.ltb limit 0) eqn:Hneg; [apply Z.ltb_lt in Hneg; lia|].
    rewrite <- fmap_app. f_equal.
    replace (Z.to_nat (Z.max 0 offset + limit))
      with (Z.to_nat offset + Z.to_nat limit)%nat by lia.
    rewrite <- drop_drop. apply take_drop.
  - unfold rows. rewrite order_by_created_at_perm. reflexivity.
Qed.

Lemma status_value_eqb s s' :
  String.eqb (WorkUnitStatus_value s) (WorkUnitStatus_value s') = bool_decide (s = s').
Proof. destruct s, s'; reflexivity. Qed.

Definition has_status (job_id : string) (s : WorkUnitStatus) (r : UnitRow.t) : bool :=
  String.eqb (UnitRow.job_id r) job_id && bool_decide (UnitRow.status r = s).

Lemma units_with_status_count d job_id s :
  length (get_units_for_job d job_id (Some (WorkUnitStatus_value s)) (-1) 0)
  = length (List.filter (has_status job_id s) (work_units d)).
Proof.
  unfold get_units_for_job. rewrite sql_limit_none, sql_offset_zero.
  rewrite length_fmap, order_by_created_at_length. f_equal.
  apply filter_ext. intros r. unfold unit_selected, has_status.
  assert (Htruthy : keep_if str_truthy (Some (WorkUnitStatus_value s))
                    = Some (WorkUnitStatus_value s)) by (destruct s; reflexivity).
  rewrite Htruthy, status_value_eqb. reflexivity.
Qed.

Lemma units_of_job_count d job_id :
  length (get_units_for_job d job_id None (-1) 0)
  = length (List.filter (fun r => String.eqb (UnitRow.job_id r) job_id) (work_units d)).
Proof.
  unfold get_units_for_job. rewrite sql_limit_none, sql_offset_zero.
  rewrite length_fmap, order_by_created_at_length. f_equal.
  apply filter_ext. intros r. unfold unit_selected. cbn. apply andb_true_r.
Qed.

(** The count that the dictionary of [count_units_by_status] holds for a
    status; a status without a key counts zero. *)
Definition status_count (counts : pydict) (s : WorkUnitStatus) : Z :=
  match dict_get (WorkUnitStatus_value s) counts with
  | Some (JInt n) => n
  | _ => 0
  end.

Lemma count_units_by_status_lookup d job_id s :
  dict_get (WorkUnitStatus_value s) (count_units_by_status d job_id)
  = match length (List.filter (has_status job_id s) (work_units d)) with
    | O => None
    | S n => Some (JInt (Z.of_nat (S n)))
    end.
Proof.
  unfold count_units_by_status, statuses_by_value. fold (has_status job_id).
  cbn [omap list_omap].
  fold (has_status job_id ASSIGNED) (has_status job_id COMPLETED)
       (has_status job_id FAILED) (has_status job_id PENDING)
       (has_status job_id PROCESSING).
  destruct (length (List.filter (has_status job_id ASSIGNED) (work_units d))) eqn:H1,
           (length (List.filter (has_status job_id COMPLETED) (work_units d))) eqn:H2,
           (length (List.filter (has_status job_id FAILED) (work_units d))) eqn:H3,
           (length (List.filter (has_status job_id PENDING) (work_units d))) eqn:H4,
           (length (List.filter (has_status job_id PROCESSING) (work_units d))) eqn:H5;
    destruct s; rewrite ?H1, ?H2, ?H3, ?H4, ?H5; reflexivity.
Qed.

Lemma units_by_status_partition job_id (l : list UnitRow.t) :
  length (List.filter (fun r => String.eqb (UnitRow.job_id r) job_id) l)
  = (length (List.filter (has_status job_id ASSIGNED) l)
     + length (List.filter (has_status job_id COMPLETED) l)
     + length (List.filter (has_status job_id FAILED) l)
     + length (List.filter (has_status job_id PENDING) l)
     + length (List.filter (has_status job_id PROCESSING) l))%nat.
Proof.
  induction l as [|r l IH]; [reflexivity|].
  unfold has_status in *. cbn [List.filter].
  destruct (String.eqb (UnitRow.job_id r) job_id); cbn [andb]; [|exact IH].
  destruct (UnitRow.status r); repeat case_bool_decide; try congruence;
    cbn [length]; rewrite IH; lia.
Qed.

(** [count_units_by_status]: the count under a status is the number of
    units that [get_units_for_job] lists for that status; a status that
    no unit of the job has gets no key; the counts add up to the number
    of units of the job. *)
Theorem count_units_by_status_spec d job_id :
  let counts := count_units_by_status d job_id in
  (forall s,
     status_count counts s
     = Z.of_nat (length (get_units_for_job d job_id (Some (WorkUnitStatus_value s)) (-1) 0))
     /\ (dict_mem (WorkUnitStatus_value s) counts = false <->
         get_units_for_job d job_id (Some (WorkUnitStatus_value s)) (-1) 0 = []))
  /\ status_count counts PENDING + status_count counts ASSIGNED
     + status_count counts PROCESSING + status_count counts COMPLETED
     + status_count counts FAILED
     = Z.of_nat (length (get_units_for_job d job_id None (-1) 0)).
Proof.
  intros counts. subst counts.
  assert (Hcount : forall s,
    status_count (count_units_by_status d job_id) s
    = Z.of_nat (length (List.filter (has_status job_id s) (work_units d)))).
  { intros s. unfold status_count. rewrite count_units_by_status_lookup.
    destruct (length _); reflexivity. }
  split.
  - intros s. rewrite units_with_status_count, Hcount. split; [reflexivity|].
    unfold dict_mem. rewrite count_units_by_status_lookup.
    rewrite <- length_zero_iff_nil, units_with_status_count.
    destruct (length _); split; congruence.
  - rewrite !Hcount, units_of_job_count, (units_by_status_partition job_id). lia.
Qed.

(** *** Logs *)

Section Descending.
Context {R : Type} (key : R -> string).

Definition not_before (a b : R) : Prop := String.ltb (key a) (key b) = false.

Lemma insert_desc_sorted r l :
  Sorted not_before l -> Sorted not_before (insert_desc key r l).
Proof.
  induction l as [|r' l IH]; intros Hl; cbn.
  - repeat constructor.
  - destruct (String.ltb (key r') (key r)) eqn:Hlt.
    + constructor; [exact Hl|]. constructor. apply string_ltb_asym, Hlt.
    + apply Sorted_inv in Hl as [Hl Hhd]. constructor; [apply IH, Hl|].
      destruct l as [|r'' l]; cbn.
      * constructor. exact Hlt.
      * destruct (String.ltb (key r'') (key r)).
        -- constructor. exact Hlt.
        -- apply HdRel_inv in Hhd. constructor. exact Hhd.
Qed.

Lemma order_by_desc_sorted l : Sorted not_before (order_by_desc key l).
Proof.
  unfold order_by_desc. induction (reverse l) as [|r t IH]; cbn [foldr].
  - constructor.
  - apply insert_desc_sorted, IH.
Qed.

Lemma insert_desc_perm r l : insert_desc key r l ≡ₚ r :: l.
Proof.
  induction l as [|r' l IH]; [reflexivity|].
  cbn. destruct (String.ltb _ _); [reflexivity|].
  rewrite IH. apply Permutation_swap.
Qed.

Lemma order_by_desc_perm l : order_by_desc key l ≡ₚ l.
Proof.
  unfold order_by_desc. rewrite <- (reverse_Permutation l) at 2.
  induction (reverse l) as [|r t IH]; [reflexivity|].
  cbn [foldr]. rewrite insert_desc_perm, IH. reflexivity.
Qed.
End Descending.

(** The timestamp of an entry that [get_logs] returns. *)
Definition entry_timestamp (entry : pydict) : string :=
  match event_get "timestamp" entry with JStr t => t | _ => EmptyString end.

(** [get_logs]: every entry returned belongs to the job and passes each
    filter that was given as a non-empty string; the entries come newest
    first by timestamp; a limit that is not negative bounds their
    number. *)
Theorem get_logs_spec d job_id source level limit offset since :
  let entries := get_logs d job_id source level limit offset since in
  Forall (fun entry =>
            event_get "job_id" entry = JStr job_id
            /\ (forall s, keep_if str_truthy source = Some s ->
                          event_get "source" entry = JStr s)
            /\ (forall l, keep_if str_truthy level = Some l ->
                          event_get "level" entry = JStr l)
            /\ (forall t, keep_if str_truthy since = Some t ->
                          String.ltb t (entry_timestamp entry) = true)) entries
  /\ Sorted (fun a b => String.ltb (entry_timestamp a) (entry_timestamp b) = false) entries
  /\ (0 <= limit -> Z.of_nat (length entries) <= limit)
  /\ get_logs d job_id source level (-1) 0 since
     ≡ₚ log_to_dict <$> List.filter (log_selected job_id source level since) (logs d).
Proof.
  intros entries. subst entries. unfold get_logs.
  set (rows := order_by_desc LogRow.timestamp
                 (List.filter (log_selected job_id source level since) (logs d))).
  assert (Hrows : Forall (fun r => log_selected job_id source level since r = true) rows).
  { apply Forall_forall. intros r Hr. unfold rows in Hr.
    rewrite order_by_desc_perm in Hr.
    apply list_elem_of_In, filter_In in Hr as [_ Hr]. exact Hr. }
  split; [|split; [|split]].
  - apply Forall_fmap.
    assert (Hslice : Forall (fun r => log_selected job_id source level since r = true)
                            (sql_limit limit (sql_offset offset rows))).
    { unfold sql_limit, sql_offset. destruct (Z.ltb limit 0).
      - apply Forall_drop, Hrows.
      - apply Forall_take, Forall_drop, Hrows. }
    eapply Forall_impl; [apply Hslice|].
    intros r Hr. unfold log_selected in Hr.
    apply andb_true_iff in Hr as [Hr Hsince]. apply andb_true_iff in Hr as [Hr Hlevel].
    apply andb_true_iff in Hr as [Hjob Hsource].
    cbn. split; [apply String.eqb_eq in Hjob; rewrite Hjob; reflexivity|].
    split; [|split].
    + intros s Hs. rewrite Hs in Hsource. apply String.eqb_eq in Hsource.
      rewrite Hsource. reflexivity.
    + intros l Hl. rewrite Hl in Hlevel. apply String.eqb_eq in Hlevel.
      rewrite Hlevel. reflexivity.
    + intros t Ht. rewrite Ht in Hsince. exact Hsince.
  - apply (Sorted_fmap (not_before LogRow.timestamp)); [intros a b H; exact H|].
    unfold sql_limit, sql_offset. destruct (Z.ltb limit 0).
    + apply Sorted_drop, order_by_desc_sorted.
    + apply Sorted_take, Sorted_drop, order_by_desc_sorted.
  - intros Hlimit. unfold sql_limit.
    destruct (Z.ltb limit 0) eqn:Hneg; [apply Z.ltb_lt in Hneg; lia|].
    rewrite length_fmap, length_take. lia.
  - rewrite sql_limit_none, sql_offset_zero. unfold rows.
    rewrite order_by_desc_perm. reflexivity.
Qed.

Lemma log_id_below_next (d : database) :
  Forall (fun row => LogRow.id row < next_log_id d) (logs d).
Proof.
  unfold next_log_id. generalize (logs_sequence d). intros seq.
  induction (logs d) as [|row rows IH]; [constructor|].
  cbn [fmap list_fmap foldr]. constructor; [lia|].
  eapply Forall_impl; [exact IH|]. cbn. intros r Hr. lia.
Qed.

(** [add_log] adds one entry to the log of its job: the call returns
    [True], [get_log_count] of that job is one higher and that of every
    other job is as before, and the entry, with the timestamp of the call
    and an id that AUTOINCREMENT gives (larger than every id in the table
    and than every id given before), is among those [get_logs] returns
    for the job. *)
Theorem add_log_is_counted d timestamp e :
  let r := add_log no_faults timestamp e d in
  let d' := snd (fst r) in
  let entry := log_to_dict (log_row (next_log_id d) timestamp e) in
  fst (fst r) = Returned true
  /\ get_log_count d' (log_job_id e) = get_log_count d (log_job_id e) + 1
  /\ (forall other, other <> log_job_id e -> get_log_count d' other = get_log_count d other)
  /\ get_logs d' (log_job_id e) None None (-1) 0 None
     ≡ₚ entry :: get_logs d (log_job_id e) None None (-1) 0 None
  /\ Forall (fun row => LogRow.id row < next_log_id d) (logs d)
  /\ logs_sequence d < next_log_id d
  /\ logs_sequence d' = next_log_id d
  /\ jobs d' = jobs d /\ work_units d' = work_units d /\ workers d' = workers d.
Proof.
  intros r d' entry. subst r d' entry.
  set (row := log_row (next_log_id d) timestamp e).
  assert (Hrun : add_log no_faults timestamp e d
                 = (Returned true,
                    with_logs_sequence (next_log_id d)
                      (with_logs (logs d ++ [row])%list d), [Commit; Close]))
    by reflexivity.
  rewrite Hrun. cbn [fst snd]. split; [reflexivity|].
  unfold get_log_count, get_logs.
  cbn [logs with_logs with_logs_sequence logs_sequence jobs work_units workers].
  rewrite !sql_limit_none, !sql_offset_zero.
  split; [|split; [|split; [|split; [|split; [|repeat split]]]]].
  - rewrite List.filter_app, length_app. cbn. rewrite String.eqb_refl. cbn. lia.
  - intros other Hne. rewrite List.filter_app, length_app. cbn.
    apply String.eqb_neq in Hne. rewrite String.eqb_sym, Hne. cbn. lia.
  - rewrite !order_by_desc_perm, List.filter_app, fmap_app. cbn.
    unfold log_selected at 2. cbn. rewrite String.eqb_refl. cbn.
    rewrite <- Permutation_cons_append. reflexivity.
  - apply log_id_below_next.
  - unfold next_log_id. lia.
Qed.

(** ** The process controls of the executor *)

(** The executor pid that the job's metadata records. *)
Definition recorded_executor (d : database) (job_id : string) : option Z :=
  match get_job d job_id with
  | Some job =>
      match keep_if truthy (dict_get "executor_pid" (Job.metadata job)) with
      | Some (JInt pid) => Some pid
      | _ => None
      end
  | None => None
  end.

Lemma stop_executor_run E job_id w :
  let r := stop_executor E job_id w in
  w_db (snd r) = w_db w
  /\ w_heap (snd r) = w_heap w
  /\ (fst r = Returned true <->
      exists pid, recorded_executor (w_db w) job_id = Some pid
                  /\ os_kill E pid SIGTERM = Delivered)
  /\ w_signals (snd r)
     = (w_signals w ++ match recorded_executor (w_db w) job_id with
                       | Some pid => [(false, pid, SIGTERM)]
                       | None => []
                       end)%list.
Proof.
  intros r. subst r. unfold stop_executor, recorded_executor, kill.
  unfold mbind, M_bind, mret, M_ret, get_db.
  destruct (get_job (w_db w) job_id) as [job|].
  2:{ cbn. rewrite app_nil_r. repeat split; try discriminate.
      intros (pid & [=] & _). }
  destruct (keep_if truthy (dict_get "executor_pid" (Job.metadata job))) as [pidv|].
  2:{ cbn. rewrite app_nil_r. repeat split; try discriminate.
      intros (pid & [=] & _). }
  destruct pidv as [| |pid| | | |];
    try (cbn; rewrite app_nil_r; repeat split; try discriminate;
         intros (pid & [=] & _)).
  destruct (os_kill E pid SIGTERM) eqn:Hsent; cbn; repeat split;
    try discriminate; try (intros (pid' & [= <-] & Hd); congruence).
  intros _. exists pid. split; [reflexivity|exact Hsent].
Qed.

(** [stop_executor] asks the recorded executor process to stop and
    changes nothing itself: it returns [True] exactly when SIGTERM was
    delivered to the recorded pid; it sends no other signal, and the
    database is as before. *)
Theorem stop_executor_spec E job_id w :
  let r := stop_executor E job_id w in
  w_db (snd r) = w_db w
  /\ w_heap (snd r) = w_heap w
  /\ (fst r = Returned true <->
      exists pid, recorded_executor (w_db w) job_id = Some pid
                  /\ os_kill E pid SIGTERM = Delivered)
  /\ w_signals (snd r)
     = (w_signals w ++ match recorded_executor (w_db w) job_id with
                       | Some pid => [(false, pid, SIGTERM)]
                       | None => []
                       end)%list.
Proof. exact (stop_executor_run E job_id w). Qed.

Lemma get_executor_status_run E truediv job_id w job :
  get_job (w_db w) job_id = Some job ->
  let r := get_executor_status E truediv job_id w in
  w_db (snd r) = w_db w
  /\ w_heap (snd r) = w_heap w
  /\ match recorded_executor (w_db w) job_id with
     | Some pid =>
         exists status,
           fst r = Returned status
           /\ event_get "status" status
              = JStr (match os_kill E pid SIG0 with
                      | ProcessLookupError => "stopped"
                      | _ => "running"
                      end)
           /\ event_get "pid" status = JInt pid
           /\ event_get "job_status" status = JStr (JobStatus_value (Job.status job))
           /\ w_signals (snd r) = (w_signals w ++ [(false, pid, SIG0)])%list
     | None =>
         w_signals (snd r) = w_signals w
         /\ forall status, fst r = Returned status ->
                           event_get "status" status = JStr "not_started"
     end.
Proof.
  intros Hj r. subst r. unfold get_executor_status, recorded_executor, kill.
  unfold mbind, M_bind, mret, M_ret, get_db. rewrite Hj.
  destruct (keep_if truthy (dict_get "executor_pid" (Job.metadata job))) as [pidv|].
  2:{ cbn. repeat split. intros status [= <-]. reflexivity. }
  destruct pidv as [| |pid| | | |];
    try (cbn; repeat split; intros status [=]).
  split; [reflexivity|]. split; [reflexivity|].
  eexists. split; [reflexivity|].
  destruct (os_kill E pid SIG0); repeat split.
Qed.

(** [get_executor_status] reads and probes, and changes nothing: the
    database is as before; a job without a recorded executor is
    [not_started] and no signal is sent; otherwise the recorded pid is
    probed with signal 0 and the executor is [stopped] only when the
    probe finds no such process (a process the caller may not signal
    counts as [running]). *)
Theorem get_executor_status_spec E truediv job_id w job :
  get_job (w_db w) job_id = Some job ->
  let r := get_executor_status E truediv job_id w in
  w_db (snd r) = w_db w
  /\ w_heap (snd r) = w_heap w
  /\ match recorded_executor (w_db w) job_id with
     | Some pid =>
         exists status,
           fst r = Returned status
           /\ event_get "status" status
              = JStr (match os_kill E pid SIG0 with
                      | ProcessLookupError => "stopped"
                      | _ => "running"
                      end)
           /\ event_get "pid" status = JInt pid
           /\ event_get "job_status" status = JStr (JobStatus_value (Job.status job))
           /\ w_signals (snd r) = (w_signals w ++ [(false, pid, SIG0)])%list
     | None =>
         w_signals (snd r) = w_signals w
         /\ forall status, fst r = Returned status ->
                           event_get "status" status = JStr "not_started"
     end.
Proof. exact (get_executor_status_run E truediv job_id w job). Qed.

Lemma get_executor_status_spec_witness :
  let job := _row_to_job (sample_job_row 2 0 0 None [("executor_pid", JInt 4242)]) in
  let r := get_executor_status env_no_permission (fun _ _ => 0%float) "j"
             world_executor_crashed in
  w_db (snd r) = w_db world_executor_crashed
  /\ w_heap (snd r) = w_heap world_executor_crashed
  /\ match recorded_executor (w_db world_executor_crashed) "j" with
     | Some pid =>
         exists status,
           fst r = Returned status
           /\ event_get "status" status
              = JStr (match os_kill env_no_permission pid SIG0 with
                      | ProcessLookupError => "stopped"
                      | _ => "running"
                      end)
           /\ event_get "pid" status = JInt pid
           /\ event_get "job_status" status = JStr (JobStatus_value (Job.status job))
           /\ w_signals (snd r)
              = (w_signals world_executor_crashed ++ [(false, pid, SIG0)])%list
     | None =>
         w_signals (snd r) = w_signals world_executor_crashed
         /\ forall status, fst r = Returned status ->
                           event_get "status" status = JStr "not_started"
     end.
Proof.
  exact (get_executor_status_spec env_no_permission (fun _ _ => 0%float) "j"
           world_executor_crashed
           (_row_to_job (sample_job_row 2 0 0 None [("executor_pid", JInt 4242)]))
           ltac:(vm_compute; reflexivity)).
Defined.

(** The unit as [kill_work_unit] writes it when the process is gone. *)
Definition marked_dead (u : WorkUnit.t) : WorkUnit.t :=
  WorkUnit.set_process_id None
    (WorkUnit.set_error (Some "Process killed by user (process already dead)")
       (WorkUnit.set_status FAILED u)).

(** The pid that [kill_work_unit] signals: the unit's, when it is a
    unit of the job and its [process_id] is set and not 0. *)
Definition unit_process (d : database) (job_id unit_id : string) : option Z :=
  match get_work_unit d unit_id with
  | Some u =>
      if String.eqb (WorkUnit.job_id u) job_id
      then keep_if (fun pid => negb (Z.eqb pid 0)) (WorkUnit.process_id u)
      else None
  | None => None
  end.

(** SIGKILL reaches the process: through its group, or else directly. *)
Definition kill_delivered (E : env) (pid : Z) : bool :=
  match os_killpg E pid SIGKILL with
  | Delivered => true
  | _ => match os_kill E pid SIGKILL with Delivered => true | _ => false end
  end.

Lemma kill_work_unit_run E job_id unit_id w :
  let r := kill_work_unit E job_id unit_id w in
  jobs (w_db (snd r)) = jobs (w_db w)
  /\ w_heap (snd r) = w_heap w
  /\ match unit_process (w_db w) job_id unit_id with
     | None => succeeded (Returned (fst r)) = false /\ snd r = w
     | Some pid =>
         forall u, get_work_unit (w_db w) unit_id = Some u ->
         match os_kill E pid SIG0 with
         | ProcessLookupError =>
             succeeded (Returned (fst r)) = true
             /\ get_work_unit (w_db (snd r)) unit_id = Some (as_stored (marked_dead u))
             /\ w_signals (snd r) = (w_signals w ++ [(false, pid, SIG0)])%list
         | PermissionError =>
             succeeded (Returned (fst r)) = false /\ w_db (snd r) = w_db w
         | Delivered =>
             if kill_delivered E pid
             then succeeded (Returned (fst r)) = true
                  /\ get_work_unit (w_db (snd r)) unit_id
                     = Some (as_stored (WorkUnit.set_process_id None u))
             else succeeded (Returned (fst r)) = false /\ w_db (snd r) = w_db w
         end
     end.
Proof.
  intros r. subst r. unfold kill_work_unit, unit_process, kill, killpg.
  unfold mbind, M_bind, mret, M_ret, get_db.
  destruct (get_work_unit (w_db w) unit_id) as [u|] eqn:Hu; [|repeat split].
  destruct (String.eqb (WorkUnit.job_id u) job_id) eqn:Hjob; cbn [negb]; [|repeat split].
  destruct (keep_if (fun pid => negb (Z.eqb pid 0)) (WorkUnit.process_id u)) as [pid|];
    [|repeat split].
  assert (Hfind : forall u',
            same_unit_identity u u' ->
            get_work_unit
              (with_work_units
                 (update_where (has_unit_id (WorkUnit.unit_id u')) (unit_update_row u')
                    (work_units (w_db w))) (w_db w)) unit_id
            = Some (as_stored u')).
  { intros u' Hsame. apply (get_work_unit_after_update _ _ u); assumption. }
  destruct (os_kill E pid SIG0) eqn:Hprobe; cbn [fst snd].
  - destruct (os_killpg E pid SIGKILL) eqn:Hgroup; cbn [fst snd].
    + rewrite repo_update_work_unit_run. cbn [fst snd w_db with_db w_heap jobs
        with_work_units with_signals].
      split; [reflexivity|]. split; [reflexivity|]. intros u0 [= <-].
      unfold kill_delivered. rewrite Hgroup.
      split; [reflexivity|]. apply Hfind. repeat split.
    + destruct (os_kill E pid SIGKILL) eqn:Hsingle; cbn [fst snd].
      * rewrite repo_update_work_unit_run. cbn [fst snd w_db with_db w_heap jobs
          with_work_units with_signals].
        split; [reflexivity|]. split; [reflexivity|]. intros u0 [= <-].
        unfold kill_delivered. rewrite Hgroup, Hsingle.
        split; [reflexivity|]. apply Hfind. repeat split.
      * split; [reflexivity|]. split; [reflexivity|]. intros u0 [= <-].
        unfold kill_delivered. rewrite Hgroup, Hsingle.
        split; reflexivity.
      * split; [reflexivity|]. split; [reflexivity|]. intros u0 [= <-].
        unfold kill_delivered. rewrite Hgroup, Hsingle.
        split; reflexivity.
    + destruct (os_kill E pid SIGKILL) eqn:Hsingle; cbn [fst snd].
      * rewrite repo_update_work_unit_run. cbn [fst snd w_db with_db w_heap jobs
          with_work_units with_signals].
        split; [reflexivity|]. split; [reflexivity|]. intros u0 [= <-].
        unfold kill_delivered. rewrite Hgroup, Hsingle.
        split; [reflexivity|]. apply Hfind. repeat split.
      * split; [reflexivity|]. split; [reflexivity|]. intros u0 [= <-].
        unfold kill_delivered. rewrite Hgroup, Hsingle.
        split; reflexivity.
      * split; [reflexivity|]. split; [reflexivity|]. intros u0 [= <-].
        unfold kill_delivered. rewrite Hgroup, Hsingle.
        split; reflexivity.
  - rewrite repo_update_work_unit_run. cbn [fst snd w_db with_db w_heap jobs
      with_work_units with_signals w_signals].
    split; [reflexivity|]. split; [reflexivity|]. intros u0 [= <-].
    split; [reflexivity|]. split; [|reflexivity]. apply Hfind. repeat split.
  - split; [reflexivity|]. split; [reflexivity|]. intros u0 [= <-].
    split; reflexivity.
Qed.

(** [kill_work_unit].  Without a unit of the job that has a process id,
    it fails and does nothing.  When the probe finds no such process the
    unit is written back [failed], with the error of a kill by the user
    and no process id; the failure callback is not involved: the job's
    row, and with it [failed_units], is as before, and [retry_count] is
    not touched.  When the process is alive it is killed (group first,
    then the process alone) and only the unit's process id is cleared;
    when neither kill is delivered, nothing is written. *)
Theorem kill_work_unit_spec E job_id unit_id w :
  let r := kill_work_unit E job_id unit_id w in
  jobs (w_db (snd r)) = jobs (w_db w)
  /\ w_heap (snd r) = w_heap w
  /\ match unit_process (w_db w) job_id unit_id with
     | None => succeeded (Returned (fst r)) = false /\ snd r = w
     | Some pid =>
         forall u, get_work_unit (w_db w) unit_id = Some u ->
         match os_kill E pid SIG0 with
         | ProcessLookupError =>
             succeeded (Returned (fst r)) = true
             /\ get_work_unit (w_db (snd r)) unit_id = Some (as_stored (marked_dead u))
             /\ w_signals (snd r) = (w_signals w ++ [(false, pid, SIG0)])%list
         | PermissionError =>
             succeeded (Returned (fst r)) = false /\ w_db (snd r) = w_db w
         | Delivered =>
             if kill_delivered E pid
             then succeeded (Returned (fst r)) = true
                  /\ get_work_unit (w_db (snd r)) unit_id
                     = Some (as_stored (WorkUnit.set_process_id None u))
             else succeeded (Returned (fst r)) = false /\ w_db (snd r) = w_db w
         end
     end.
Proof. exact (kill_work_unit_run E job_id unit_id w). Qed.

(** Killing a unit whose process is already gone and restarting it: the
    kill marks the unit [failed] without counting it, and the restart
    lowers the job's [failed_units] by one all the same (not below 0) and
    puts the unit back to [pending]. *)
Theorem kill_then_restart_lowers_failed_units E job_id unit_id w u j pid :
  get_work_unit (w_db w) unit_id = Some u ->
  WorkUnit.job_id u = job_id ->
  WorkUnit.process_id u = Some pid ->
  pid <> 0 ->
  os_kill E pid SIG0 = ProcessLookupError ->
  get_job (w_db w) job_id = Some j ->
  let w1 := snd (kill_work_unit E job_id unit_id w) in
  let w2 := snd (restart_work_unit E job_id unit_id w1) in
  get_job (w_db w1) job_id = Some j
  /\ WorkUnit.status <$> get_work_unit (w_db w1) unit_id = Some FAILED
  /\ get_job (w_db w2) job_id
     = Some (Job.set_failed_units (Z.max 0 (Job.failed_units j - 1)) j)
  /\ WorkUnit.status <$> get_work_unit (w_db w2) unit_id = Some PENDING.
Proof.
  intros Hu Hjob Hpid Hne Hprobe Hj w1 w2.
  destruct (kill_work_unit_run E job_id unit_id w) as (Hjobs & _ & Hkill).
  fold w1 in Hjobs, Hkill.
  assert (Hproc : unit_process (w_db w) job_id unit_id = Some pid).
  { unfold unit_process. rewrite Hu, Hjob, String.eqb_refl, Hpid. cbn.
    apply Z.eqb_neq in Hne. rewrite Hne. reflexivity. }
  rewrite Hproc in Hkill. specialize (Hkill u Hu). rewrite Hprobe in Hkill.
  destruct Hkill as (_ & Hu1 & _).
  assert (Hj1 : get_job (w_db w1) job_id = Some j).
  { rewrite (get_job_same_jobs _ _ _ Hjobs). exact Hj. }
  split; [exact Hj1|]. split; [rewrite Hu1; reflexivity|].
  destruct (restart_failed_unit E job_id unit_id w1 _ Hu1) as (_ & Hu2 & Hj2 & _);
    [exact Hjob|reflexivity|].
  fold w2 in Hu2, Hj2. split; [apply Hj2, Hj1|]. rewrite Hu2. reflexivity.
Qed.

(** A unit that is being processed by process 5151, which has died. *)
Definition world_unit_process_gone : world :=
  initial_world
    (sample_db (sample_job_row 2 0 1 None [])
       [ sample_unit_row "u1" "file" PROCESSING 0 3 (Some 5151);
         sample_unit_row "u2" "file" FAILED 3 3 None ]).

Lemma kill_then_restart_lowers_failed_units_witness :
  let j := _row_to_job (sample_job_row 2 0 1 None []) in
  let w1 := snd (kill_work_unit env_executor_gone "j" "u1" world_unit_process_gone) in
  let w2 := snd (restart_work_unit env_executor_gone "j" "u1" w1) in
  get_job (w_db w1) "j" = Some j
  /\ WorkUnit.status <$> get_work_unit (w_db w1) "u1" = Some FAILED
  /\ get_job (w_db w2) "j"
     = Some (Job.set_failed_units (Z.max 0 (Job.failed_units j - 1)) j)
  /\ WorkUnit.status <$> get_work_unit (w_db w2) "u1" = Some PENDING.
Proof.
  exact (kill_then_restart_lowers_failed_units env_executor_gone "j" "u1"
           world_unit_process_gone
           (_row_to_work_unit (sample_unit_row "u1" "file" PROCESSING 0 3 (Some 5151)))
           (_row_to_job (sample_job_row 2 0 1 None [])) 5151
           ltac:(vm_compute; reflexivity) eq_refl eq_refl ltac:(discriminate) eq_refl
           ltac:(vm_compute; reflexivity)).
Defined.

(** *** Starting and resuming the executor *)

(** The job as [start_detached] writes it back. *)
Definition with_executor (pid : Z) (t : datetime) (j : Job.t) : Job.t :=
  Job.set_metadata
    (dict_set "executor_started_at" (JStr (isoformat t))
       (dict_set "executor_pid" (JInt pid) (Job.metadata j))) j.

Lemma start_detached_run E job_id pid w j :
  get_job (w_db w) job_id = Some j ->
  let r := start_detached E job_id pid w in
  fst r = pid
  /\ get_job (w_db (snd r)) job_id = Some (with_executor pid (now_at E (w_clock w)) j)
  /\ work_units (w_db (snd r)) = work_units (w_db w)
  /\ w_heap (snd r) = w_heap w
  /\ w_signals (snd r) = w_signals w.
Proof.
  intros Hj r. subst r. unfold start_detached, now.
  unfold mbind, M_bind, mret, M_ret, get_db. rewrite Hj.
  rewrite repo_update_job_run. cbn [fst snd w_db with_db with_clock w_heap w_signals
    work_units with_jobs].
  split; [reflexivity|]. split; [|repeat split].
  apply (get_job_counted (w_db w) job_id j); [exact Hj|repeat split|reflexivity..].
Qed.

Lemma recorded_executor_with_executor d job_id pid t j :
  get_job d job_id = Some (with_executor pid t j) ->
  pid <> 0 ->
  recorded_executor d job_id = Some pid.
Proof.
  intros Hj Hpid. unfold recorded_executor. rewrite Hj.
  unfold with_executor. cbn [Job.metadata Job.set_metadata].
  rewrite dict_get_set_other by reflexivity. rewrite dict_get_set_same.
  cbn. apply Z.eqb_neq in Hpid. rewrite Hpid. reflexivity.
Qed.

(** [start_detached] records the executor it started: afterwards the
    job's metadata names the new pid as the executor, which is the pid
    that [stop_executor], [get_executor_status] and [kill_executor] then
    signal; nothing else of the job, and no unit, is changed. *)
Theorem start_detached_records_the_executor E job_id pid w j :
  get_job (w_db w) job_id = Some j ->
  pid <> 0 ->
  let r := start_detached E job_id pid w in
  fst r = pid
  /\ recorded_executor (w_db (snd r)) job_id = Some pid
  /\ get_job (w_db (snd r)) job_id = Some (with_executor pid (now_at E (w_clock w)) j)
  /\ work_units (w_db (snd r)) = work_units (w_db w)
  /\ w_signals (snd (stop_executor E job_id (snd r)))
     = (w_signals w ++ [(false, pid, SIGTERM)])%list.
Proof.
  intros Hj Hpid r. subst r.
  destruct (start_detached_run E job_id pid w j Hj) as (H1 & H2 & H3 & _ & H5).
  pose proof (recorded_executor_with_executor _ _ _ _ _ H2 Hpid) as Hrec.
  split; [exact H1|]. split; [exact Hrec|]. split; [exact H2|]. split; [exact H3|].
  destruct (stop_executor_run E job_id (snd (start_detached E job_id pid w)))
    as (_ & _ & _ & Hsig).
  rewrite Hsig, Hrec, H5. reflexivity.
Qed.

Lemma start_detached_records_the_executor_witness :
  let j := _row_to_job (sample_job_row 2 0 0 None []) in
  let r := start_detached sample_env "j" 777 world_before_test in
  fst r = 777
  /\ recorded_executor (w_db (snd r)) "j" = Some 777
  /\ get_job (w_db (snd r)) "j"
     = Some (with_executor 777 (now_at sample_env (w_clock world_before_test)) j)
  /\ work_units (w_db (snd r)) = work_units (w_db world_before_test)
  /\ w_signals (snd (stop_executor sample_env "j" (snd r)))
     = (w_signals world_before_test ++ [(false, 777, SIGTERM)])%list.
Proof.
  exact (start_detached_records_the_executor sample_env "j" 777 world_before_test
           (_row_to_job (sample_job_row 2 0 0 None []))
           ltac:(vm_compute; reflexivity) ltac:(discriminate)).
Defined.

(** The executor that the metadata records answers the probe. *)
Definition executor_alive (E : env) (d : database) (job_id : string) : bool :=
  match recorded_executor d job_id with
  | Some pid => match os_kill E pid SIG0 with ProcessLookupError => false | _ => true end
  | None => false
  end.

(** The recorded executor pid, when there is one, is an integer. *)
Definition executor_pid_well_formed (d : database) (job_id : string) : Prop :=
  forall j v, get_job d job_id = Some j ->
              keep_if truthy (dict_get "executor_pid" (Job.metadata j)) = Some v ->
              exists pid, v = JInt pid.

(** [resume_job].  For a job that does not exist or has no pending unit
    it returns [None] and does nothing.  While the recorded executor
    answers the probe it returns that executor's pid and starts nothing:
    the database is as before.  Otherwise it records the executor it
    starts and returns its pid. *)
Theorem resume_job_spec E truediv job_id pid w :
  executor_pid_well_formed (w_db w) job_id ->
  pid <> 0 ->
  let r := resume_job E truediv job_id pid w in
  match get_job (w_db w) job_id, get_pending_units (w_db w) job_id 1 with
  | None, _ | Some _, [] => fst r = Returned JNull /\ snd r = w
  | Some j, _ :: _ =>
      if executor_alive E (w_db w) job_id
      then fst r = Returned (opt_json JInt (recorded_executor (w_db w) job_id))
           /\ w_db (snd r) = w_db w
      else fst r = Returned (JInt pid)
           /\ recorded_executor (w_db (snd r)) job_id = Some pid
           /\ work_units (w_db (snd r)) = work_units (w_db w)
  end.
Proof.
  intros Hwf Hpid r. subst r. unfold resume_job.
  rewrite bind_run. change (get_db w) with (w_db w, w). cbn [fst snd].
  destruct (get_job (w_db w) job_id) as [j|] eqn:Hj; [|split; reflexivity].
  destruct (get_pending_units (w_db w) job_id 1) as [|first rest]; [split; reflexivity|].
  rewrite bind_run.
  destruct (get_executor_status_run E truediv job_id w j Hj) as (Hdb & Hheap & Hstatus).
  unfold executor_alive.
  destruct (recorded_executor (w_db w) job_id) as [old|] eqn:Hrec.
  - destruct Hstatus as (status & Hfst & Hst & Hp & _ & _). rewrite Hfst, Hst.
    destruct (os_kill E old SIG0) eqn:Hprobe;
      [change (is_str "running" (JStr "running")) with true
      |change (is_str "running" (JStr "stopped")) with false
      |change (is_str "running" (JStr "running")) with true]; cbn iota.
    + cbn. rewrite Hp. split; [reflexivity|exact Hdb].
    + rewrite bind_run.
      assert (Hj1 : get_job (w_db (snd (get_executor_status E truediv job_id w))) job_id
                    = Some j) by (rewrite Hdb; exact Hj).
      destruct (start_detached_run E job_id pid _ j Hj1) as (H1 & H2' & H4 & _ & _).
      pose proof (recorded_executor_with_executor _ _ _ _ _ H2' Hpid) as H2.
      cbn [fst snd mret M_ret]. rewrite H1. split; [reflexivity|].
      split; [exact H2|]. rewrite H4, Hdb. reflexivity.
    + cbn. rewrite Hp. split; [reflexivity|exact Hdb].
  - destruct Hstatus as (_ & Hstatus).
    assert (Hnone : keep_if truthy (dict_get "executor_pid" (Job.metadata j)) = None).
    { unfold recorded_executor in Hrec. rewrite Hj in Hrec.
      destruct (keep_if truthy (dict_get "executor_pid" (Job.metadata j))) as [v|] eqn:Hv;
        [|reflexivity].
      destruct (Hwf j v Hj Hv) as [n ->]. discriminate. }
    assert (Hfst : fst (get_executor_status E truediv job_id w)
                   = Returned [ ("status", JStr "not_started");
                                ("job_status", JStr (JobStatus_value (Job.status j))) ]).
    { unfold get_executor_status, mbind, M_bind, mret, M_ret, get_db.
      rewrite Hj, Hnone. reflexivity. }
    rewrite Hfst.
    change (is_str "running" (event_get "status" _)) with false. cbn iota.
    rewrite bind_run.
    assert (Hj1 : get_job (w_db (snd (get_executor_status E truediv job_id w))) job_id
                  = Some j) by (rewrite Hdb; exact Hj).
    destruct (start_detached_run E job_id pid _ j Hj1) as (H1 & H2' & H4 & _ & _).
    pose proof (recorded_executor_with_executor _ _ _ _ _ H2' Hpid) as H2.
    cbn [fst snd mret M_ret]. rewrite H1. split; [reflexivity|].
    split; [exact H2|]. rewrite H4, Hdb. reflexivity.
Qed.

Lemma resume_job_spec_witness :
  let r := resume_job sample_env (fun _ _ => 0%float) "j" 777 world_before_test in
  match get_job (w_db world_before_test) "j",
        get_pending_units (w_db world_before_test) "j" 1 with
  | None, _ | Some _, [] => fst r = Returned JNull /\ snd r = world_before_test
  | Some j, _ :: _ =>
      if executor_alive sample_env (w_db world_before_test) "j"
      then fst r = Returned (opt_json JInt (recorded_executor (w_db world_before_test) "j"))
           /\ w_db (snd r) = w_db world_before_test
      else fst r = Returned (JInt 777)
           /\ recorded_executor (w_db (snd r)) "j" = Some 777
           /\ work_units (w_db (snd r)) = work_units (w_db world_before_test)
  end.
Proof.
  assert (Hwf : executor_pid_well_formed (w_db world_before_test) "j").
  { intros j v Hj Hv. vm_compute in Hj. injection Hj as <-. discriminate Hv. }
  exact (resume_job_spec sample_env (fun _ _ => 0%float) "j" 777 world_before_test
           Hwf ltac:(discriminate)).
Defined.

(** The job as [_start_job_executor] leaves it. *)
Definition started (pid : Z) (t1 t2 : datetime) (j : Job.t) : Job.t :=
  with_executor pid t2
    (job_as_stored (Job.set_started_at (Some t1) (Job.set_status JOB_RUNNING j))).

Lemma start_job_executor_run E H j w :
  get_job (w_db w) (Job.job_id j) = Some j ->
  let r := _start_job_executor E H j w in
  get_job (w_db (snd r)) (Job.job_id j)
  = Some (started (executor_pid H) (now_at E (w_clock w)) (now_at E (S (w_clock w))) j)
  /\ work_units (w_db (snd r)) = work_units (w_db w)
  /\ w_heap (snd r) = w_heap w.
Proof.
  intros Hj r. subst r.
  set (j1 := Job.set_started_at (Some (now_at E (w_clock w)))
               (Job.set_status JOB_RUNNING j)).
  set (w1 := with_db
               (with_jobs
                  (update_where (fun r => String.eqb (JobRow.job_id r) (Job.job_id j1))
                     (job_update_row j1) (jobs (w_db w))) (w_db w))
               (with_clock (S (w_clock w)) w)).
  assert (Hrun : snd (_start_job_executor E H j w)
                 = snd (start_detached E (Job.job_id j) (executor_pid H) w1)).
  { unfold _start_job_executor, mbind, M_bind, mret, M_ret, now.
    rewrite repo_update_job_run.
    match goal with |- context [start_detached ?a ?b ?c ?W] =>
      change (start_detached a b c W)
        with (start_detached E (Job.job_id j) (executor_pid H) w1) end.
    destruct (start_detached E (Job.job_id j) (executor_pid H) w1). reflexivity. }
  rewrite Hrun.
  assert (Hj1 : get_job (w_db w1) (Job.job_id j) = Some (job_as_stored j1)).
  { unfold w1. cbn [w_db with_db with_clock].
    apply (get_job_after_update (w_db w) (Job.job_id j) j j1 Hj). repeat split. }
  destruct (start_detached_run E (Job.job_id j) (executor_pid H) w1 _ Hj1)
    as (_ & H2 & H3 & H4 & _).
  split; [exact H2|]. split; [rewrite H3; reflexivity|rewrite H4; reflexivity].
Qed.

(** [start_job] on an existing job, by the job's status.
    - [created]: with a skip flag set the executor is started and the job
      becomes [running]; otherwise the test phase runs, and the job
      becomes [testing] unless it has no pending unit.
    - [testing]: approval starts the executor; rejection puts the job
      back to [created] with [test_passed] false and leaves the counters
      (and the tested unit) as they are; without an answer nothing is
      changed.
    - [running]: while the recorded executor answers the probe nothing is
      written; otherwise a new executor is started.
    - any other status ([ready], [paused], [post_processing],
      [completed], [failed]): an error is returned and nothing is
      changed.
    [total_units] and [failed_units] are never written. *)
Theorem start_job_by_status E H worker job_id approve skip_test w j :
  get_job (w_db w) job_id = Some j ->
  worker_keeps_jobs worker ->
  executor_pid_well_formed (w_db w) job_id ->
  executor_pid H <> 0 ->
  let r := start_job E H worker job_id approve skip_test w in
  let starts j' :=
    Job.status j' = JOB_RUNNING
    /\ recorded_executor (w_db (snd r)) job_id = Some (executor_pid H)
    /\ Job.completed_units j' = Job.completed_units j in
  exists j',
    get_job (w_db (snd r)) job_id = Some j'
    /\ Job.total_units j' = Job.total_units j
    /\ Job.failed_units j' = Job.failed_units j
    /\ match Job.status j with
       | JOB_CREATED =>
           if skip_test || global_skip H || DEFAULT_SKIP_TEST H then starts j'
           else match get_pending_units (w_db w) job_id 1 with
                | [] => j' = j
                | test_unit :: _ =>
                    Job.status j' = JOB_TESTING
                    /\ Job.test_unit_id j' = Some (WorkUnit.unit_id test_unit)
                    /\ (Job.completed_units j' = Job.completed_units j
                        \/ Job.test_passed j' = true /\ Job.completed_units j' = 1)
                end
       | JOB_TESTING =>
           match approve with
           | Some true => starts j'
           | Some false =>
               j' = Job.set_test_passed false (Job.set_status JOB_CREATED j)
               /\ work_units (w_db (snd r)) = work_units (w_db w)
           | None => snd r = w
           end
       | JOB_RUNNING =>
           if executor_alive E (w_db w) job_id then w_db (snd r) = w_db w else starts j'
       | _ => snd r = w /\ exists msg, fst r = Returned [("error", JStr msg)]
       end.
Proof.
  intros Hj Hworker Hwf Hpid r starts.
  pose proof Hj as (row & _ & _ & Hid)%get_job_inv.
  assert (Hjid : Job.job_id j = job_id).
  { apply get_job_inv in Hj as (row' & _ & -> & Hid'). exact Hid'. }
  assert (Hstart : forall w0,
    w_db w0 = w_db w ->
    let r0 := _start_job_executor E H j w0 in
    exists j', get_job (w_db (snd r0)) job_id = Some j'
      /\ Job.total_units j' = Job.total_units j
      /\ Job.failed_units j' = Job.failed_units j
      /\ Job.status j' = JOB_RUNNING
      /\ recorded_executor (w_db (snd r0)) job_id = Some (executor_pid H)
      /\ Job.completed_units j' = Job.completed_units j).
  { intros w0 Hw0 r0. subst r0.
    assert (Hj0 : get_job (w_db w0) (Job.job_id j) = Some j)
      by (rewrite Hw0, Hjid; exact Hj).
    destruct (start_job_executor_run E H j w0 Hj0) as (Hjob & _).
    rewrite Hjid in Hjob. eexists. split; [exact Hjob|].
    repeat split. apply (recorded_executor_with_executor _ _ _ _ _ Hjob Hpid). }
  subst r starts. unfold start_job.
  rewrite bind_run. change (get_db w) with (w_db w, w). cbn [fst snd]. rewrite Hj.
  destruct (Job.status j) eqn:Hstatus.
  - (* created *)
    destruct (skip_test || global_skip H || DEFAULT_SKIP_TEST H).
    + rewrite bind_run. cbn [snd mret M_ret].
      destruct (Hstart w eq_refl) as (j' & H1 & H2 & H3 & H4 & H5 & H6).
      exists j'. repeat split; assumption.
    + pose proof (run_test_phase_job E worker j w Hworker) as Htest.
      rewrite Hjid in Htest. specialize (Htest Hj). cbn zeta in Htest.
      destruct (get_pending_units (w_db w) job_id 1) as [|test_unit rest].
      * destruct Htest as [_ Htest]. exists j. repeat split. exact Htest.
      * destruct (fst (_run_test_phase E worker j w)) as [out|e].
        -- destruct Htest as (passed & _ & Htest). eexists. split; [exact Htest|].
           destruct passed; repeat split; auto.
        -- eexists. split; [exact Htest|]. repeat split. left. reflexivity.
  - (* testing *)
    destruct approve as [[|]|].
    + rewrite bind_run. cbn [snd mret M_ret].
      destruct (Hstart w eq_refl) as (j' & H1 & H2 & H3 & H4 & H5 & H6).
      exists j'. repeat split; assumption.
    + rewrite bind_run, repo_update_job_run. cbn [fst snd mret M_ret w_db with_db].
      eexists. split.
      * apply (get_job_counted (w_db w) job_id j); [exact Hj|repeat split|reflexivity..].
      * repeat split.
    + rewrite bind_run. cbn [snd mret M_ret]. exists j.
      assert (Hsame : snd (_get_test_results j w) = w).
      { unfold _get_test_results. destruct (keep_if str_truthy (Job.test_unit_id j));
          [|reflexivity].
        rewrite bind_run. change (get_db w) with (w_db w, w). cbn [fst snd].
        destruct (get_work_unit (w_db w) s); reflexivity. }
      rewrite Hsame. repeat split. exact Hj.
  - (* ready *)
    exists j. cbn. repeat split; eauto.
  - (* running *)
    rewrite bind_run.
    destruct (get_executor_status_run E (int_truediv H) job_id w j Hj)
      as (Hdb & Hheap & Hstat).
    unfold executor_alive.
    destruct (recorded_executor (w_db w) job_id) as [old|] eqn:Hrec.
    + destruct Hstat as (status & Hfst & Hst & _). rewrite Hfst, Hst.
      destruct (os_kill E old SIG0) eqn:Hprobe;
        [change (is_str "running" (JStr "running")) with true
        |change (is_str "running" (JStr "stopped")) with false
        |change (is_str "running" (JStr "running")) with true]; cbn iota.
      * cbn [snd mret M_ret]. exists j. rewrite Hdb. repeat split. exact Hj.
      * rewrite bind_run. cbn [snd mret M_ret].
        destruct (Hstart _ Hdb) as (j' & H1 & H2 & H3 & H4 & H5 & H6).
        exists j'. repeat split; assumption.
      * cbn [snd mret M_ret]. exists j. rewrite Hdb. repeat split. exact Hj.
    + assert (Hnone : keep_if truthy (dict_get "executor_pid" (Job.metadata j)) = None).
      { unfold recorded_executor in Hrec. rewrite Hj in Hrec.
        destruct (keep_if truthy (dict_get "executor_pid" (Job.metadata j))) as [v|] eqn:Hv;
          [|reflexivity].
        destruct (Hwf j v Hj Hv) as [n ->]. discriminate. }
      assert (Hfst : fst (get_executor_status E (int_truediv H) job_id w)
                     = Returned [ ("status", JStr "not_started");
                                  ("job_status", JStr (JobStatus_value (Job.status j))) ]).
      { unfold get_executor_status, mbind, M_bind, mret, M_ret, get_db.
        rewrite Hj, Hnone. reflexivity. }
      rewrite Hfst.
      change (is_str "running" (event_get "status" _)) with false. cbn iota.
      rewrite bind_run. cbn [snd mret M_ret].
      destruct (Hstart _ Hdb) as (j' & H1 & H2 & H3 & H4 & H5 & H6).
      exists j'. repeat split; assumption.
  - exists j. cbn. repeat split; eauto.
  - exists j. cbn. repeat split; eauto.
  - exists j. cbn. repeat split; eauto.
  - exists j. cbn. repeat split; eauto.
Qed.

Definition sample_host : host := mk_host (fun _ _ => 0%float) 777 false false.

Lemma start_job_by_status_witness :
  let j := _row_to_job (sample_job_row 2 0 0 None []) in
  let r := start_job sample_env sample_host (execute sample_env sample_cli) "j" None false
             world_before_test in
  let starts j' :=
    Job.status j' = JOB_RUNNING
    /\ recorded_executor (w_db (snd r)) "j" = Some (executor_pid sample_host)
    /\ Job.completed_units j' = Job.completed_units j in
  exists j',
    get_job (w_db (snd r)) "j" = Some j'
    /\ Job.total_units j' = Job.total_units j
    /\ Job.failed_units j' = Job.failed_units j
    /\ match Job.status j with
       | JOB_CREATED =>
           if false || global_skip sample_host || DEFAULT_SKIP_TEST sample_host
           then starts j'
           else match get_pending_units (w_db world_before_test) "j" 1 with
                | [] => j' = j
                | test_unit :: _ =>
                    Job.status j' = JOB_TESTING
                    /\ Job.test_unit_id j' = Some (WorkUnit.unit_id test_unit)
                    /\ (Job.completed_units j' = Job.completed_units j
                        \/ Job.test_passed j' = true /\ Job.completed_units j' = 1)
                end
       | JOB_TESTING =>
           match @None bool with
           | Some true => starts j'
           | Some false =>
               j' = Job.set_test_passed false (Job.set_status JOB_CREATED j)
               /\ work_units (w_db (snd r)) = work_units (w_db world_before_test)
           | None => snd r = world_before_test
           end
       | JOB_RUNNING =>
           if executor_alive sample_env (w_db world_before_test) "j"
           then w_db (snd r) = w_db world_before_test else starts j'
       | _ => snd r = world_before_test
              /\ exists msg, fst r = Returned [("error", JStr msg)]
       end.
Proof.
  assert (Hwf : executor_pid_well_formed (w_db world_before_test) "j").
  { intros j v Hj Hv. vm_compute in Hj. injection Hj as <-. discriminate Hv. }
  exact (start_job_by_status sample_env sample_host (execute sample_env sample_cli) "j"
           None false world_before_test (_row_to_job (sample_job_row 2 0 0 None []))
           ltac:(vm_compute; reflexivity) (execute_keeps_jobs _ _) Hwf
           ltac:(discriminate)).
Defined.
